(** * Dezentra wallet / transaction orchestration layer

    A shallow embedding of the React hooks that drive the marketplace's
    wallet session: [Web3Provider] (balance refresh, [getTrade], [buyTrade],
    [approveUSDT]) and [useCurrencyConverter] ([fetchRates], [convertPrice]).

    Conventions of the embedding
    - a JS [bigint] is a [Z]; a JS [number] that carries a price or a ratio is a
      binary64 [float]; chain ids and millisecond timestamps are integers, [Z];
    - a JS string is the sequence of its UTF-16 code units, one [ascii] each:
      the embedding covers the strings whose code units are below 256 (ASCII
      and Latin-1), so [String.length] is [s.length] and comparisons are by
      code unit;
    - [undefined] is [None]; JS truthiness is written out ([truthy_str], ...);
    - a thrown value is a [JsError] carrying its [message];
    - asynchronous code that awaits the chain client is a computation in the
      monad [M]: it yields the ordered list of calls issued to the outside
      world together with either the thrown error or the returned value;
    - the chain client, the HTTP endpoints and the library functions that the
      sources import ([formatUnits], [parseFloat], [decodeEventLog], ...) are
      fields of a record of oracles, so every theorem holds for all of them. *)

From Stdlib Require Import ZArith List String Ascii Bool Lia.
From Stdlib Require Import Floats.PrimFloat.
From stdpp Require Import base option list gmap strings pretty.
Import ListNotations.

Local Open Scope string_scope.
Local Open Scope list_scope.
Local Open Scope Z_scope.

(** ** JavaScript values *)

Module Js.

(** A thrown value: an [Error] object with its [name] and [message]. *)
Record JsError := { name : string; message : string }.

(** [new Error(msg)] *)
Definition Error (msg : string) : JsError := {| name := "Error"; message := msg |}.

(** [error.toString()] of an [Error] object. *)
Definition toString (e : JsError) : string :=
  if String.eqb (name e) "" then message e
  else if String.eqb (message e) "" then name e
  else name e +:+ ": " +:+ message e.

(** [!!s] for an optional string: [undefined] and [""] are falsy. *)
Definition truthy_str (s : option string) : bool :=
  match s with
  | Some s => negb (String.eqb s "")
  | None => false
  end.

(** [!!n] for an optional integer: [undefined] and [0] are falsy. *)
Definition truthy_num (n : option Z) : bool :=
  match n with
  | Some n => negb (Z.eqb n 0)
  | None => false
  end.

(** [!!x] for a [number]: [0], [-0] and [NaN] are falsy. *)
Definition truthy_float (x : float) : bool :=
  negb (PrimFloat.is_zero x || PrimFloat.is_nan x).

(** [x || d] on an optional [number] field of a parsed JSON object. *)
Definition float_or (x : option float) (d : float) : float :=
  match x with
  | Some v => if truthy_float v then v else d
  | None => d
  end.

(** [isFinite(x)] *)
Definition isFinite (x : float) : bool := PrimFloat.is_finite x.

(** [s.startsWith(p)] *)
Definition startsWith (p s : string) : bool := String.prefix p s.

(** [hay.includes(needle)] *)
Fixpoint includes (needle hay : string) : bool :=
  String.prefix needle hay ||
  match hay with
  | EmptyString => false
  | String _ rest => includes needle rest
  end.

(** [s.toLowerCase()], code unit by code unit: below 256 the letters with a
    lower-case form are A-Z and U+00C0-U+00DE without the multiplication sign
    U+00D7, each 32 below its lower-case form. *)
Definition lower_ascii (c : ascii) : ascii :=
  let n := N_of_ascii c in
  if ((65 <=? n) && (n <=? 90))%N then ascii_of_N (n + 32)
  else if ((192 <=? n) && (n <=? 222) && negb (n =? 215))%N then ascii_of_N (n + 32)
  else c.

Fixpoint toLowerCase (s : string) : string :=
  match s with
  | EmptyString => EmptyString
  | String c rest => String (lower_ascii c) (toLowerCase rest)
  end.

(** *** [BigInt(string)]

    StringToBigInt: surrounding white space is dropped, the empty text is
    [0n], a [0x]/[0o]/[0b] prefix selects the radix, otherwise an optional
    sign is followed by decimal digits.  Anything else is a [SyntaxError]. *)

(** StrWhiteSpaceChar: the white space and line terminators of the language.
    Below 256 these are TAB, LF, VT, FF, CR, SP and the no-break space U+00A0;
    the others (U+1680, U+2000-U+200A, U+2028, U+2029, U+202F, U+205F, U+3000,
    U+FEFF) are code units above 255. *)
Definition is_ws (c : ascii) : bool :=
  let n := N_of_ascii c in
  ((n =? 32) || ((9 <=? n) && (n <=? 13)) || (n =? 160))%N.

Fixpoint trimStart (s : string) : string :=
  match s with
  | String c rest => if is_ws c then trimStart rest else s
  | EmptyString => EmptyString
  end.

Definition trim (s : string) : string :=
  String.rev (trimStart (String.rev (trimStart s))).

Definition digit_val (c : ascii) : option Z :=
  let n := Z.of_N (N_of_ascii c) in
  if (48 <=? n) && (n <=? 57) then Some (n - 48)
  else if (97 <=? n) && (n <=? 122) then Some (n - 87)
  else if (65 <=? n) && (n <=? 90) then Some (n - 55)
  else None.

Fixpoint parse_digits (radix : Z) (s : string) (acc : Z) : option Z :=
  match s with
  | EmptyString => Some acc
  | String c rest =>
      match digit_val c with
      | Some d => if d <? radix then parse_digits radix rest (acc * radix + d) else None
      | None => None
      end
  end.

Definition parse_nonempty (radix : Z) (s : string) : option Z :=
  match s with
  | EmptyString => None
  | _ => parse_digits radix s 0
  end.

Definition StringToBigInt (s : string) : option Z :=
  match trim s with
  | EmptyString => Some 0
  | String "0" (String "x" ds) | String "0" (String "X" ds) => parse_nonempty 16 ds
  | String "0" (String "o" ds) | String "0" (String "O" ds) => parse_nonempty 8 ds
  | String "0" (String "b" ds) | String "0" (String "B" ds) => parse_nonempty 2 ds
  | String "-" ds => Z.opp <$> parse_nonempty 10 ds
  | String "+" ds => parse_nonempty 10 ds
  | ds => parse_nonempty 10 ds
  end.

Definition BigInt (s : string) : JsError + Z :=
  match StringToBigInt s with
  | Some z => inr z
  | None => inl {| name := "SyntaxError";
                   message := "Cannot convert " +:+ s +:+ " to a BigInt" |}
  end.

End Js.
Import Js.

(** ** Asynchronous computations against the outside world

    Every [await] on the chain client, and every timer the code arms, is
    recorded in order.  A computation ends with a thrown [JsError] or with
    its value. *)

Module Async.

(** A contract call as wagmi takes it: target, function, arguments and the
    optional [gas] and [account] fields. *)
Inductive Arg :=
| ABig (n : Z)
| AAddr (a : string).

Record ContractCall := {
  c_address : string;
  c_functionName : string;
  c_args : list Arg;
  c_gas : option Z;
  c_account : option string;
}.

Inductive Callback :=
| CbRefreshBalances
| CbRefetchAllowance.

Inductive Effect :=
| ReadContract (c : ContractCall)
| SimulateContract (c : ContractCall)
| WriteContract (c : ContractCall)
| WaitForTransactionReceipt (hash : string) (timeout : Z)
| RefetchUSDTBalance
| RefetchAvaxBalance
| RefetchAllowance
| SetTimeout (cb : Callback) (ms : Z).

Definition M (A : Type) : Type := (list Effect * (JsError + A))%type.

#[global] Instance M_ret : MRet M := fun A a => ([], inr a).

#[global] Instance M_bind : MBind M := fun A B f m =>
  match m with
  | (t, inl e) => (t, inl e)
  | (t, inr a) => let '(t', r) := f a in (t ++ t', r)
  end.

(** [throw new Error(msg)] *)
Definition throw {A} (msg : string) : M A := ([], inl (Error msg)).

(** A synchronous step that may throw (e.g. [BigInt(s)]). *)
Definition lift {A} (r : JsError + A) : M A := ([], r).

(** An awaited call: the call is issued, then resolves or rejects. *)
Definition perform {A} (e : Effect) (r : JsError + A) : M A := ([e], r).

(** A call whose completion nobody awaits ([setTimeout]). *)
Definition emit (e : Effect) : M unit := ([e], inr tt).

(** [try { m } catch (error) { h error }] *)
Definition try_catch {A} (m : M A) (h : JsError -> M A) : M A :=
  match m with
  | (t, inl e) => let '(t', r) := h e in (t ++ t', r)
  | (t, inr a) => (t, inr a)
  end.

Definition trace {A} (m : M A) : list Effect := fst m.
Definition outcome {A} (m : M A) : JsError + A := snd m.

(** The calls that reach the chain: reads, simulations, writes, receipt waits. *)
Definition is_chain_call (e : Effect) : bool :=
  match e with
  | SetTimeout _ _ => false
  | _ => true
  end.

Definition is_write (e : Effect) : bool :=
  match e with
  | WriteContract _ => true
  | _ => false
  end.

Definition is_timer (e : Effect) : bool :=
  match e with
  | SetTimeout _ _ => true
  | _ => false
  end.

End Async.
Import Async.

(** ** Configuration (web3.config) *)

Module Config.

(** [TARGET_CHAIN = avalancheFuji] *)
Definition TARGET_CHAIN_id : Z := 43113.

(** [SUPPORTED_CHAINS = [avalancheFuji, baseSepolia, sepolia, arbitrumSepolia]] *)
Definition SUPPORTED_CHAINS : list Z := [43113; 84532; 11155111; 421614].

Definition GAS_LIMITS_APPROVE : Z := 100000.
Definition GAS_LIMITS_BUY_TRADE : Z := 800000.
Definition GAS_LIMITS_BUY_TRADE_CROSS_CHAIN : Z := 1200000.

End Config.
Import Config.

(** ** Web3Provider *)

Module Web3.

Record Chain := { id : Z }.

Record TradeDetails := {
  productCost : Z;
  active : bool;
  remainingQuantity : Z;
}.

Record Log := { data : string; topics : list string }.

Record EventArgs := { purchaseId : option Z }.

Record DecodedEvent := { eventName : string; args : option EventArgs }.

Record Receipt := { logs : option (list Log) }.

Inductive Status := pending | confirmed | failed.

Record PaymentTransaction := {
  hash : string;
  amount : string;
  token : string;
  to : string;
  from : string;
  status : Status;
  timestamp : Z;
  tx_purchaseId : option string;
}.

Record BuyTradeParams := {
  tradeId : string;
  quantity : string;
  logisticsProvider : option string;
}.

(** The values one render of the provider closes its callbacks over:
    what [useAccount] and [useReadContract] returned, and the [isRefreshing]
    state cell as that render saw it. *)
Record Render := {
  address : option string;
  isConnected : bool;
  chain : option Chain;
  usdtDecimals : option Z;
  isRefreshing : bool;
}.

(** Everything the provider imports and calls but does not define. *)
Record Outside := {
  readContract : ContractCall -> JsError + TradeDetails;
  simulateContract : ContractCall -> JsError + option Z;
  writeContractAsync : ContractCall -> JsError + string;
  waitForTransactionReceipt : string -> Z -> JsError + Receipt;
  decodeEventLog : Log -> JsError + DecodedEvent;
  refetchAllowance : JsError + option Z;
  formatUnits : Z -> Z -> string;
  parseFloat : string -> float;
  parseWeb3Error : JsError -> string;
  Date_now : Z;
}.

(** A string that passes an [if (!s)] guard. *)
Definition as_truthy (s : option string) : option string :=
  match s with
  | Some a => if String.eqb a "" then None else Some a
  | None => None
  end.

(** [error?.message || error?.toString() || ""] *)
Definition errorMessageOf (error : JsError) : string :=
  if negb (String.eqb (message error) "") then message error else toString error.

(** The re-throw cascade of [buyTrade]'s [catch] block: first match wins. *)
Definition buyTradeError (errorMessage : string) : string :=
  if includes "InsufficientTokenBalance" errorMessage then
    "Insufficient USDT balance for this purchase"
  else if includes "InsufficientTokenAllowance" errorMessage then
    "USDT allowance insufficient. Please approve the amount first"
  else if includes "InvalidTradeId" errorMessage || includes "TradeNotFound" errorMessage then
    "Invalid trade ID. This product may no longer be available"
  else if includes "InsufficientQuantity" errorMessage then
    "Requested quantity exceeds available stock"
  else if includes "InvalidQuantity" errorMessage then
    "Invalid quantity specified"
  else if includes "InvalidLogisticsProvider" errorMessage then
    "Invalid logistics provider selected"
  else if includes "BuyerIsSeller" errorMessage then
    "Cannot purchase your own product"
  else if includes "InvalidTradeState" errorMessage then
    "Trade is not in a valid state for purchase"
  else if includes "User rejected" errorMessage || includes "user rejected" errorMessage then
    "Transaction was rejected by user"
  else if includes "Internal JSON-RPC error" errorMessage then
    "Network error. Please check your connection and try again"
  else if includes "gas" errorMessage then
    "Transaction failed due to gas issues. Please try again"
  else "Transaction failed. Please try again.".

(** [BigInt("0xffff...ffff")], sixty-four hex digits. *)
Definition maxApproval : Z :=
  match BigInt "0xffffffffffffffffffffffffffffffffffffffffffffffffffffffffffffffff" with
  | inr n => n
  | inl _ => 0
  end.

(** [readContract(wagmiConfig, {address, abi, functionName: "trades", args: [id]})] *)
Definition tradesCall (escrow : string) (n : Z) : ContractCall :=
  {| c_address := escrow; c_functionName := "trades";
     c_args := [ABig n]; c_gas := None; c_account := None |}.

(** The six positional arguments of the escrow's [buyTrade]. *)
Definition buyTradeArgs (tid qty : Z) (lp buyerToken : string)
    (buyerTokenAmount totalAmountInUSDT : Z) : list Arg :=
  [ABig tid; ABig qty; AAddr lp; AAddr buyerToken; ABig buyerTokenAmount; ABig totalAmountInUSDT].

(** The object handed to [simulateContract]. *)
Definition simulationCall (escrow : string) (callArgs : list Arg) (account : string)
    : ContractCall :=
  {| c_address := escrow; c_functionName := "buyTrade";
     c_args := callArgs; c_gas := None; c_account := Some account |}.

(** The object handed to [writeContractAsync] by [buyTrade]. *)
Definition submissionCall (escrow : string) (callArgs : list Arg) (gas : Z) : ContractCall :=
  {| c_address := escrow; c_functionName := "buyTrade";
     c_args := callArgs; c_gas := Some gas; c_account := None |}.

(** The object handed to [writeContractAsync] by [approveUSDT]. *)
Definition approvalCall (usdt escrow : string) : ContractCall :=
  {| c_address := usdt; c_functionName := "approve";
     c_args := [AAddr escrow; ABig maxApproval];
     c_gas := Some GAS_LIMITS_APPROVE; c_account := None |}.

Section Provider.

(** Per-chain address tables, filled from the build environment. *)
Variables USDT_ADDRESSES ESCROW_ADDRESSES : Z -> option string.
Variable ext : Outside.
Variable rd : Render.

(** [chain?.id] *)
Definition chain_id : option Z := id <$> chain rd.

(** [chain?.id === TARGET_CHAIN.id] *)
Definition isCorrectNetwork : bool :=
  match chain_id with
  | Some i => i =? TARGET_CHAIN_id
  | None => false
  end.

Definition usdtContractAddress : option string :=
  if negb (truthy_str (address rd)) || negb (truthy_num chain_id) then None
  else chain_id ≫= USDT_ADDRESSES.

Definition escrowContractAddress : option string :=
  if negb (truthy_num chain_id) then None
  else chain_id ≫= ESCROW_ADDRESSES.

Definition getTrade (tradeId : string) : M TradeDetails :=
  match as_truthy escrowContractAddress with
  | None => throw "Escrow contract not available"
  | Some escrow =>
      try_catch
        (n ← lift (BigInt tradeId);
         let call := tradesCall escrow n in
         perform (ReadContract call) (readContract ext call))
        (fun error =>
           if includes "TradeNotFound" (message error) then throw "Trade not found"
           else throw "Failed to fetch trade details")
  end.

(** [receipt.logs.map(decode-or-null).filter(Boolean)] *)
Definition decodeLogs (ls : list Log) : list DecodedEvent :=
  omap (fun log => match decodeEventLog ext log with
                   | inr ev => Some ev
                   | inl _ => None
                   end) ls.

Definition findPurchaseId (receipt : Receipt) : option string :=
  match logs receipt with
  | Some ls =>
      match List.find (fun ev => String.eqb (eventName ev) "PurchaseCreated") (decodeLogs ls) with
      | Some ev =>
          match args ev with
          | Some a => pretty <$> purchaseId a
          | None => None
          end
      | None => None
      end
  | None => None
  end.

(** [request.gas ? (request.gas * 120n) / 100n : GAS_LIMITS.BUY_TRADE] *)
Definition gasWithMargin (request_gas : option Z) : Z :=
  if truthy_num request_gas then
    match request_gas with
    | Some g => Z.quot (g * 120) 100
    | None => GAS_LIMITS_BUY_TRADE
    end
  else GAS_LIMITS_BUY_TRADE.

(** [address && chain?.id]: the wallet passes the first guard. *)
Definition walletConnected : bool :=
  truthy_str (address rd) && truthy_num chain_id.

Definition buyTrade (params : BuyTradeParams) : M PaymentTransaction :=
  if negb (truthy_str (address rd)) || negb (truthy_num chain_id) then
    throw "Wallet not connected"
  else if negb isCorrectNetwork then
    throw "Please switch to the correct network first"
  else match as_truthy escrowContractAddress with
  | None => throw "Escrow contract not available on this network"
  | Some escrow =>
  match as_truthy usdtContractAddress with
  | None => throw "USDT contract not available on this network"
  | Some usdt =>
    let account := default "" (address rd) in
    try_catch
      (tid ← lift (BigInt (tradeId params));
       qty ← lift (BigInt (quantity params));
       lp ← match logisticsProvider params with
            | Some lp =>
                if negb (startsWith "0x" lp) || negb (Nat.eqb (String.length lp) 42)
                then throw "Invalid logistics provider address"
                else mret lp
            | None => throw "Invalid logistics provider address"
            end;
       tradeDetails ← getTrade (tradeId params);
       let totalProductCost := productCost tradeDetails * qty in
       let buyerToken := usdt in
       let buyerTokenAmount := totalProductCost in
       let totalAmountInUSDT := totalProductCost in
       let callArgs := buyTradeArgs tid qty lp buyerToken buyerTokenAmount totalAmountInUSDT in
       let simulation := simulationCall escrow callArgs account in
       gasEstimate ← try_catch
                       (request_gas ← perform (SimulateContract simulation)
                                              (simulateContract ext simulation);
                        mret (gasWithMargin request_gas))
                       (fun estimateError => mret GAS_LIMITS_BUY_TRADE);
       let submission := submissionCall escrow callArgs gasEstimate in
       txHash ← perform (WriteContract submission) (writeContractAsync ext submission);
       if String.eqb txHash "" then throw "Transaction failed to execute"
       else
         receipt ← perform (WaitForTransactionReceipt txHash 60000)
                           (waitForTransactionReceipt ext txHash 60000);
         let boughtId := findPurchaseId receipt in
         emit (SetTimeout CbRefreshBalances 2000);;
         mret {| hash := txHash;
                 amount := formatUnits ext totalAmountInUSDT
                             (if truthy_num (usdtDecimals rd) then default 6 (usdtDecimals rd) else 6);
                 token := "USDT";
                 to := escrow;
                 from := account;
                 status := pending;
                 timestamp := Date_now ext;
                 tx_purchaseId := boughtId |})
      (fun error => throw (buyTradeError (errorMessageOf error)))
  end
  end.

Definition getCurrentAllowance : M float :=
  if negb (truthy_str (address rd)) || negb (truthy_num chain_id)
     || negb (truthy_str usdtContractAddress)
  then mret 0%float
  else
    try_catch
      (result_data ← perform RefetchAllowance (refetchAllowance ext);
       match usdtDecimals rd with
       | Some decimals =>
           if truthy_num result_data
           then mret (parseFloat ext (formatUnits ext (default 0 result_data) decimals))
           else mret 0%float
       | None => mret 0%float
       end)
      (fun error => mret 0%float).

Definition approveUSDT (amount : string) : M string :=
  if negb (truthy_str (address rd)) || negb (truthy_num chain_id) then
    throw "Wallet not connected"
  else match as_truthy usdtContractAddress, as_truthy escrowContractAddress with
  | Some usdt, Some escrow =>
    try_catch
      (currentAllowance ← getCurrentAllowance;
       let requiredAmount := parseFloat ext amount in
       if PrimFloat.leb requiredAmount currentAllowance then mret "0x0"
       else
         let approval := approvalCall usdt escrow in
         txHash ← perform (WriteContract approval) (writeContractAsync ext approval);
         emit (SetTimeout CbRefetchAllowance 2000);;
         mret txHash)
      (fun error =>
         if includes "User rejected" (message error) then throw "Approval was rejected by user"
         else if includes "insufficient funds" (message error) then
           throw "Insufficient AVAX for gas fees"
         else throw ("Approval failed: " +:+ parseWeb3Error ext error))
  | _, _ => throw "Contracts not available on this network"
  end.

(** The guard at the head of [refreshBalances]; it reads the values the
    callback closed over. *)
Definition refreshBalances_skips : bool :=
  negb (isConnected rd) || negb (truthy_str (address rd))
  || negb isCorrectNetwork || isRefreshing rd.

End Provider.

(** *** [refreshBalances] and the [isRefreshing] state cell

    [isRefreshing] is a [useState] cell.  [setIsRefreshing] changes the cell;
    a callback keeps the value that the render which created it read. *)

Record Cell := {
  committed : bool;
  issued : list Effect;
}.

(** A render reads the cell. *)
Definition rendered (account : Render) (c : Cell) : Render :=
  {| address := address account; isConnected := isConnected account;
     chain := chain account; usdtDecimals := usdtDecimals account;
     isRefreshing := committed c |}.

(** One call of the [refreshBalances] created by render [rd], up to its
    [await]: past the guard it sets the cell and issues the three refetches. *)
Definition refreshBalances (rd : Render) (c : Cell) : Cell :=
  if refreshBalances_skips rd then c
  else {| committed := true;
          issued := issued c ++ [RefetchUSDTBalance; RefetchAvaxBalance; RefetchAllowance] |}.

(** Its [finally] block, once the three refetches have settled. *)
Definition refreshBalances_settled (c : Cell) : Cell :=
  {| committed := false; issued := issued c |}.

End Web3.
Import Web3.

(** ** useCurrencyConverter *)

Module Rates.

Inductive Currency := USDT | NATIVE | FIAT.

Definition Currency_eqb (a b : Currency) : bool :=
  match a, b with
  | USDT, USDT | NATIVE, NATIVE | FIAT, FIAT => true
  | _, _ => false
  end.

Record ChainNativeToken := {
  tk_symbol : string;
  tk_name : string;
  tk_decimals : Z;
  coingeckoId : string;
}.

Definition AVAX : ChainNativeToken :=
  {| tk_symbol := "AVAX"; tk_name := "Avalanche"; tk_decimals := 18;
     coingeckoId := "avalanche-2" |}.

Definition ETH : ChainNativeToken :=
  {| tk_symbol := "ETH"; tk_name := "Ethereum"; tk_decimals := 18;
     coingeckoId := "ethereum" |}.

Definition MATIC : ChainNativeToken :=
  {| tk_symbol := "MATIC"; tk_name := "Polygon"; tk_decimals := 18;
     coingeckoId := "matic-network" |}.

Definition CELO : ChainNativeToken :=
  {| tk_symbol := "CELO"; tk_name := "Celo"; tk_decimals := 18; coingeckoId := "celo" |}.

Definition CHAIN_NATIVE_TOKENS (chainId : Z) : option ChainNativeToken :=
  if chainId =? 43113 then Some AVAX
  else if chainId =? 84532 then Some ETH
  else if chainId =? 11155111 then Some ETH
  else if chainId =? 421614 then Some ETH
  else if chainId =? 1 then Some ETH
  else if chainId =? 137 then Some MATIC
  else if chainId =? 43114 then Some AVAX
  else if chainId =? 42220 then Some CELO
  else if chainId =? 44787 then Some CELO
  else if chainId =? 42161 then Some ETH
  else if chainId =? 10 then Some ETH
  else if chainId =? 8453 then Some ETH
  else None.

Definition DEFAULT_CHAIN_ID : Z := 43113.

Record ExchangeRates := {
  USDT_NATIVE : float;
  USDT_FIAT : float;
  NATIVE_FIAT : float;
  nativeTokenSymbol : string;
  nativeTokenName : string;
  chainId : Z;
  lastUpdated : Z;
}.

(** [{...DEFAULT_RATES, nativeTokenSymbol, nativeTokenName, chainId, lastUpdated}]:
    the hard-coded ratios, labelled for the chain at hand. *)
Definition defaultRatesFor (token : ChainNativeToken) (chain : Z) (stamp : Z)
    : ExchangeRates :=
  {| USDT_NATIVE := 0x1.999999999999ap-6; (* the binary64 value of 0.025 *)
     USDT_FIAT := 1;
     NATIVE_FIAT := 40;
     nativeTokenSymbol := tk_symbol token;
     nativeTokenName := tk_name token;
     chainId := chain;
     lastUpdated := stamp |}.

Definition RATE_CACHE_DURATION : Z := 5 * 60 * 1000.
Definition GEO_CACHE_DURATION : Z := 24 * 60 * 60 * 1000.
Definition STALE_CACHE_DURATION : Z := 30 * 60 * 1000.
Definition API_TIMEOUT : Z := 8000.
Definition RETRY_DELAY : Z := 1000.
Definition MAX_RETRIES : Z := 2.

(** [CACHE_KEYS.RATES(chainId)], for an integral chain id. *)
Definition CACHE_KEYS_RATES (chain : Z) : string := "currency_rates_v2_" +:+ pretty chain.

Definition CACHE_KEYS_GEO : string := "user_geo_v2".

Record GeoData := {
  currency : string;
  country : string;
  geo_lastUpdated : Z;
}.

(** The text stored under a key, seen through [JSON.parse]. *)
Inductive Item (A : Type) :=
| Unparsable
| Parsed (a : A).
Arguments Unparsable {A}.
Arguments Parsed {A} a.

(** [localStorage], restricted to the keys of this hook: the rate snapshots,
    by key, and the geo snapshot under [CACHE_KEYS.GEO]. *)
Record Storage := {
  rates_items : gmap string (Item ExchangeRates);
  geo_item : option (Item GeoData);
}.

(** The hook's state cells, and the storage it shares with later sessions. *)
Record Hook := {
  storage : Storage;
  rates : ExchangeRates;
  loading : bool;
  error : option string;
  userCountry : string;
}.

Definition setRates (r : ExchangeRates) (h : Hook) : Hook :=
  {| storage := storage h; rates := r; loading := loading h; error := error h;
     userCountry := userCountry h |}.

Definition setLoading (b : bool) (h : Hook) : Hook :=
  {| storage := storage h; rates := rates h; loading := b; error := error h;
     userCountry := userCountry h |}.

Definition setError (e : option string) (h : Hook) : Hook :=
  {| storage := storage h; rates := rates h; loading := loading h; error := e;
     userCountry := userCountry h |}.

Definition setUserCountry (c : string) (h : Hook) : Hook :=
  {| storage := storage h; rates := rates h; loading := loading h; error := error h;
     userCountry := c |}.

(** [localStorage.setItem(CACHE_KEYS.RATES(chain), JSON.stringify(r))] *)
Definition storeRates (chain : Z) (r : ExchangeRates) (h : Hook) : Hook :=
  {| storage := {| rates_items := <[CACHE_KEYS_RATES chain := Parsed r]> (rates_items (storage h));
                   geo_item := geo_item (storage h) |};
     rates := rates h; loading := loading h; error := error h;
     userCountry := userCountry h |}.

(** [localStorage.setItem(CACHE_KEYS.GEO, JSON.stringify(g))] *)
Definition storeGeo (g : GeoData) (h : Hook) : Hook :=
  {| storage := {| rates_items := rates_items (storage h); geo_item := Some (Parsed g) |};
     rates := rates h; loading := loading h; error := error h;
     userCountry := userCountry h |}.

Record Props := {
  p_chainId : option Z;
  p_isConnected : bool;
}.

Record ChainMetadata := {
  md_nativeCurrency : string;
  md_name : string;
}.

Definition isSupportedChain (chain : option Z) : bool :=
  match chain with
  | Some c => negb (c =? 0) && existsb (Z.eqb c) SUPPORTED_CHAINS
  | None => false
  end.

Definition getEffectiveChainId (chain : option Z) (isConnected : bool) : Z :=
  if negb isConnected then DEFAULT_CHAIN_ID
  else if negb (truthy_num chain) then DEFAULT_CHAIN_ID
  else if isSupportedChain chain then default DEFAULT_CHAIN_ID chain
  else default DEFAULT_CHAIN_ID chain.

(** What the network answers to the geo request. *)
Inductive GeoResponse :=
| GeoFails (e : JsError)
| GeoAnswer (ok : bool) (currency country : option string).

(** What the network answers to the price request: the request fails (or the
    body is not JSON), or a status other than 2xx comes back, or a JSON object
    [{ id: { currency: number } }]. *)
Inductive PriceResponse :=
| PriceFails (e : JsError)
| PriceStatus (status : Z) (statusText : string)
| PriceData (data : gmap string (gmap string float)).

(** One attempt's worth of answers, with the reading of [Date.now()]. *)
Record Attempt := {
  geo : GeoResponse;
  price : PriceResponse;
  clock : Z;
}.

Inductive NetEvent :=
| GeoRequest
| PriceRequest (ids vs_currencies : string)
| Sleep (ms : Z).

(** The values a [fetchRates] callback closes over. *)
Record Closure := {
  effectiveChainId : Z;
  isUnsupportedNetwork : bool;
  nativeTokenInfo : ChainNativeToken;
  seen_chainId : Z;
  seen_lastUpdated : Z;
  seen_userCountry : string;
}.

Section Converter.

(** [getChainMetadata] of web3.config. *)
Variable getChainMetadata : Z -> option ChainMetadata.

Definition nativeTokenInfoFor (effective : Z) : ChainNativeToken :=
  match CHAIN_NATIVE_TOKENS effective with
  | Some tokenInfo => tokenInfo
  | None =>
      match getChainMetadata effective with
      | Some chainMetadata =>
          {| tk_symbol := md_nativeCurrency chainMetadata;
             tk_name := md_name chainMetadata;
             tk_decimals := 18;
             coingeckoId :=
               if String.eqb (toLowerCase (md_nativeCurrency chainMetadata)) "avax"
               then "avalanche-2" else "ethereum" |}
      | None => AVAX
      end
  end.

(** The callback a render creates, from the props and the state it sees. *)
Definition render (props : Props) (h : Hook) : Closure :=
  let effective := getEffectiveChainId (p_chainId props) (p_isConnected props) in
  {| effectiveChainId := effective;
     isUnsupportedNetwork := p_isConnected props && truthy_num (p_chainId props)
                             && negb (isSupportedChain (p_chainId props));
     nativeTokenInfo := nativeTokenInfoFor effective;
     seen_chainId := chainId (rates h);
     seen_lastUpdated := lastUpdated (rates h);
     seen_userCountry := userCountry h |}.

(** The initial value of the [rates] cell. *)
Definition initialRates (props : Props) (store : Storage) (now : Z) : ExchangeRates :=
  let effective := getEffectiveChainId (p_chainId props) (p_isConnected props) in
  let fresh := defaultRatesFor (nativeTokenInfoFor effective) effective 0 in
  match rates_items store !! CACHE_KEYS_RATES effective with
  | Some (Parsed parsed) =>
      if now - lastUpdated parsed <? STALE_CACHE_DURATION then parsed else fresh
  | _ => fresh
  end.

End Converter.

(** [data.currency || "USD"] *)
Definition str_or (s : option string) (d : string) : string :=
  match as_truthy s with
  | Some v => v
  | None => d
  end.

(** [fetchGeoData]: the cached currency while it is younger than a day,
    else the network's answer (stored), else the currency this callback saw. *)
Definition fetchGeoData (cl : Closure) (att : Attempt) (h : Hook)
    : list NetEvent * Hook * string :=
  let ask :=
    match geo att with
    | GeoAnswer true cur ctry =>
        let currency := str_or cur "USD" in
        let geoCache := {| currency := currency; country := str_or ctry "US";
                           geo_lastUpdated := clock att |} in
        ([GeoRequest], setUserCountry currency (storeGeo geoCache h), currency)
    | GeoAnswer false _ _ => ([GeoRequest], h, seen_userCountry cl)
    | GeoFails _ => ([GeoRequest], h, seen_userCountry cl)
    end in
  match geo_item (storage h) with
  | Some Unparsable => ([], h, seen_userCountry cl)
  | Some (Parsed parsed) =>
      if clock att - geo_lastUpdated parsed <? GEO_CACHE_DURATION
      then ([], h, currency parsed)
      else ask
  | None => ask
  end.

(** [!nativePrice || nativePrice <= 0] *)
Definition badNativePrice (nativePrice : option float) : bool :=
  match nativePrice with
  | Some p => negb (truthy_float p) || PrimFloat.leb p 0
  | None => true
  end.

(** From the price answer to [newRates], or to the error the attempt throws. *)
Definition newRatesOf (cl : Closure) (localCurrency : string) (att : Attempt)
    : JsError + ExchangeRates :=
  match price att with
  | PriceFails e => inl e
  | PriceStatus status statusText =>
      inl (Error ("HTTP " +:+ pretty status +:+ ": " +:+ statusText))
  | PriceData data =>
      match data !! "tether", data !! coingeckoId (nativeTokenInfo cl) with
      | Some tether, Some native =>
          let usdtPrice := float_or (tether !! "usd") 1 in
          let nativePrice := native !! "usd" in
          if badNativePrice nativePrice then inl (Error "Invalid native token price data")
          else
            let nativePrice := default 0%float nativePrice in
            let usdtToFiat := float_or (tether !! toLowerCase localCurrency) usdtPrice in
            let nativeToFiat := float_or (native !! toLowerCase localCurrency) nativePrice in
            let usdtToNative := (usdtPrice / nativePrice)%float in
            inr {| USDT_NATIVE := usdtToNative;
                   USDT_FIAT := usdtToFiat;
                   NATIVE_FIAT := nativeToFiat;
                   nativeTokenSymbol := tk_symbol (nativeTokenInfo cl);
                   nativeTokenName := tk_name (nativeTokenInfo cl);
                   chainId := effectiveChainId cl;
                   lastUpdated := clock att |}
      | _, _ => inl (Error "Invalid API response structure")
      end
  end.

(** The body of [attemptFetch]'s [try]: geo, then price, then the commit
    [setRates(newRates); localStorage.setItem(cacheKey, ...); setError(null)]
    (the storage is taken to have room: [setItem] does not throw). *)
Definition priceStage (cl : Closure) (localCurrency : string) (att : Attempt) (h : Hook)
    : list NetEvent * Hook * (JsError + unit) :=
  let request := PriceRequest ("tether," +:+ coingeckoId (nativeTokenInfo cl))
                              (toLowerCase localCurrency +:+ ",usd") in
  match newRatesOf cl localCurrency att with
  | inr newRates =>
      ([request],
       setError None (storeRates (effectiveChainId cl) newRates (setRates newRates h)),
       inr tt)
  | inl e => ([request], h, inl e)
  end.

Definition attemptOnce (cl : Closure) (att : Attempt) (h : Hook)
    : list NetEvent * Hook * (JsError + unit) :=
  let '(t1, h1, localCurrency) := fetchGeoData cl att h in
  let '(t2, h2, r) := priceStage cl localCurrency att h1 in
  (t1 ++ t2, h2, r).

(** [attemptFetch]: one answer of the script per attempt; [None] only when
    the script of answers is shorter than the attempts made. *)
Fixpoint attemptFetch (cl : Closure) (script : list Attempt) (retryCount : Z) (h : Hook)
    : option (list NetEvent * Hook * (JsError + unit)) :=
  match script with
  | [] => None
  | att :: later =>
      match attemptOnce cl att h with
      | (t, h1, inr tt) => Some (t, h1, inr tt)
      | (t, h1, inl e) =>
          if retryCount <? MAX_RETRIES then
            let retryCount := retryCount + 1 in
            match attemptFetch cl later retryCount h1 with
            | Some (t', h2, r) => Some (t ++ Sleep (RETRY_DELAY * retryCount) :: t', h2, r)
            | None => None
            end
          else Some (t, h1, inl e)
      end
  end.

(** The [catch] of [fetchRates]: record the error, then the stored snapshot of
    this chain if it has a [lastUpdated], else the default record.  Every
    thrown value of this embedding is an [Error] object, so the recorded text
    is its [message]. *)
Definition afterFailure (cl : Closure) (e : JsError) (now : Z) (h : Hook) : Hook :=
  let h := setError (Some (message e)) h in
  let fallbackRates := defaultRatesFor (nativeTokenInfo cl) (effectiveChainId cl) now in
  match rates_items (storage h) !! CACHE_KEYS_RATES (effectiveChainId cl) with
  | Some (Parsed parsed) =>
      if negb (lastUpdated parsed =? 0) then setRates parsed h
      else setRates fallbackRates h
  | _ => setRates fallbackRates h
  end.

(** The first guard of [fetchRates]: recent data for this chain, no force. *)
Definition hasRecentData (cl : Closure) (forceRefresh : bool) (now : Z) : bool :=
  negb forceRefresh && (seen_chainId cl =? effectiveChainId cl)
  && negb (seen_lastUpdated cl =? 0)
  && (now - seen_lastUpdated cl <? RATE_CACHE_DURATION).

(** [fetchRates(forceRefresh)], called at time [start]; [finish] is the time
    at which its [catch] block, if reached, runs. *)
Definition fetchRates (cl : Closure) (forceRefresh : bool) (script : list Attempt)
    (start finish : Z) (h : Hook) : option (list NetEvent * Hook * (JsError + unit)) :=
  if hasRecentData cl forceRefresh start
  then Some ([], h, inr tt)
  else if isUnsupportedNetwork cl then
    Some ([], setRates (defaultRatesFor (nativeTokenInfo cl) (effectiveChainId cl) start) h,
          inr tt)
  else
    let h := setError None (setLoading true h) in
    match attemptFetch cl script 0 h with
    | Some (t, h1, inr tt) => Some (t, setLoading false h1, inr tt)
    | Some (t, h1, inl e) => Some (t, setLoading false (afterFailure cl e finish h1), inr tt)
    | None => None
    end.

(** [convertPrice(price, from, to)] *)
Definition convertPrice (r : ExchangeRates) (price : float) (from to : Currency) : float :=
  if Currency_eqb from to || negb (isFinite price) || PrimFloat.eqb price 0 then price
  else
    match from, to with
    | USDT, NATIVE => (price * USDT_NATIVE r)%float
    | USDT, FIAT => (price * USDT_FIAT r)%float
    | NATIVE, USDT =>
        if PrimFloat.ltb 0 (USDT_NATIVE r) then (price / USDT_NATIVE r)%float else 0%float
    | NATIVE, FIAT => (price * NATIVE_FIAT r)%float
    | FIAT, USDT =>
        if PrimFloat.ltb 0 (USDT_FIAT r) then (price / USDT_FIAT r)%float else 0%float
    | FIAT, NATIVE =>
        if PrimFloat.ltb 0 (NATIVE_FIAT r) then (price / NATIVE_FIAT r)%float else 0%float
    | _, _ => price
    end.

(** *** Several fetches in flight

    A [fetchRates] call suspends at its two network requests and during the
    pause before a retry; the wallet may change chain meanwhile, and other
    calls may start, advance or finish. *)

Inductive Phase :=
| AwaitingGeo
| AwaitingPrice (localCurrency : string).

Record Flight := {
  fl_closure : Closure;
  fl_retryCount : Z;
  fl_phase : Phase;
}.

Record System := {
  hook : Hook;
  props : Props;
  flights : list Flight;
}.

(** A step taken by the flight [fl]: its geo request resolves; or its price
    request resolves, and the attempt commits, or is retried, or gives up. *)
Inductive advance (fl : Flight) (h : Hook) : Hook -> option Flight -> Prop :=
| advance_geo att t h1 cur :
    fl_phase fl = AwaitingGeo ->
    fetchGeoData (fl_closure fl) att h = (t, h1, cur) ->
    advance fl h h1 (Some {| fl_closure := fl_closure fl; fl_retryCount := fl_retryCount fl;
                             fl_phase := AwaitingPrice cur |})
| advance_commit att cur t h1 :
    fl_phase fl = AwaitingPrice cur ->
    priceStage (fl_closure fl) cur att h = (t, h1, inr tt) ->
    advance fl h (setLoading false h1) None
| advance_retry att cur t h1 e :
    fl_phase fl = AwaitingPrice cur ->
    priceStage (fl_closure fl) cur att h = (t, h1, inl e) ->
    (fl_retryCount fl <? MAX_RETRIES) = true ->
    advance fl h h1 (Some {| fl_closure := fl_closure fl;
                             fl_retryCount := fl_retryCount fl + 1;
                             fl_phase := AwaitingGeo |})
| advance_give_up att cur t h1 e now :
    fl_phase fl = AwaitingPrice cur ->
    priceStage (fl_closure fl) cur att h = (t, h1, inl e) ->
    (fl_retryCount fl <? MAX_RETRIES) = false ->
    advance fl h (setLoading false (afterFailure (fl_closure fl) e now h1)) None.

Section Interleaving.

Variable getChainMetadata : Z -> option ChainMetadata.

Inductive step : System -> System -> Prop :=
| step_props s p :
    (* the wallet connects, disconnects or changes chain *)
    step s {| hook := hook s; props := p; flights := flights s |}
| step_start s forceRefresh now :
    (* fetchRates is called on the callback of the current render *)
    let cl := render getChainMetadata (props s) (hook s) in
    step s
      (if hasRecentData cl forceRefresh now
       then s
       else if isUnsupportedNetwork cl then
         {| hook := setRates (defaultRatesFor (nativeTokenInfo cl) (effectiveChainId cl) now)
                             (hook s);
            props := props s; flights := flights s |}
       else
         {| hook := setError None (setLoading true (hook s));
            props := props s;
            flights := {| fl_closure := cl; fl_retryCount := 0; fl_phase := AwaitingGeo |}
                       :: flights s |})
| step_flight s before fl after h1 next :
    flights s = before ++ fl :: after ->
    advance fl (hook s) h1 next ->
    step s {| hook := h1; props := props s;
              flights := before ++ option_list next ++ after |}.

End Interleaving.

End Rates.
Import Rates.

(** ** Cross-chain configuration (web3.config) *)

Module CrossChain.

Definition avalancheFuji : Z := 43113.
Definition baseSepolia : Z := 84532.
Definition sepolia : Z := 11155111.
Definition arbitrumSepolia : Z := 421614.

(** [CCIP_CHAIN_SELECTORS] *)
Definition CCIP_CHAIN_SELECTORS (chain : Z) : option string :=
  if chain =? baseSepolia then Some "10344971235874465080"
  else if chain =? sepolia then Some "16015286601757825753"
  else if chain =? arbitrumSepolia then Some "3478487238524512106"
  else if chain =? avalancheFuji then Some "14767482510784806043"
  else None.

Record ChainDisplay := {
  cd_name : string;
  cd_shortName : string;
  cd_icon : string;
  cd_color : string;
}.

(** [CHAIN_METADATA] *)
Definition CHAIN_METADATA (chain : Z) : option ChainDisplay :=
  if chain =? baseSepolia then
    Some {| cd_name := "Base Sepolia"; cd_shortName := "BASE";
            cd_icon := "https://bridge.base.org/icons/base.svg"; cd_color := "#0052ff" |}
  else if chain =? sepolia then
    Some {| cd_name := "Ethereum Sepolia"; cd_shortName := "ETH";
            cd_icon := "https://ethereum.org/static/655ede01eb7c29458fcd8429c6c6b4fa/71c57/eth-diamond-black.png";
            cd_color := "#627eea" |}
  else if chain =? arbitrumSepolia then
    Some {| cd_name := "Arbitrum Sepolia"; cd_shortName := "ARB";
            cd_icon := "https://arbitrum.io/wp-content/uploads/2021/01/cropped-Arbitrum_Symbol_-_Full_color_-_White_background-32x32.png";
            cd_color := "#28a0f0" |}
  else if chain =? avalancheFuji then
    Some {| cd_name := "Avalanche Fuji"; cd_shortName := "AVAX";
            cd_icon := "https://cryptologos.cc/logos/avalanche-avax-logo.png";
            cd_color := "#e84142" |}
  else None.

(** [getDestinationChains]: the supported chains but the current one
    (a chain object is represented by its id). *)
Definition getDestinationChains (currentChainId : Z) : list Z :=
  List.filter (fun chain => negb (chain =? currentChainId)) SUPPORTED_CHAINS.

(** [isCrossChainSupported] *)
Definition isCrossChainSupported (sourceChainId destinationChainId : Z) : bool :=
  let supportedChainIds := SUPPORTED_CHAINS in
  existsb (Z.eqb sourceChainId) supportedChainIds
  && existsb (Z.eqb destinationChainId) supportedChainIds.

(** [getChainSelector] *)
Definition getChainSelector (chain : Z) : option string := CCIP_CHAIN_SELECTORS chain.

(** [CROSS_CHAIN_FEES]: per source chain, the fee in wei per destination. *)
Definition CROSS_CHAIN_FEES (source : Z) : option (Z -> option string) :=
  if source =? baseSepolia then
    Some (fun destination =>
            if destination =? sepolia then Some "500000000000000"
            else if destination =? arbitrumSepolia then Some "300000000000000"
            else if destination =? avalancheFuji then Some "800000000000000"
            else None)
  else if source =? sepolia then
    Some (fun destination =>
            if destination =? baseSepolia then Some "500000000000000"
            else if destination =? arbitrumSepolia then Some "400000000000000"
            else if destination =? avalancheFuji then Some "900000000000000"
            else None)
  else if source =? arbitrumSepolia then
    Some (fun destination =>
            if destination =? baseSepolia then Some "300000000000000"
            else if destination =? sepolia then Some "400000000000000"
            else if destination =? avalancheFuji then Some "700000000000000"
            else None)
  else if source =? avalancheFuji then
    Some (fun destination =>
            if destination =? baseSepolia then Some "800000000000000"
            else if destination =? sepolia then Some "900000000000000"
            else if destination =? arbitrumSepolia then Some "700000000000000"
            else None)
  else None.

(** [getCrossChainFee] *)
Definition getCrossChainFee (sourceChainId destinationChainId : Z) : string :=
  match CROSS_CHAIN_FEES sourceChainId with
  | None => "1000000000000000"
  | Some fees => str_or (fees destinationChainId) "1000000000000000"
  end.

End CrossChain.
Import CrossChain.

(** ** useCurrencyConverter: the effect that follows the chain *)

Module RatesEffect.

Inductive EffectAction :=
| CallFetchRates
| SetFallbackRates (r : ExchangeRates)
| NoAction.

(** [needsFresh], as the effect computes it from the values its render saw. *)
Definition needsFresh (cl : Closure) (now : Z) : bool :=
  (seen_lastUpdated cl =? 0)
  || negb (seen_chainId cl =? effectiveChainId cl)
  || (RATE_CACHE_DURATION <? now - seen_lastUpdated cl).

(** The body of the effect "fetch rates when chain changes". *)
Definition onChainChange (cl : Closure) (now : Z) : EffectAction :=
  if needsFresh cl now && negb (isUnsupportedNetwork cl) then CallFetchRates
  else if isUnsupportedNetwork cl && negb (seen_chainId cl =? effectiveChainId cl) then
    SetFallbackRates (defaultRatesFor (nativeTokenInfo cl) (effectiveChainId cl) now)
  else NoAction.

End RatesEffect.
Import RatesEffect.

(** ** Web3Provider: the pre-purchase check *)

Module Web3Checks.

Section Checks.

Variables USDT_ADDRESSES ESCROW_ADDRESSES : Z -> option string.
Variable ext : Outside.
Variable rd : Render.

(** [validateTradeBeforePurchase(tradeId, quantity, logisticsProvider)] *)
Definition validateTradeBeforePurchase (tradeId quantity logisticsProvider : string)
    : M bool :=
  if negb (truthy_str (address rd)) || negb (truthy_num (chain_id rd)) then mret false
  else if negb (truthy_str (escrowContractAddress ESCROW_ADDRESSES rd)) then mret false
  else
    try_catch
      (tradeDetails ← getTrade ESCROW_ADDRESSES ext rd tradeId;
       if negb (active tradeDetails) then mret false
       else
         requested ← lift (BigInt quantity);
         if remainingQuantity tradeDetails <? requested then mret false
         else mret true)
      (fun error => mret false).

End Checks.

End Web3Checks.
Import Web3Checks.

(** ** Actions that also talk to the wallet and to the user

    [sendPayment] and the hooks built on the provider switch the wallet's
    chain, pause, and show snackbars; their writes may carry a value. *)

Module Ui.

Inductive Param :=
| PBig (n : Z)
| PNum (n : Z)
| PStr (s : string)
| PBool (b : bool).

(** A contract call with the optional [value], [gas] and [account]. *)
Record Tx := {
  tx_address : string;
  tx_functionName : string;
  tx_args : list Param;
  tx_value : option Z;
  tx_gas : option Z;
  tx_account : option string;
}.

Inductive UiEffect :=
| Chain (e : Effect)
| ReadTx (t : Tx)
| SimulateTx (t : Tx)
| SubmitTx (t : Tx)
| SwitchChain (chainId : Z)
| Pause (ms : Z)
| Snackbar (text kind : string).

Definition U (A : Type) : Type := (list UiEffect * (JsError + A))%type.

#[global] Instance U_ret : MRet U := fun A a => ([], inr a).

#[global] Instance U_bind : MBind U := fun A B f m =>
  match m with
  | (t, inl e) => (t, inl e)
  | (t, inr a) => let '(t', r) := f a in (t ++ t', r)
  end.

(** [throw error] *)
Definition u_throw {A} (e : JsError) : U A := ([], inl e).

Definition u_lift {A} (r : JsError + A) : U A := ([], r).

Definition u_perform {A} (e : UiEffect) (r : JsError + A) : U A := ([e], r).

Definition u_emit (e : UiEffect) : U unit := ([e], inr tt).

(** [try { m } catch (error) { h error }] *)
Definition u_try {A} (m : U A) (h : JsError -> U A) : U A :=
  match m with
  | (t, inl e) => let '(t', r) := h e in (t ++ t', r)
  | (t, inr a) => (t, inr a)
  end.

(** A computation of the provider, run as part of a larger action. *)
Definition from_M {A} (m : M A) : U A := (List.map Chain (fst m), snd m).

Definition u_trace {A} (m : U A) : list UiEffect := fst m.
Definition u_outcome {A} (m : U A) : JsError + A := snd m.

Definition is_submission (e : UiEffect) : bool :=
  match e with
  | Chain (WriteContract _) => true
  | SubmitTx _ => true
  | _ => false
  end.

(** What these actions call besides the provider's [Outside]. *)
Record UiOutside := {
  switchChain : Z -> JsError + unit;
  parseUnits : string -> Z -> JsError + Z;
  readFee : Tx -> JsError + Z;
  simulateTx : Tx -> JsError + option Z;
  submitTx : Tx -> JsError + string;
}.

(** [TARGET_CHAIN.name] *)
Definition TARGET_CHAIN_name : string := "Avalanche Fuji".

Record PaymentParams := {
  pay_to : string;
  pay_amount : string;
}.

Section Actions.

Variables USDT_ADDRESSES ESCROW_ADDRESSES : Z -> option string.
Variable ext : Outside.
Variable ui : UiOutside.
Variable rd : Render.

(** [switchToCorrectNetwork] *)
Definition switchToCorrectNetwork : U unit :=
  u_try
    (u_perform (SwitchChain TARGET_CHAIN_id) (switchChain ui TARGET_CHAIN_id);;
     u_emit (Snackbar ("Switched to " +:+ TARGET_CHAIN_name) "success"))
    (fun error =>
       u_emit (Snackbar ("Failed to switch to " +:+ TARGET_CHAIN_name) "error");;
       u_throw error).

(** [Number(usdtDecimals || 6)] *)
Definition decimalsOr6 : Z :=
  if truthy_num (usdtDecimals rd) then default 6 (usdtDecimals rd) else 6.

(** The object handed to [writeContractAsync] by [sendPayment]. *)
Definition transferCall (usdt recipient : string) (amount : Z) : ContractCall :=
  {| c_address := usdt; c_functionName := "transfer";
     c_args := [AAddr recipient; ABig amount]; c_gas := None; c_account := None |}.

Definition sendPayment (params : PaymentParams) : U PaymentTransaction :=
  if negb (truthy_str (address rd)) || negb (truthy_num (chain_id rd)) then
    u_throw (Error "Wallet not connected")
  else
    (if negb (isCorrectNetwork rd) then
       u_try (switchToCorrectNetwork;; u_emit (Pause 1000))
             (fun error => u_throw (Error "Please switch to the correct network first"))
     else mret tt);;
    match as_truthy (usdtContractAddress USDT_ADDRESSES rd) with
    | None => u_throw (Error "USDT not supported on this network")
    | Some usdt =>
        u_try
          (amount ← u_lift (parseUnits ui (pay_amount params) decimalsOr6);
           let transfer := transferCall usdt (pay_to params) amount in
           txHash ← u_perform (Chain (WriteContract transfer))
                              (writeContractAsync ext transfer);
           let transaction :=
             {| hash := txHash; amount := pay_amount params; token := "USDT";
                to := pay_to params; from := default "" (address rd);
                status := pending; timestamp := Date_now ext;
                tx_purchaseId := None |} in
           u_emit (Snackbar "Payment sent! Waiting for confirmation..." "success");;
           u_emit (Chain (SetTimeout CbRefreshBalances 2000));;
           mret transaction)
          (fun error =>
             u_emit (Snackbar "Payment failed. Please try again." "error");;
             u_throw error)
    end.

End Actions.

(** *** useSmartContract *)

(** The [wallet] snapshot the provider publishes. *)
Record WalletState := {
  w_isConnected : bool;
  w_address : option string;
  w_chainId : option Z;
}.

Record ContractResult := {
  cr_success : bool;
  cr_message : option string;
  cr_hash : option string;
}.

Definition failed (msg : string) : ContractResult :=
  {| cr_success := false; cr_message := Some msg; cr_hash := None |}.

Record CrossChainBuyParams := {
  cc_tradeId : string;
  cc_quantity : string;
  cc_logisticsProvider : string;
  cc_destinationChainId : Z;
}.

Record DestinationChain := {
  dc_id : Z;
  dc_name : string;
  dc_shortName : string;
  dc_icon : string;
  dc_color : string;
  dc_selector : option string;
  dc_estimatedFee : string;
}.

(** The [catch] of [buyCrossChainTrade]. *)
Definition crossChainBuyError (msg : string) : string :=
  if includes "InsufficientUSDTBalance" msg then
    "Insufficient USDT balance for this purchase."
  else if includes "InsufficientUSDTAllowance" msg then
    "USDT allowance insufficient. Please approve the amount first."
  else if includes "InvalidTradeId" msg then
    "Trade not found on destination chain."
  else if includes "InsufficientQuantity" msg then
    "Requested quantity exceeds available stock."
  else if includes "User rejected" msg then
    "Transaction was cancelled by user."
  else if includes "insufficient funds" msg then
    "Insufficient funds for gas and cross-chain fees."
  else "Cross-chain purchase failed. Please try again.".

Section SmartContract.

Variable ESCROW_ADDRESSES : Z -> option string.
Variable ui : UiOutside.
Variable formatUnits : Z -> Z -> string.
Variable wallet : WalletState.
Variable isCorrectNetwork : bool.
(** [switchToCorrectNetwork], as the provider hands it out. *)
Variable switchNetwork : U unit.

(** [getEscrowAddress] *)
Definition getEscrowAddress : JsError + string :=
  if negb (truthy_num (w_chainId wallet)) then inl (Error "Wallet not connected")
  else
    match as_truthy (w_chainId wallet ≫= ESCROW_ADDRESSES) with
    | None => inl (Error "Escrow contract not available on this network")
    | Some escrowAddress => inr escrowAddress
    end.

(** One entry of [getAvailableDestinationChains]; reading a field of a
    missing metadata record is a [TypeError]. *)
Definition destinationEntry (current chain : Z) : JsError + DestinationChain :=
  match CHAIN_METADATA chain with
  | None =>
      inl {| name := "TypeError";
             message := "Cannot read properties of undefined (reading 'name')" |}
  | Some metadata =>
      match BigInt (getCrossChainFee current chain) with
      | inl e => inl e
      | inr fee =>
          inr {| dc_id := chain;
                 dc_name := cd_name metadata;
                 dc_shortName := cd_shortName metadata;
                 dc_icon := cd_icon metadata;
                 dc_color := cd_color metadata;
                 dc_selector := CCIP_CHAIN_SELECTORS chain;
                 dc_estimatedFee := formatUnits fee 18 |}
      end
  end.

(** [chains.map(entry)], stopping at the first entry that throws. *)
Fixpoint mapEntries (current : Z) (chains : list Z) : JsError + list DestinationChain :=
  match chains with
  | [] => inr []
  | chain :: more =>
      match destinationEntry current chain with
      | inl e => inl e
      | inr entry =>
          match mapEntries current more with
          | inl e => inl e
          | inr entries => inr (entry :: entries)
          end
      end
  end.

(** [getAvailableDestinationChains] *)
Definition getAvailableDestinationChains : JsError + list DestinationChain :=
  if negb (truthy_num (w_chainId wallet)) then inr []
  else
    let current := default 0 (w_chainId wallet) in
    match mapEntries current (getDestinationChains current) with
    | inl e => inl e
    | inr entries => inr (List.filter (fun chain => truthy_str (dc_selector chain)) entries)
    end.

(** The transaction [buyCrossChainTrade] submits. *)
Definition crossChainBuyTx (escrow selector : string) (tid qty : Z) (lp : string) (fee : Z)
    : Tx :=
  {| tx_address := escrow; tx_functionName := "buyCrossChainTrade";
     tx_args := [PStr selector; PBig tid; PBig qty; PStr lp];
     tx_value := Some fee; tx_gas := Some GAS_LIMITS_BUY_TRADE_CROSS_CHAIN;
     tx_account := None |}.

(** [buyCrossChainTrade] *)
Definition buyCrossChainTrade (params : CrossChainBuyParams) : U ContractResult :=
  u_try
    (if negb (w_isConnected wallet) || negb (truthy_str (w_address wallet)) then
       mret (failed "Please connect your wallet first")
     else
       switched ← (if negb isCorrectNetwork then
                     u_try (switchNetwork;; u_emit (Pause 1500);; mret true)
                           (fun error => mret false)
                   else mret true);
       if negb switched then mret (failed "Please switch to the correct network first")
       else if negb (match w_chainId wallet with
                     | Some current =>
                         isCrossChainSupported current (cc_destinationChainId params)
                     | None => false
                     end) then
         mret (failed "Cross-chain operation not supported between these networks")
       else
         escrowAddress ← u_lift getEscrowAddress;
         match as_truthy (CCIP_CHAIN_SELECTORS (cc_destinationChainId params)) with
         | None => mret (failed "Invalid destination chain")
         | Some destinationChainSelector =>
             let crossChainFee :=
               getCrossChainFee (default 0 (w_chainId wallet))
                                (cc_destinationChainId params) in
             u_emit (Snackbar "Processing cross-chain purchase..." "info");;
             tid ← u_lift (BigInt (cc_tradeId params));
             qty ← u_lift (BigInt (cc_quantity params));
             fee ← u_lift (BigInt crossChainFee);
             let tx := crossChainBuyTx escrowAddress destinationChainSelector tid qty
                         (cc_logisticsProvider params) fee in
             txHash ← u_perform (SubmitTx tx) (submitTx ui tx);
             mret {| cr_success := true;
                     cr_message := Some "Cross-chain purchase initiated successfully";
                     cr_hash := Some txHash |}
         end)
    (fun error => mret (failed (crossChainBuyError (message error)))).

End SmartContract.

End Ui.
Import Ui.

(** ** The provider with cross-chain purchases

    The later [Web3Provider]: its [buyTrade] takes an optional [crossChain]
    parameter and then routes the purchase through the escrow contract's
    [buyCrossChainTrade], paying the routing fee as the value of the
    transaction.  [getTrade], the address look-ups and the network check are
    those of the provider above. *)

Module Unified.

Record CrossChainParams := {
  destinationChainSelector : string;
  destinationContract : option string;
  payFeesIn : option Z;
}.

Record UnifiedBuyTradeParams := {
  u_tradeId : string;
  u_quantity : string;
  u_logisticsProvider : option string;
  crossChain : option CrossChainParams;
}.

(** A decoded event, with the two arguments this provider reads. *)
Record EventArguments := {
  arg_purchaseId : option Z;
  arg_messageId : option string;
}.

Record Event := { ev_name : string; ev_args : option EventArguments }.

(** [PaymentTransaction], with the two cross-chain fields. *)
Record Transaction := {
  t_payment : PaymentTransaction;
  t_messageId : option string;
  t_crossChain : bool;
}.

(** [!params.crossChain] *)
Definition isLocal (params : UnifiedBuyTradeParams) : bool :=
  match crossChain params with
  | Some _ => false
  | None => true
  end.

(** The re-throw cascade of the [catch] block: first match wins. *)
Definition buyTradeError (isLocalPurchase : bool) (errorMessage : string) : string :=
  if includes "InsufficientFeeTokenAmount" errorMessage then
    "Insufficient funds for cross-chain fees"
  else if includes "SourceChainNotAllowlisted" errorMessage then
    "Cross-chain purchases not supported from this network"
  else if includes "InsufficientTokenBalance" errorMessage then
    "Insufficient USDT balance for this purchase"
  else if includes "InsufficientTokenAllowance" errorMessage then
    "USDT allowance insufficient. Please approve the amount first"
  else if includes "InvalidTradeId" errorMessage || includes "TradeNotFound" errorMessage then
    "Invalid trade ID. This product may no longer be available"
  else if includes "InsufficientQuantity" errorMessage then
    "Requested quantity exceeds available stock"
  else if includes "InvalidLogisticsProvider" errorMessage then
    "Invalid logistics provider selected"
  else if includes "BuyerIsSeller" errorMessage then
    "Cannot purchase your own product"
  else if includes "User rejected" errorMessage then
    "Transaction was rejected by user"
  else if includes "gas" errorMessage then
    "Transaction failed due to gas issues. Please try again"
  else
    (if isLocalPurchase then "Purchase failed" else "Cross-chain purchase failed")
    +:+ ". Please try again.".

(** The call [estimateCrossChainFees] reads. *)
Definition getFeeCall (escrow : string) (selector payFeesIn : Z) : Tx :=
  {| tx_address := escrow; tx_functionName := "getFee";
     tx_args := [PBig selector; PBool (negb (payFeesIn =? 0))];
     tx_value := None; tx_gas := None; tx_account := None |}.

(** The nine positional arguments of the escrow's [buyCrossChainTrade]. *)
Definition crossChainArgs (destChainSelector : Z) (destContract : string) (tid qty : Z)
    (lp buyerToken : string) (buyerTokenAmount totalAmountInUSDT payFeesIn : Z)
    : list Param :=
  [PBig destChainSelector; PStr destContract; PBig tid; PBig qty; PStr lp;
   PStr buyerToken; PBig buyerTokenAmount; PBig totalAmountInUSDT; PNum payFeesIn].

(** [payFeesIn === 1 ? crossChainFees : 0n] *)
Definition feeValue (payFeesIn crossChainFees : Z) : Z :=
  if payFeesIn =? 1 then crossChainFees else 0.

(** [request.gas ? (request.gas * 130n) / 100n : GAS_LIMITS.BUY_TRADE * 2n] *)
Definition crossChainGas (request_gas : option Z) : Z :=
  if truthy_num request_gas then
    match request_gas with
    | Some g => Z.quot (g * 130) 100
    | None => GAS_LIMITS_BUY_TRADE * 2
    end
  else GAS_LIMITS_BUY_TRADE * 2.

Definition crossChainSimulation (escrow : string) (callArgs : list Param)
    (account : string) (value : Z) : Tx :=
  {| tx_address := escrow; tx_functionName := "buyCrossChainTrade";
     tx_args := callArgs; tx_value := Some value; tx_gas := None;
     tx_account := Some account |}.

Definition crossChainSubmission (escrow : string) (callArgs : list Param)
    (gas value : Z) : Tx :=
  {| tx_address := escrow; tx_functionName := "buyCrossChainTrade";
     tx_args := callArgs; tx_value := Some value; tx_gas := Some gas;
     tx_account := None |}.

Section Provider.

Variables USDT_ADDRESSES ESCROW_ADDRESSES : Z -> option string.
Variable ext : Outside.
Variable ui : UiOutside.
(** [decodeEventLog], with the arguments this provider reads. *)
Variable decodeEvent : Log -> JsError + Event.
Variable rd : Render.

(** [parseUnits("0.01", 18)], the default fee. *)
Definition defaultFee : U Z := u_lift (parseUnits ui "0.01" 18).

(** [estimateCrossChainFees] *)
Definition estimateCrossChainFees (destinationChainSelector : string) (payFeesIn : Z)
    : U Z :=
  match as_truthy (escrowContractAddress ESCROW_ADDRESSES rd) with
  | None => u_throw (Error "Escrow contract not available")
  | Some escrow =>
      u_try
        (selector ← u_lift (BigInt destinationChainSelector);
         let call := getFeeCall escrow selector payFeesIn in
         u_perform (ReadTx call) (readFee ui call))
        (fun error => defaultFee)
  end.

(** [receipt.logs.map(decode-or-null).filter(Boolean)] *)
Definition decodeLogs (ls : list Log) : list Event :=
  omap (fun log => match decodeEvent log with
                   | inr ev => Some ev
                   | inl _ => None
                   end) ls.

Definition argsOf (name : string) (events : list Event) : option EventArguments :=
  match List.find (fun ev => String.eqb (ev_name ev) name) events with
  | Some ev => ev_args ev
  | None => None
  end.

(** [purchaseId] and [messageId], as read from the receipt. *)
Definition readReceipt (isLocalPurchase : bool) (receipt : Receipt)
    : option string * option string :=
  match logs receipt with
  | Some ls =>
      let decodedLogs := decodeLogs ls in
      (match argsOf "PurchaseCreated" decodedLogs with
       | Some a => pretty <$> arg_purchaseId a
       | None => None
       end,
       if negb isLocalPurchase then
         match argsOf "MessageSent" decodedLogs with
         | Some a => arg_messageId a
         | None => None
         end
       else None)
  | None => (None, None)
  end.

(** The well-formedness check on an address. *)
Definition checkedAddress (a : option string) (complaint : string) : U string :=
  match a with
  | Some a =>
      if negb (startsWith "0x" a) || negb (Nat.eqb (String.length a) 42)
      then u_throw (Error complaint)
      else mret a
  | None => u_throw (Error complaint)
  end.

(** The unified [buyTrade]. *)
Definition buyTrade (params : UnifiedBuyTradeParams) : U Transaction :=
  if negb (truthy_str (address rd)) || negb (truthy_num (chain_id rd)) then
    u_throw (Error "Wallet not connected")
  else if negb (isCorrectNetwork rd) then
    u_throw (Error "Please switch to the correct network first")
  else
    match as_truthy (escrowContractAddress ESCROW_ADDRESSES rd),
          as_truthy (usdtContractAddress USDT_ADDRESSES rd) with
    | Some escrow, Some usdt =>
        let account := default "" (address rd) in
        let isLocalPurchase := isLocal params in
        u_try
          (tid ← u_lift (BigInt (u_tradeId params));
           qty ← u_lift (BigInt (u_quantity params));
           lp ← checkedAddress (u_logisticsProvider params)
                  "Invalid logistics provider address";
           tradeDetails ← from_M (getTrade ESCROW_ADDRESSES ext rd (u_tradeId params));
           let totalProductCost := productCost tradeDetails * qty in
           let buyerToken := usdt in
           let buyerTokenAmount := totalProductCost in
           let totalAmountInUSDT := totalProductCost in
           txHash ←
             match crossChain params with
             | None =>
                 let callArgs := buyTradeArgs tid qty lp buyerToken buyerTokenAmount
                                   totalAmountInUSDT in
                 let simulation := simulationCall escrow callArgs account in
                 gasEstimate ←
                   u_try
                     (request_gas ← u_perform (Chain (SimulateContract simulation))
                                              (simulateContract ext simulation);
                      mret (gasWithMargin request_gas))
                     (fun estimateError => mret GAS_LIMITS_BUY_TRADE);
                 let submission := submissionCall escrow callArgs gasEstimate in
                 u_perform (Chain (WriteContract submission))
                           (writeContractAsync ext submission)
             | Some cc =>
                 let payFeesIn := default 1 (payFeesIn cc) in
                 destChainSelector ← u_lift (BigInt (destinationChainSelector cc));
                 destContract ← checkedAddress (destinationContract cc)
                                  "Invalid destination contract address";
                 crossChainFees ←
                   u_try (estimateCrossChainFees (destinationChainSelector cc) payFeesIn)
                         (fun error => defaultFee);
                 let callArgs := crossChainArgs destChainSelector destContract tid qty lp
                                   buyerToken buyerTokenAmount totalAmountInUSDT payFeesIn in
                 let value := feeValue payFeesIn crossChainFees in
                 let simulation := crossChainSimulation escrow callArgs account value in
                 gasEstimate ←
                   u_try
                     (request_gas ← u_perform (SimulateTx simulation)
                                              (simulateTx ui simulation);
                      mret (crossChainGas request_gas))
                     (fun estimateError => mret (GAS_LIMITS_BUY_TRADE * 2));
                 let submission := crossChainSubmission escrow callArgs gasEstimate value in
                 u_perform (SubmitTx submission) (submitTx ui submission)
             end;
           if String.eqb txHash "" then u_throw (Error "Transaction failed to execute")
           else
             let timeout := if isLocalPurchase then 60000 else 120000 in
             receipt ← u_perform (Chain (WaitForTransactionReceipt txHash timeout))
                                 (waitForTransactionReceipt ext txHash timeout);
             let '(boughtId, messageId) := readReceipt isLocalPurchase receipt in
             let successMessage :=
               if isLocalPurchase then "Purchase successful!"
               else "Cross-chain purchase initiated! Your transaction is being processed."
             in
             u_emit (Snackbar successMessage "success");;
             u_emit (Chain (SetTimeout CbRefreshBalances
                              (if isLocalPurchase then 2000 else 5000)));;
             mret {| t_payment :=
                       {| hash := txHash;
                          amount := formatUnits ext totalAmountInUSDT
                                      (if truthy_num (usdtDecimals rd)
                                       then default 6 (usdtDecimals rd) else 6);
                          token := "USDT";
                          to := escrow;
                          from := account;
                          status := pending;
                          timestamp := Date_now ext;
                          tx_purchaseId := boughtId |};
                     t_messageId := messageId;
                     t_crossChain := negb isLocalPurchase |})
          (fun error =>
             u_throw (Error (buyTradeError isLocalPurchase (errorMessageOf error))))
    | _, _ => u_throw (Error "Contracts not available on this network")
    end.

End Provider.

End Unified.

(** * Vocabulary of the statements *)

(** The request got past every guard and the trade was read from the chain. *)
Record Validated (USDT ESCROW : Z -> option string) (ext : Outside) (rd : Render)
    (params : BuyTradeParams) (escrow usdt lp : string) (tid qty : Z)
    (details : TradeDetails) : Prop := {
  v_connected : walletConnected rd = true;
  v_network : isCorrectNetwork rd = true;
  v_escrow : as_truthy (escrowContractAddress ESCROW rd) = Some escrow;
  v_usdt : as_truthy (usdtContractAddress USDT rd) = Some usdt;
  v_tradeId : BigInt (tradeId params) = inr tid;
  v_quantity : BigInt (quantity params) = inr qty;
  v_provider : logisticsProvider params = Some lp;
  v_prefix : startsWith "0x" lp = true;
  v_length : String.length lp = 42%nat;
  v_trade : readContract ext (tradesCall escrow tid) = inr details;
}.

(** The gas limit [buyTrade] settles on, from the simulation's answer. *)
Definition settledGas (answer : JsError + option Z) : Z :=
  match answer with
  | inr request_gas => gasWithMargin request_gas
  | inl _ => GAS_LIMITS_BUY_TRADE
  end.

(** The substrings the [catch] block of [buyTrade] looks for. *)
Definition buyTradePatterns : list string :=
  ["InsufficientTokenBalance"; "InsufficientTokenAllowance"; "InvalidTradeId";
   "TradeNotFound"; "InsufficientQuantity"; "InvalidQuantity";
   "InvalidLogisticsProvider"; "BuyerIsSeller"; "InvalidTradeState";
   "User rejected"; "user rejected"; "Internal JSON-RPC error"; "gas"].

(** A logistics-provider address that fails the format check. *)
Definition malformedProvider (lp : option string) : Prop :=
  match lp with
  | Some a => startsWith "0x" a = false \/ String.length a <> 42%nat
  | None => True
  end.

(** The allowance [approveUSDT] compares against: what [getCurrentAllowance]
    resolved to. *)
Definition fetchedAllowance (USDT : Z -> option string) (ext : Outside) (rd : Render)
    : float :=
  match outcome (getCurrentAllowance USDT ext rd) with
  | inr a => a
  | inl _ => 0%float
  end.

(** Every rate snapshot in storage carries the chain id of its key. *)
Definition storage_consistent (h : Hook) : Prop :=
  forall (c : Z) (r : ExchangeRates),
    rates_items (storage h) !! CACHE_KEYS_RATES c = Some (Parsed r) -> chainId r = c.

Definition is_sleep (e : NetEvent) : bool :=
  match e with
  | Sleep _ => true
  | _ => false
  end.

Definition is_price_request (e : NetEvent) : bool :=
  match e with
  | PriceRequest _ _ => true
  | _ => false
  end.

(** The price request of this attempt ends in an error: the network fails,
    the status is not 2xx, or the body lacks a usable price. *)
Definition attemptFails (cl : Closure) (att : Attempt) : Prop :=
  forall cur : string, exists e : JsError, newRatesOf cl cur att = inl e.

(** The fee table, read as integers. *)
Definition feeInWei (a b : Z) : Z :=
  match BigInt (getCrossChainFee a b) with
  | inr n => n
  | inl _ => 0
  end.

(** * Sample worlds

    Concrete instances of the oracles, of the wallet and of the network's
    answers, used to run the embedding. *)

Definition sampleEscrow : string := "0xE5c40000000000000000000000000000000000E5".
Definition sampleUsdt : string := "0x05d70000000000000000000000000000000005d7".
Definition sampleBuyer : string := "0xB0b0000000000000000000000000000000000B0b".
Definition sampleLogistics : string := "0x1091571c50000000000000000000000000001091".

(** Both contracts are deployed on the target chain only. *)
Definition sampleEscrowTable (c : Z) : option string :=
  if c =? TARGET_CHAIN_id then Some sampleEscrow else None.

Definition sampleUsdtTable (c : Z) : option string :=
  if c =? TARGET_CHAIN_id then Some sampleUsdt else None.

Definition onTargetChain : Render :=
  {| address := Some sampleBuyer; isConnected := true;
     chain := Some {| id := 43113 |}; usdtDecimals := Some 6; isRefreshing := false |}.

(** The same wallet, connected to Base Sepolia. *)
Definition onBaseSepolia : Render :=
  {| address := Some sampleBuyer; isConnected := true;
     chain := Some {| id := 84532 |}; usdtDecimals := Some 6; isRefreshing := false |}.

Definition dquote : string := String (ascii_of_nat 34) EmptyString.

(** What viem throws when the receipt does not arrive in time. *)
Definition receiptTimeout (txHash : string) : JsError :=
  {| name := "WaitForTransactionReceiptTimeoutError";
     message := "Timed out while waiting for transaction with hash "
                +:+ dquote +:+ txHash +:+ dquote +:+ " to be confirmed." |}.

(** viem's [formatUnits]: the decimal point is placed [decimals] digits from
    the right, trailing zeros of the fraction are dropped. *)
Fixpoint dropZeros (s : string) : string :=
  match s with
  | String "0" rest => dropZeros rest
  | _ => s
  end.

Fixpoint zeros (n : nat) : string :=
  match n with
  | O => EmptyString
  | S k => String "0" (zeros k)
  end.

Definition sample_formatUnits (value decimals : Z) : string :=
  let d := Z.to_nat decimals in
  let digits := pretty (Z.abs value) in
  let display := zeros (d - String.length digits) +:+ digits in
  let k := (String.length display - d)%nat in
  let integer := String.substring 0 k display in
  let fraction := String.rev (dropZeros (String.rev (String.substring k d display))) in
  (if value <? 0 then "-" else "")
  +:+ (if String.eqb integer "" then "0" else integer)
  +:+ (if String.eqb fraction "" then "" else "." +:+ fraction).

(** A chain on which trade 7 costs 10 USDT (six decimals) per unit, the
    simulation reverts, the write is accepted and the receipt arrives. *)
Definition calmChain : Outside :=
  {| readContract := fun _ => inr {| productCost := 10000000; active := true;
                                     remainingQuantity := 50 |};
     simulateContract := fun _ => inl (Error "execution reverted");
     writeContractAsync := fun _ => inr "0xfeed";
     waitForTransactionReceipt := fun _ _ => inr {| logs := Some [] |};
     decodeEventLog := fun _ => inl (Error "no matching event");
     refetchAllowance := inr (Some 25000000);
     formatUnits := sample_formatUnits;
     parseFloat := fun s => if String.eqb s "25" then 25%float
                            else if String.eqb s "30" then 30%float
                            else if String.eqb s "20" then 20%float
                            else nan;
     parseWeb3Error := message;
     Date_now := 1700000000000 |}.

(** As [calmChain], but the simulation answers with a gas figure. *)
Definition estimatingChain (gas : Z) : Outside :=
  {| readContract := readContract calmChain;
     simulateContract := fun _ => inr (Some gas);
     writeContractAsync := writeContractAsync calmChain;
     waitForTransactionReceipt := waitForTransactionReceipt calmChain;
     decodeEventLog := decodeEventLog calmChain;
     refetchAllowance := refetchAllowance calmChain;
     formatUnits := formatUnits calmChain;
     parseFloat := parseFloat calmChain;
     parseWeb3Error := parseWeb3Error calmChain;
     Date_now := Date_now calmChain |}.

(** As [calmChain], but the receipt never arrives within the timeout. *)
Definition stalledChain : Outside :=
  {| readContract := readContract calmChain;
     simulateContract := simulateContract calmChain;
     writeContractAsync := writeContractAsync calmChain;
     waitForTransactionReceipt := fun txHash _ => inl (receiptTimeout txHash);
     decodeEventLog := decodeEventLog calmChain;
     refetchAllowance := refetchAllowance calmChain;
     formatUnits := formatUnits calmChain;
     parseFloat := parseFloat calmChain;
     parseWeb3Error := parseWeb3Error calmChain;
     Date_now := Date_now calmChain |}.

Definition threeOfTradeSeven : BuyTradeParams :=
  {| tradeId := "7"; quantity := "3"; logisticsProvider := Some sampleLogistics |}.

Definition badProvider : BuyTradeParams :=
  {| tradeId := "7"; quantity := "3"; logisticsProvider := Some "abc" |}.

Definition idle : Cell := {| committed := false; issued := [] |}.

Definition oneRefresh : list Effect :=
  [RefetchUSDTBalance; RefetchAvaxBalance; RefetchAllowance].

Definition sampleRates : ExchangeRates :=
  {| USDT_NATIVE := 0.5; USDT_FIAT := 4; NATIVE_FIAT := 8;
     nativeTokenSymbol := "AVAX"; nativeTokenName := "Avalanche";
     chainId := 43113; lastUpdated := 1700000000000 |}.

(** A run: a fetch is started for Avalanche Fuji, the wallet moves to Base
    Sepolia, and only then do the answers of the fetch arrive. *)
Definition noMetadata (c : Z) : option ChainMetadata := None.

Definition baseRates : ExchangeRates :=
  {| USDT_NATIVE := 0.5; USDT_FIAT := 1; NATIVE_FIAT := 2;
     nativeTokenSymbol := "ETH"; nativeTokenName := "Ethereum";
     chainId := 84532; lastUpdated := 1699999000000 |}.

Definition onlyBaseStored : Hook :=
  {| storage := {| rates_items := <[CACHE_KEYS_RATES 84532 := Parsed baseRates]> ∅;
                   geo_item := None |};
     rates := sampleRates; loading := false; error := None; userCountry := "USD" |}.

Definition fujiQuote : Attempt :=
  {| geo := GeoFails (Error "Failed to fetch");
     price := PriceData (<["tether" := <["usd" := 1%float]> ∅]>
                           (<["avalanche-2" := <["usd" := 40%float]> ∅]> ∅));
     clock := 1700000000000 |}.

Definition beforeSwitch : System :=
  {| hook := onlyBaseStored;
     props := {| p_chainId := Some 43113; p_isConnected := true |};
     flights := [] |}.

(** Three failed attempts in a row: the network is down, then the price
    source throttles, then it answers with an empty object. *)
Definition offline : list Attempt :=
  [ {| geo := GeoFails (Error "Failed to fetch");
       price := PriceFails (Error "Failed to fetch");
       clock := 1700000000000 |};
    {| geo := GeoFails (Error "Failed to fetch");
       price := PriceStatus 429 "Too Many Requests";
       clock := 1700000001000 |};
    {| geo := GeoAnswer true (Some "EUR") (Some "DE");
       price := PriceData ∅;
       clock := 1700000003000 |} ].

Definition nothingStored : Hook :=
  {| storage := {| rates_items := ∅; geo_item := None |};
     rates := defaultRatesFor AVAX 43113 0;
     loading := false; error := None; userCountry := "USD" |}.

Definition fujiCallback : Closure :=
  render noMetadata {| p_chainId := Some 43113; p_isConnected := true |} nothingStored.

(** * Sample worlds and vocabulary of the further properties *)

Definition onMainnet : Props := {| p_chainId := Some 1; p_isConnected := true |}.

Definition euroAnswer : Attempt :=
  {| geo := GeoAnswer true (Some "EUR") (Some "DE"); price := PriceData ∅;
     clock := 1700000003000 |}.

Definition anHourLater : Attempt :=
  {| geo := GeoFails (Error "Failed to fetch"); price := PriceData ∅;
     clock := 1700003603000 |}.

Definition geoUnreadable : Hook :=
  {| storage := {| rates_items := ∅; geo_item := Some Unparsable |};
     rates := defaultRatesFor AVAX 43113 0;
     loading := false; error := None; userCountry := "USD" |}.


(** The messages [buyTrade] may throw: its four guards and the twelve
    outputs of its [catch] block. *)
Definition buyTradeMessages : list string :=
  ["Wallet not connected";
   "Please switch to the correct network first";
   "Escrow contract not available on this network";
   "USDT contract not available on this network";
   "Insufficient USDT balance for this purchase";
   "USDT allowance insufficient. Please approve the amount first";
   "Invalid trade ID. This product may no longer be available";
   "Requested quantity exceeds available stock";
   "Invalid quantity specified";
   "Invalid logistics provider selected";
   "Cannot purchase your own product";
   "Trade is not in a valid state for purchase";
   "Transaction was rejected by user";
   "Network error. Please check your connection and try again";
   "Transaction failed due to gas issues. Please try again";
   "Transaction failed. Please try again."].

(** A chain whose wallet answers with its own wording. *)
Definition refusingChain : Outside :=
  {| readContract := readContract calmChain;
     simulateContract := simulateContract calmChain;
     writeContractAsync := fun _ =>
       inl {| name := "ContractFunctionExecutionError";
              message := "User rejected the request. Details: MetaMask Tx Signature" |};
     waitForTransactionReceipt := waitForTransactionReceipt calmChain;
     decodeEventLog := decodeEventLog calmChain;
     refetchAllowance := refetchAllowance calmChain;
     formatUnits := formatUnits calmChain;
     parseFloat := parseFloat calmChain;
     parseWeb3Error := parseWeb3Error calmChain;
     Date_now := Date_now calmChain |}.

Definition is_inr {A B : Type} (x : A + B) : bool :=
  match x with
  | inr _ => true
  | inl _ => false
  end.

Definition is_receipt_wait (e : Effect) : bool :=
  match e with
  | WaitForTransactionReceipt _ _ => true
  | _ => false
  end.

(** A chain on which the trade does not exist. *)
Definition emptyChain : Outside :=
  {| readContract := fun _ => inl (Error "execution reverted: TradeNotFound(7)");
     simulateContract := simulateContract calmChain;
     writeContractAsync := writeContractAsync calmChain;
     waitForTransactionReceipt := waitForTransactionReceipt calmChain;
     decodeEventLog := decodeEventLog calmChain;
     refetchAllowance := refetchAllowance calmChain;
     formatUnits := formatUnits calmChain;
     parseFloat := parseFloat calmChain;
     parseWeb3Error := parseWeb3Error calmChain;
     Date_now := Date_now calmChain |}.

(** A log that is not a "PurchaseCreated" event: it does not decode, or it
    decodes to another event. *)
Definition notPurchaseCreated (ext : Outside) (log : Log) : Prop :=
  match decodeEventLog ext log with
  | inr ev => String.eqb (eventName ev) "PurchaseCreated" = false
  | inl _ => True
  end.

(** A decoder that knows three logs by their data. *)
Definition sampleDecoder (log : Log) : JsError + DecodedEvent :=
  if String.eqb (data log) "0x01" then
    inr {| eventName := "Transfer"; args := None |}
  else if String.eqb (data log) "0x02" then
    inr {| eventName := "PurchaseCreated"; args := Some {| purchaseId := Some 41 |} |}
  else if String.eqb (data log) "0x03" then
    inr {| eventName := "PurchaseCreated"; args := Some {| purchaseId := Some 42 |} |}
  else inl (Error "no matching event").

Definition decodingChain : Outside :=
  {| readContract := readContract calmChain;
     simulateContract := simulateContract calmChain;
     writeContractAsync := writeContractAsync calmChain;
     waitForTransactionReceipt := waitForTransactionReceipt calmChain;
     decodeEventLog := sampleDecoder;
     refetchAllowance := refetchAllowance calmChain;
     formatUnits := formatUnits calmChain;
     parseFloat := parseFloat calmChain;
     parseWeb3Error := parseWeb3Error calmChain;
     Date_now := Date_now calmChain |}.

(** The allowance cannot be told: the token's decimals are not loaded yet,
    the refetch failed, or it brought nothing (or zero). *)
Definition allowanceUnknown (ext : Outside) (rd : Render) : Prop :=
  usdtDecimals rd = None
  \/ match refetchAllowance ext with
     | inl _ => True
     | inr fetched => truthy_num fetched = false
     end.

(** The wallet before the token's decimals have been read. *)
Definition decimalsNotLoaded : Render :=
  {| address := Some sampleBuyer; isConnected := true;
     chain := Some {| id := 43113 |}; usdtDecimals := None; isRefreshing := false |}.

(** One round: the callback of a fresh render runs, and its refetches settle. *)
Definition refreshRound (account : Render) (c : Cell) : Cell :=
  refreshBalances_settled (refreshBalances (rendered account c) c).

(** What happens before [sendPayment] looks at the token: nothing on the
    target chain, otherwise the switch, its snackbar and a one-second pause. *)
Definition switchedFirst (rd : Render) : list UiEffect :=
  if isCorrectNetwork rd then []
  else [SwitchChain TARGET_CHAIN_id;
        Snackbar ("Switched to " +:+ TARGET_CHAIN_name) "success"; Pause 1000].

(** The wallet is on the target chain, or agrees to move there. *)
Definition networkReady (ui : UiOutside) (rd : Render) : Prop :=
  isCorrectNetwork rd = true \/ exists u, switchChain ui TARGET_CHAIN_id = inr u.

(** A wallet that does what it is asked. *)
Definition obligingWallet : UiOutside :=
  {| switchChain := fun _ => inr tt;
     parseUnits := fun text decimals =>
       if String.eqb text "12.5" then inr (125 * 10 ^ (decimals - 1))
       else if String.eqb text "0.01" then inr (10 ^ (decimals - 2))
       else inl (Error "invalid decimal number");
     readFee := fun _ => inr 2000000000000000;
     simulateTx := fun _ => inr (Some 500000);
     submitTx := fun _ => inr "0xc0de" |}.

(** A wallet that refuses to change chain. *)
Definition stubbornWallet : UiOutside :=
  {| switchChain := fun _ => inl (Error "User rejected the request.");
     parseUnits := parseUnits obligingWallet;
     readFee := readFee obligingWallet;
     simulateTx := simulateTx obligingWallet;
     submitTx := submitTx obligingWallet |}.

Definition baseUsdt : string := "0xBa5e0000000000000000000000000000000005d7".

(** The token is deployed on Fuji and on Base Sepolia, at different addresses. *)
Definition twoChainUsdtTable (c : Z) : option string :=
  if c =? 43113 then Some sampleUsdt
  else if c =? 84532 then Some baseUsdt
  else None.

Definition twelveAndAHalf : PaymentParams :=
  {| pay_to := sampleLogistics; pay_amount := "12.5" |}.

Definition walletOnFuji : WalletState :=
  {| w_isConnected := true; w_address := Some sampleBuyer; w_chainId := Some 43113 |}.

(** Every message a failed [buyCrossChainTrade] can carry. *)
Definition crossChainBuyMessages : list string :=
  ["Please connect your wallet first";
   "Please switch to the correct network first";
   "Cross-chain operation not supported between these networks";
   "Invalid destination chain";
   "Insufficient USDT balance for this purchase.";
   "USDT allowance insufficient. Please approve the amount first.";
   "Trade not found on destination chain.";
   "Requested quantity exceeds available stock.";
   "Transaction was cancelled by user.";
   "Insufficient funds for gas and cross-chain fees.";
   "Cross-chain purchase failed. Please try again."].

Definition is_submit (e : UiEffect) : bool :=
  match e with
  | SubmitTx _ => true
  | _ => false
  end.

(** What [buyCrossChainTrade] does before it looks at the destination. *)
Definition crossChainPrelude (ui : UiOutside) (isCorrectNetwork : bool) : list UiEffect :=
  if isCorrectNetwork then []
  else match switchChain ui TARGET_CHAIN_id with
       | inr _ => [SwitchChain TARGET_CHAIN_id;
                   Snackbar ("Switched to " +:+ TARGET_CHAIN_name) "success"; Pause 1500]
       | inl _ => [SwitchChain TARGET_CHAIN_id;
                   Snackbar ("Failed to switch to " +:+ TARGET_CHAIN_name) "error"]
       end.

Definition fujiToFuji : CrossChainBuyParams :=
  {| cc_tradeId := "7"; cc_quantity := "3"; cc_logisticsProvider := sampleLogistics;
     cc_destinationChainId := 43113 |}.

Definition walletOnBase : WalletState :=
  {| w_isConnected := true; w_address := Some sampleBuyer; w_chainId := Some 84532 |}.

Definition baseEscrow : string := "0xBa5e00000000000000000000000000000000e5c0".

(** The escrow contract is deployed on Fuji and on Base Sepolia. *)
Definition twoChainEscrowTable (c : Z) : option string :=
  if c =? 43113 then Some sampleEscrow
  else if c =? 84532 then Some baseEscrow
  else None.

(** A cross-chain request that got past every guard and check, the trade
    having been read from the chain. *)
Record CrossChainRequest (USDT ESCROW : Z -> option string) (ext : Outside) (rd : Render)
    (params : Unified.UnifiedBuyTradeParams) (cc : Unified.CrossChainParams)
    (escrow usdt lp destContract : string) (tid qty selector : Z)
    (details : TradeDetails) : Prop := {
  x_connected : walletConnected rd = true;
  x_network : isCorrectNetwork rd = true;
  x_escrow : as_truthy (escrowContractAddress ESCROW rd) = Some escrow;
  x_usdt : as_truthy (usdtContractAddress USDT rd) = Some usdt;
  x_tradeId : BigInt (Unified.u_tradeId params) = inr tid;
  x_quantity : BigInt (Unified.u_quantity params) = inr qty;
  x_provider : Unified.u_logisticsProvider params = Some lp;
  x_provider_prefix : startsWith "0x" lp = true;
  x_provider_length : String.length lp = 42%nat;
  x_trade : readContract ext (tradesCall escrow tid) = inr details;
  x_crossChain : Unified.crossChain params = Some cc;
  x_selector : BigInt (Unified.destinationChainSelector cc) = inr selector;
  x_contract : Unified.destinationContract cc = Some destContract;
  x_contract_prefix : startsWith "0x" destContract = true;
  x_contract_length : String.length destContract = 42%nat;
}.

(** The fee [buyTrade] settles on: the contract's answer, else the default. *)
Definition settledFee (ui : UiOutside) (call : Tx) (fee0 : Z) : Z :=
  match readFee ui call with
  | inr fees => fees
  | inl _ => fee0
  end.

(** The gas limit of a cross-chain purchase, from the simulation's answer. *)
Definition settledCrossChainGas (answer : JsError + option Z) : Z :=
  match answer with
  | inr request_gas => Unified.crossChainGas request_gas
  | inl _ => GAS_LIMITS_BUY_TRADE * 2
  end.

(** The transaction a cross-chain [buyTrade] submits. *)
Definition crossChainPurchase (ui : UiOutside) (rd : Render) (cc : Unified.CrossChainParams)
    (escrow usdt lp destContract : string) (tid qty selector : Z)
    (details : TradeDetails) (fee0 : Z) : Tx * Tx * Tx :=
  let pf := default 1 (Unified.payFeesIn cc) in
  let feeCall := Unified.getFeeCall escrow selector pf in
  let value := Unified.feeValue pf (settledFee ui feeCall fee0) in
  let total := productCost details * qty in
  let callArgs := Unified.crossChainArgs selector destContract tid qty lp usdt total total pf in
  let simulation := Unified.crossChainSimulation escrow callArgs (default "" (address rd))
                      value in
  (feeCall, simulation,
   Unified.crossChainSubmission escrow callArgs
     (settledCrossChainGas (simulateTx ui simulation)) value).

(** What the user is told, and the refresh that is armed. *)
Definition announces (e : UiEffect) : bool :=
  match e with
  | Snackbar _ _ => true
  | Chain (SetTimeout _ _) => true
  | _ => false
  end.

(** The [messageId] of the first decodable [MessageSent] log. *)
Definition firstMessageId (decodeEvent : Log -> JsError + Unified.Event)
    (receipt : Receipt) : option string :=
  match logs receipt with
  | Some ls =>
      Unified.argsOf "MessageSent" (Unified.decodeLogs decodeEvent ls)
      ≫= Unified.arg_messageId
  | None => None
  end.

Definition toBaseSepolia : Unified.CrossChainParams :=
  {| Unified.destinationChainSelector := "10344971235874465080";
     Unified.destinationContract := Some baseEscrow;
     Unified.payFeesIn := None |}.

Definition sevenAcrossChains : Unified.UnifiedBuyTradeParams :=
  {| Unified.u_tradeId := "7"; Unified.u_quantity := "3";
     Unified.u_logisticsProvider := Some sampleLogistics;
     Unified.crossChain := Some toBaseSepolia |}.

Definition sevenToNowhere : Unified.UnifiedBuyTradeParams :=
  {| Unified.u_tradeId := "7"; Unified.u_quantity := "3";
     Unified.u_logisticsProvider := Some sampleLogistics;
     Unified.crossChain :=
       Some {| Unified.destinationChainSelector := "10344971235874465080";
               Unified.destinationContract := Some "abc";
               Unified.payFeesIn := None |} |}.

Definition sampleMessageId : string :=
  "0x6d65737361676531000000000000000000000000000000000000000000000000".

Definition sampleEventDecoder (log : Log) : JsError + Unified.Event :=
  if String.eqb (data log) "0x02" then
    inr {| Unified.ev_name := "PurchaseCreated";
           Unified.ev_args := Some {| Unified.arg_purchaseId := Some 41;
                                      Unified.arg_messageId := None |} |}
  else if String.eqb (data log) "0x05" then
    inr {| Unified.ev_name := "MessageSent";
           Unified.ev_args := Some {| Unified.arg_purchaseId := None;
                                      Unified.arg_messageId := Some sampleMessageId |} |}
  else inl (Error "no matching event").

(** As [calmChain], with a receipt that carries the router's log. *)
Definition routedChain : Outside :=
  {| readContract := readContract calmChain;
     simulateContract := simulateContract calmChain;
     writeContractAsync := writeContractAsync calmChain;
     waitForTransactionReceipt := fun _ _ =>
       inr {| logs := Some [ {| data := "0x01"; topics := [] |};
                             {| data := "0x05"; topics := [] |};
                             {| data := "0x02"; topics := [] |} ] |};
     decodeEventLog := decodeEventLog calmChain;
     refetchAllowance := refetchAllowance calmChain;
     formatUnits := formatUnits calmChain;
     parseFloat := parseFloat calmChain;
     parseWeb3Error := parseWeb3Error calmChain;
     Date_now := Date_now calmChain |}.

(** * Theorems *)

(** ** Running the monad *)

Ltac run_M :=
  unfold mbind, M_bind, mret, M_ret, try_catch, lift, perform, emit, throw,
         trace, outcome in *; cbn [fst snd] in *.

Lemma maxApproval_value : maxApproval = 2 ^ 256 - 1.
Proof. vm_compute. reflexivity. Qed.

Lemma as_truthy_Some s a : as_truthy s = Some a -> s = Some a /\ a <> "".
Proof.
  destruct s as [b|]; cbn; [|discriminate].
  destruct (String.eqb_spec b ""); [discriminate|].
  intros [= ->]. split; [reflexivity | assumption].
Qed.

Lemma as_truthy_truthy s a : as_truthy s = Some a -> truthy_str s = true.
Proof.
  intros H. apply as_truthy_Some in H as [-> Hne]. cbn.
  destruct (String.eqb_spec a ""); [contradiction | reflexivity].
Qed.

(** ** The embedding at work *)

Example BigInt_values :
  BigInt "30000000" = inr 30000000 /\ BigInt " 0x1f " = inr 31 /\ BigInt "-12" = inr (-12)
  /\ BigInt "" = inr 0
  /\ BigInt "12a" = inl {| name := "SyntaxError"; message := "Cannot convert 12a to a BigInt" |}.
Proof. repeat split; reflexivity. Qed.

(** White space around the digits is dropped, the no-break space included;
    inside the digits it is not. *)
Example BigInt_white_space :
  BigInt (String "160" "7") = inr 7
  /\ BigInt (String "009" (String "160" "42" +:+ String "160" (String "010" ""))) = inr 42
  /\ BigInt (String "160" "") = inr 0
  /\ StringToBigInt (String "4" (String "160" "2")) = None
  /\ toLowerCase (String "201" "UR") = String "233" "ur".
Proof. repeat split; reflexivity. Qed.

Example includes_values :
  includes "gas" "out of gas" = true
  /\ includes "gas" "Invalid logistics provider address" = false
  /\ includes "" "" = true.
Proof. repeat split; reflexivity. Qed.

Example gasWithMargin_values :
  gasWithMargin (Some 100000) = 120000 /\ gasWithMargin (Some 333333) = 399999
  /\ gasWithMargin (Some 0) = 800000 /\ gasWithMargin None = 800000.
Proof. repeat split; reflexivity. Qed.

(** A whole purchase on [calmChain]: the trade is read, the simulation
    reverts, the write goes out with the fixed gas limit, the receipt arrives,
    the balance refresh is armed, and the pending transaction is returned. *)
Example buyTrade_on_calmChain :
  let callArgs := buyTradeArgs 7 3 sampleLogistics sampleUsdt 30000000 30000000 in
  buyTrade sampleUsdtTable sampleEscrowTable calmChain onTargetChain threeOfTradeSeven
  = ([ReadContract (tradesCall sampleEscrow 7);
      SimulateContract (simulationCall sampleEscrow callArgs sampleBuyer);
      WriteContract (submissionCall sampleEscrow callArgs 800000);
      WaitForTransactionReceipt "0xfeed" 60000;
      SetTimeout CbRefreshBalances 2000],
     inr {| hash := "0xfeed"; amount := "30"; token := "USDT"; to := sampleEscrow;
            from := sampleBuyer; status := pending; timestamp := 1700000000000;
            tx_purchaseId := None |}).
Proof. vm_compute. reflexivity. Qed.

(** ** [buyTrade]: the guards before the [try] block *)

(** C1. The guards of [buyTrade] run in the order wallet connected, correct
    network, escrow contract known, token contract known; the first one that
    fails decides the error, and nothing has been asked of the chain by then
    (the trace of calls is empty).  In particular a connected wallet on the
    wrong network always gets "Please switch to the correct network first". *)
Theorem buyTrade_guards_in_order
    (USDT ESCROW : Z -> option string) (ext : Outside) (rd : Render)
    (params : BuyTradeParams) :
  (walletConnected rd = false ->
     buyTrade USDT ESCROW ext rd params = ([], inl (Error "Wallet not connected")))
  /\ (walletConnected rd = true -> isCorrectNetwork rd = false ->
     buyTrade USDT ESCROW ext rd params
     = ([], inl (Error "Please switch to the correct network first")))
  /\ (walletConnected rd = true -> isCorrectNetwork rd = true ->
      as_truthy (escrowContractAddress ESCROW rd) = None ->
     buyTrade USDT ESCROW ext rd params
     = ([], inl (Error "Escrow contract not available on this network")))
  /\ (walletConnected rd = true -> isCorrectNetwork rd = true ->
      is_Some (as_truthy (escrowContractAddress ESCROW rd)) ->
      as_truthy (usdtContractAddress USDT rd) = None ->
     buyTrade USDT ESCROW ext rd params
     = ([], inl (Error "USDT contract not available on this network"))).
Proof.
  unfold buyTrade, walletConnected.
  destruct (truthy_str (address rd)), (truthy_num (chain_id rd)); cbn [andb negb orb];
    repeat split; intros; try discriminate; try reflexivity.
  all: repeat match goal with
       | H : isCorrectNetwork _ = _ |- _ => rewrite H; cbn [negb]
       | H : as_truthy _ = _ |- _ => rewrite H
       | H : is_Some _ |- _ => destruct H as [? H]
       end; reflexivity.
Qed.

Lemma buyTrade_guards_in_order_witness :
  walletConnected onBaseSepolia = true /\ isCorrectNetwork onBaseSepolia = false /\
  buyTrade sampleUsdtTable sampleEscrowTable calmChain onBaseSepolia threeOfTradeSeven
  = ([], inl (Error "Please switch to the correct network first")).
Proof.
  split; [reflexivity|]. split; [reflexivity|].
  apply (buyTrade_guards_in_order sampleUsdtTable sampleEscrowTable calmChain
           onBaseSepolia threeOfTradeSeven); reflexivity.
Defined.

(** ** [buyTrade]: a request that passes validation *)

Lemma sample_validated (ext : Outside) :
  readContract ext = readContract calmChain ->
  Validated sampleUsdtTable sampleEscrowTable ext onTargetChain threeOfTradeSeven
    sampleEscrow sampleUsdt sampleLogistics 7 3
    {| productCost := 10000000; active := true; remainingQuantity := 50 |}.
Proof. intros H. split; try reflexivity. rewrite H. reflexivity. Qed.

Section ValidatedRun.

Context {USDT ESCROW : Z -> option string} {ext : Outside} {rd : Render}
        {params : BuyTradeParams} {escrow usdt lp : string} {tid qty : Z}
        {details : TradeDetails}.
Hypothesis valid : Validated USDT ESCROW ext rd params escrow usdt lp tid qty details.

Let account : string := default "" (address rd).
Let total : Z := productCost details * qty.
Let callArgs : list Arg := buyTradeArgs tid qty lp usdt total total.
Let simulation : ContractCall := simulationCall escrow callArgs account.
Let decimals : Z := if truthy_num (usdtDecimals rd) then default 6 (usdtDecimals rd) else 6.

Let gas : Z := settledGas (simulateContract ext simulation).
Let submission : ContractCall := submissionCall escrow callArgs gas.
Let rethrow (e : JsError) : JsError + PaymentTransaction :=
  inl (Error (buyTradeError (errorMessageOf e))).

(** What a validated [buyTrade] does, call by call. *)
Lemma buyTrade_run :
  buyTrade USDT ESCROW ext rd params =
  match writeContractAsync ext submission with
  | inl e =>
      ([ReadContract (tradesCall escrow tid); SimulateContract simulation;
        WriteContract submission], rethrow e)
  | inr txHash =>
      if String.eqb txHash "" then
        ([ReadContract (tradesCall escrow tid); SimulateContract simulation;
          WriteContract submission], rethrow (Error "Transaction failed to execute"))
      else
        match waitForTransactionReceipt ext txHash 60000 with
        | inl e =>
            ([ReadContract (tradesCall escrow tid); SimulateContract simulation;
              WriteContract submission; WaitForTransactionReceipt txHash 60000],
             rethrow e)
        | inr receipt =>
            ([ReadContract (tradesCall escrow tid); SimulateContract simulation;
              WriteContract submission; WaitForTransactionReceipt txHash 60000;
              SetTimeout CbRefreshBalances 2000],
             inr {| hash := txHash;
                    amount := formatUnits ext total decimals;
                    token := "USDT";
                    to := escrow;
                    from := account;
                    status := pending;
                    timestamp := Date_now ext;
                    tx_purchaseId := findPurchaseId ext receipt |})
        end
  end.
Proof.
  destruct valid as [Hc Hn He Hu Ht Hq Hp Hpre Hlen Hread].
  unfold buyTrade, getTrade.
  unfold walletConnected in Hc. apply andb_true_iff in Hc as [Ha Hi].
  rewrite Ha, Hi, Hn, He, Hu, Ht, Hq, Hp, Hpre, Hlen.
  subst submission gas simulation callArgs total account decimals rethrow.
  cbn [negb orb Nat.eqb]. run_M. cbn. rewrite Hread.
  cbn. unfold settledGas.
  destruct (simulateContract ext _) as [e|g]; cbn;
    (destruct (writeContractAsync ext _) as [e'|h]; cbn; [reflexivity|]);
    (destruct (String.eqb h ""); cbn; [reflexivity|]);
    (destruct (waitForTransactionReceipt ext h 60000) as [e''|r]; cbn; reflexivity).
Qed.

End ValidatedRun.

Example sample_formatUnits_values :
  sample_formatUnits 30000000 6 = "30" /\ sample_formatUnits 1500000 6 = "1.5"
  /\ sample_formatUnits 5 6 = "0.000005".
Proof. repeat split; vm_compute; reflexivity. Qed.

(** ** [buyTrade]: gas limit *)

(** C2. On the same-chain path a validated [buyTrade] issues exactly one
    write, the escrow's [buyTrade] with the purchase arguments, whatever the
    simulation did.  When the simulation throws, the gas limit of that write
    is the fixed [GAS_LIMITS.BUY_TRADE], 800000; so it is when the simulation
    gives no estimate.  When the simulation answers with an estimate [g], the
    gas limit is [g * 120 / 100].  A pending [PaymentTransaction] is returned
    when the write gives a hash and the receipt of that hash arrives. *)
Theorem buyTrade_gas_limit
    (USDT ESCROW : Z -> option string) (ext : Outside) (rd : Render)
    (params : BuyTradeParams) (escrow usdt lp : string) (tid qty : Z)
    (details : TradeDetails) :
  Validated USDT ESCROW ext rd params escrow usdt lp tid qty details ->
  let total := productCost details * qty in
  let callArgs := [ABig tid; ABig qty; AAddr lp; AAddr usdt; ABig total; ABig total] in
  let simulation :=
    {| c_address := escrow; c_functionName := "buyTrade"; c_args := callArgs;
       c_gas := None; c_account := Some (default "" (address rd)) |} in
  let run := buyTrade USDT ESCROW ext rd params in
  GAS_LIMITS_BUY_TRADE = 800000
  /\ exists write,
       List.filter is_write (trace run) = [WriteContract write]
       /\ c_address write = escrow
       /\ c_functionName write = "buyTrade"
       /\ c_args write = callArgs
       /\ (forall e, simulateContract ext simulation = inl e ->
           c_gas write = Some 800000)
       /\ (simulateContract ext simulation = inr None
           \/ simulateContract ext simulation = inr (Some 0) ->
           c_gas write = Some 800000)
       /\ (forall g, simulateContract ext simulation = inr (Some g) -> 0 < g ->
           c_gas write = Some (g * 120 / 100))
       /\ (forall txHash receipt,
             writeContractAsync ext write = inr txHash ->
             txHash <> "" ->
             waitForTransactionReceipt ext txHash 60000 = inr receipt ->
             exists tx, outcome run = inr tx /\ hash tx = txHash /\ status tx = pending).
Proof.
  intros valid total callArgs simulation run.
  split; [reflexivity|].
  subst run. rewrite (buyTrade_run valid).
  change (buyTradeArgs tid qty lp usdt total total) with callArgs.
  change (simulationCall escrow callArgs (default "" (address rd))) with simulation.
  exists (submissionCall escrow callArgs (settledGas (simulateContract ext simulation))).
  split; [|repeat split].
  - destruct (writeContractAsync ext _) as [e'|h]; [reflexivity|].
    destruct (String.eqb h ""); [reflexivity|].
    destruct (waitForTransactionReceipt ext h 60000); reflexivity.
  - intros e He. rewrite He. reflexivity.
  - intros [He | He]; rewrite He; reflexivity.
  - intros g Hg Hpos. rewrite Hg. cbn [settledGas c_gas submissionCall].
    unfold gasWithMargin. cbn [truthy_num].
    destruct (Z.eqb_spec g 0); [lia|]. cbn [negb].
    rewrite Z.quot_div_nonneg by lia. reflexivity.
  - intros txHash receipt Hw Hne Hr.
    match goal with
    | |- context [writeContractAsync ext ?c] =>
        change (writeContractAsync ext c = inr txHash) in Hw
    end.
    rewrite Hw.
    destruct (String.eqb_spec txHash ""); [contradiction|].
    rewrite Hr. cbn. eexists. repeat split.
Qed.

Lemma buyTrade_gas_limit_witness :
  let fallback := buyTrade sampleUsdtTable sampleEscrowTable calmChain onTargetChain
                    threeOfTradeSeven in
  let estimated := buyTrade sampleUsdtTable sampleEscrowTable (estimatingChain 100000)
                     onTargetChain threeOfTradeSeven in
  (exists write,
     List.filter is_write (trace fallback) = [WriteContract write]
     /\ c_gas write = Some 800000
     /\ exists tx, outcome fallback = inr tx /\ hash tx = "0xfeed" /\ status tx = pending)
  /\ (exists write,
        List.filter is_write (trace estimated) = [WriteContract write]
        /\ c_gas write = Some 120000).
Proof.
  intros fallback estimated. split.
  - destruct (buyTrade_gas_limit _ _ _ _ _ _ _ _ _ _ _ (sample_validated calmChain eq_refl))
      as (_ & write & Hone & _ & _ & _ & Hfallback & _ & _ & Htx).
    exists write. split; [exact Hone|].
    split; [exact (Hfallback (Error "execution reverted") eq_refl)|].
    apply (Htx "0xfeed" {| logs := Some [] |}); [|discriminate | reflexivity].
    injection Hone as <-. reflexivity.
  - destruct (buyTrade_gas_limit _ _ _ _ _ _ _ _ _ _ _
                (sample_validated (estimatingChain 100000) eq_refl))
      as (_ & write & Hone & _ & _ & _ & _ & _ & Hestimate & _).
    exists write. split; [exact Hone|].
    apply (Hestimate 100000); [reflexivity | lia].
Defined.

(** C2, as the specification states it, fails where the wallet accepts the
    write and the receipt does not arrive: the simulation threw, the write
    went out with the fallback limit and returned a hash, and the caller gets
    an error, not a [PaymentTransaction]. *)
Lemma buyTrade_accepted_write_without_receipt_returns_nothing :
  let run := buyTrade sampleUsdtTable sampleEscrowTable stalledChain onTargetChain
               threeOfTradeSeven in
  let callArgs := buyTradeArgs 7 3 sampleLogistics sampleUsdt 30000000 30000000 in
  let write := {| c_address := sampleEscrow; c_functionName := "buyTrade";
                  c_args := callArgs; c_gas := Some 800000; c_account := None |} in
  simulateContract stalledChain
    {| c_address := sampleEscrow; c_functionName := "buyTrade"; c_args := callArgs;
       c_gas := None; c_account := Some sampleBuyer |}
  = inl (Error "execution reverted")
  /\ List.filter is_write (trace run) = [WriteContract write]
  /\ writeContractAsync stalledChain write = inr "0xfeed"
  /\ outcome run = inl (Error "Transaction failed. Please try again.").
Proof.
  intros run callArgs write. repeat split; vm_compute; reflexivity.
Qed.

(** ** [buyTrade]: the receipt does not arrive *)

Lemma buyTradeError_unmatched (msg : string) :
  (forall needle, In needle buyTradePatterns -> includes needle msg = false) ->
  buyTradeError msg = "Transaction failed. Please try again.".
Proof.
  intros H. unfold buyTradeError.
  repeat (rewrite H by (cbn; tauto); cbn [orb]).
  reflexivity.
Qed.

(** C3 (amended). When the 60-second receipt wait of a same-chain purchase
    fails, [buyTrade] fails too: no [PaymentTransaction] is returned and no
    balance refresh is scheduled.  The error it throws is the one its [catch]
    block derives from the text of the failure, which is the generic
    "Transaction failed. Please try again." whenever that text holds none of the
    substrings the block looks for. *)
Theorem buyTrade_receipt_failure
    (USDT ESCROW : Z -> option string) (ext : Outside) (rd : Render)
    (params : BuyTradeParams) (escrow usdt lp : string) (tid qty : Z)
    (details : TradeDetails) (txHash : string) (e : JsError) :
  Validated USDT ESCROW ext rd params escrow usdt lp tid qty details ->
  let total := productCost details * qty in
  let callArgs := buyTradeArgs tid qty lp usdt total total in
  let simulation := simulationCall escrow callArgs (default "" (address rd)) in
  let gas := settledGas (simulateContract ext simulation) in
  let run := buyTrade USDT ESCROW ext rd params in
  writeContractAsync ext (submissionCall escrow callArgs gas) = inr txHash ->
  txHash <> "" ->
  waitForTransactionReceipt ext txHash 60000 = inl e ->
  outcome run = inl (Error (buyTradeError (errorMessageOf e)))
  /\ In (WaitForTransactionReceipt txHash 60000) (trace run)
  /\ existsb is_timer (trace run) = false
  /\ ((forall needle, In needle buyTradePatterns ->
         includes needle (errorMessageOf e) = false) ->
      outcome run = inl (Error "Transaction failed. Please try again.")).
Proof.
  intros valid total callArgs simulation gas run Hw Hne Hr.
  subst run. rewrite (buyTrade_run valid).
  fold total. fold callArgs. fold simulation. fold gas.
  rewrite Hw. destruct (String.eqb_spec txHash ""); [contradiction|].
  rewrite Hr. cbn. repeat split; auto.
  intros H. rewrite (buyTradeError_unmatched _ H). reflexivity.
Qed.

Lemma buyTrade_receipt_failure_witness :
  let run := buyTrade sampleUsdtTable sampleEscrowTable stalledChain onTargetChain
               threeOfTradeSeven in
  outcome run = inl (Error "Transaction failed. Please try again.")
  /\ In (WaitForTransactionReceipt "0xfeed" 60000) (trace run)
  /\ existsb is_timer (trace run) = false.
Proof.
  intros run.
  destruct (buyTrade_receipt_failure _ _ _ _ _ _ _ _ _ _ _ "0xfeed" (receiptTimeout "0xfeed")
              (sample_validated stalledChain eq_refl) eq_refl ltac:(discriminate) eq_refl)
    as (H1 & H2 & H3 & _).
  split; [exact H1 | split; [exact H2 | exact H3]].
Defined.

(** C3, as the specification states it, fails: viem's timeout error does not
    carry the text "Internal JSON-RPC error", so the caller sees the generic
    failure and not the network one. *)
Lemma buyTrade_receipt_timeout_is_not_network_error :
  let run := buyTrade sampleUsdtTable sampleEscrowTable stalledChain onTargetChain
               threeOfTradeSeven in
  In (WaitForTransactionReceipt "0xfeed" 60000) (trace run)
  /\ outcome run = inl (Error "Transaction failed. Please try again.")
  /\ outcome run <> inl (Error "Network error. Please check your connection and try again").
Proof.
  intros run. split; [|split].
  - vm_compute. auto 10.
  - vm_compute. reflexivity.
  - vm_compute. discriminate.
Qed.

(** ** [buyTrade]: the logistics provider check *)

(** Past the guards, a malformed provider address is rejected before anything
    is asked of the chain; the error that leaves [buyTrade] is what the [catch]
    block makes of "Invalid logistics provider address". *)
Lemma buyTrade_malformed_provider
    (USDT ESCROW : Z -> option string) (ext : Outside) (rd : Render)
    (params : BuyTradeParams) (tid qty : Z) :
  walletConnected rd = true ->
  isCorrectNetwork rd = true ->
  is_Some (as_truthy (escrowContractAddress ESCROW rd)) ->
  is_Some (as_truthy (usdtContractAddress USDT rd)) ->
  BigInt (tradeId params) = inr tid ->
  BigInt (quantity params) = inr qty ->
  malformedProvider (logisticsProvider params) ->
  buyTrade USDT ESCROW ext rd params
  = ([], inl (Error "Transaction failed. Please try again.")).
Proof.
  intros Hc Hn [escrow He] [usdt Hu] Ht Hq Hbad.
  unfold buyTrade. unfold walletConnected in Hc. apply andb_true_iff in Hc as [Ha Hi].
  rewrite Ha, Hi, Hn, He, Hu, Ht, Hq. cbn [negb orb]. run_M.
  destruct (logisticsProvider params) as [a|]; [|reflexivity].
  cbn in Hbad. destruct Hbad as [Hpre|Hlen].
  - rewrite Hpre. reflexivity.
  - destruct (startsWith "0x" a); cbn [negb orb]; [|reflexivity].
    destruct (Nat.eqb_spec (String.length a) 42); [contradiction|]. reflexivity.
Qed.

(** C4 (the code at the failing input). With the wallet connected on the
    target chain and both contracts known, a purchase whose logistics provider
    is "abc" issues no chain call, but the error the caller receives is the
    generic "Transaction failed. Please try again.": the [catch] block does not
    recognise the message thrown by the format check. *)
Theorem buyTrade_malformed_provider_is_reported_as_generic_failure (ext : Outside) :
  buyTrade sampleUsdtTable sampleEscrowTable ext onTargetChain badProvider
  = ([], inl (Error "Transaction failed. Please try again."))
  /\ buyTradeError "Invalid logistics provider address"
     <> "Invalid logistics provider selected"
  /\ includes "InvalidLogisticsProvider" "Invalid logistics provider address" = false.
Proof.
  split; [|split].
  - apply (buyTrade_malformed_provider _ _ _ _ _ 7 3); try reflexivity.
    + eexists; reflexivity.
    + eexists; reflexivity.
    + right. cbn. discriminate.
  - vm_compute. discriminate.
  - reflexivity.
Qed.

(** ** [buyTrade]: amounts *)

(** C5. The amount [buyTrade] sends to the escrow, both when it simulates and
    when it writes, is the integer product of the unit cost read from the
    chain and the requested quantity; the amount of the returned
    [PaymentTransaction] is that same integer, formatted.  For a unit cost of
    10000000 and a quantity of 3 it is 30000000. *)
Theorem buyTrade_totalCost_exact
    (USDT ESCROW : Z -> option string) (ext : Outside) (rd : Render)
    (params : BuyTradeParams) (escrow usdt lp : string) (tid qty : Z)
    (details : TradeDetails) :
  Validated USDT ESCROW ext rd params escrow usdt lp tid qty details ->
  let total := productCost details * qty in
  let callArgs := buyTradeArgs tid qty lp usdt total total in
  let run := buyTrade USDT ESCROW ext rd params in
  (exists gas rest,
      trace run = ReadContract (tradesCall escrow tid)
                  :: SimulateContract (simulationCall escrow callArgs (default "" (address rd)))
                  :: WriteContract (submissionCall escrow callArgs gas)
                  :: rest)
  /\ (forall tx, outcome run = inr tx ->
        amount tx = formatUnits ext total
                      (if truthy_num (usdtDecimals rd) then default 6 (usdtDecimals rd) else 6))
  /\ (productCost details = 10000000 -> qty = 3 -> total = 30000000).
Proof.
  intros valid total callArgs run. subst run.
  rewrite (buyTrade_run valid). fold total. fold callArgs.
  split; [|split].
  - eexists.
    destruct (writeContractAsync ext _) as [e'|h]; [eexists; reflexivity|].
    destruct (String.eqb h ""); [eexists; reflexivity|].
    destruct (waitForTransactionReceipt ext h 60000); eexists; reflexivity.
  - intros tx.
    destruct (writeContractAsync ext _) as [e'|h]; [discriminate|].
    destruct (String.eqb h ""); [discriminate|].
    destruct (waitForTransactionReceipt ext h 60000); [discriminate|].
    cbn. intros [= <-]. reflexivity.
  - intros Hc Hq. subst total. rewrite Hc, Hq. reflexivity.
Qed.

Lemma buyTrade_totalCost_exact_witness :
  let run := buyTrade sampleUsdtTable sampleEscrowTable calmChain onTargetChain
               threeOfTradeSeven in
  let callArgs := buyTradeArgs 7 3 sampleLogistics sampleUsdt 30000000 30000000 in
  (exists gas rest,
      trace run = ReadContract (tradesCall sampleEscrow 7)
                  :: SimulateContract (simulationCall sampleEscrow callArgs sampleBuyer)
                  :: WriteContract (submissionCall sampleEscrow callArgs gas)
                  :: rest)
  /\ (forall tx, outcome run = inr tx -> amount tx = "30").
Proof.
  intros run callArgs.
  destruct (buyTrade_totalCost_exact _ _ _ _ _ _ _ _ _ _ _
              (sample_validated calmChain eq_refl)) as (Htrace & Hamount & _).
  split; [exact Htrace | exact Hamount].
Defined.

(** ** [approveUSDT] *)

(** [getCurrentAllowance] never throws and never writes. *)
Lemma getCurrentAllowance_total
    (USDT : Z -> option string) (ext : Outside) (rd : Render) :
  getCurrentAllowance USDT ext rd
  = (trace (getCurrentAllowance USDT ext rd), inr (fetchedAllowance USDT ext rd))
  /\ existsb is_write (trace (getCurrentAllowance USDT ext rd)) = false.
Proof.
  unfold fetchedAllowance, getCurrentAllowance.
  destruct (negb (truthy_str (address rd)) || negb (truthy_num (chain_id rd))
            || negb (truthy_str (usdtContractAddress USDT rd))); [split; reflexivity|].
  run_M. destruct (refetchAllowance ext) as [e|d]; [split; reflexivity|].
  destruct (usdtDecimals rd); [|split; reflexivity].
  destruct (truthy_num d); split; reflexivity.
Qed.



(** ** [refreshBalances] *)

(** A callback created by a render that already saw the flag set does nothing. *)
Lemma refreshBalances_after_rerender_skips (account : Render) (c : Cell) :
  committed c = true ->
  refreshBalances (rendered account c) c = c.
Proof.
  intros H. unfold refreshBalances, refreshBalances_skips, rendered. cbn.
  rewrite H. rewrite !orb_true_r. reflexivity.
Qed.

(** C7 (the code at the failing input). The guard of [refreshBalances] reads
    the [isRefreshing] value its callback closed over.  Called twice on the
    callback of one render, with the wallet connected on the target chain, the
    second call finds a refresh in flight (the cell is set) and still issues
    its own three reads: six reads in all, not three. *)
Theorem refreshBalances_same_callback_reads_twice :
  let callback := rendered onTargetChain idle in
  let first := refreshBalances callback idle in
  let second := refreshBalances callback first in
  committed first = true
  /\ issued first = oneRefresh
  /\ issued second = oneRefresh ++ oneRefresh
  /\ refreshBalances (rendered onTargetChain first) first = first.
Proof. repeat split. Qed.

(** ** [convertPrice] *)

Example convertPrice_converts :
  convertPrice sampleRates 3 USDT FIAT = 12%float
  /\ convertPrice sampleRates 3 NATIVE USDT = 6%float.
Proof. split; reflexivity. Qed.

Lemma Currency_eqb_refl (c : Currency) : Currency_eqb c c = true.
Proof. destruct c; reflexivity. Qed.

(** C9. [convertPrice] returns its input as it is when the two currencies
    are the same (for every currency and every amount, finite or not), when
    the amount is not finite ([NaN], an infinity), and when it is zero. *)
Theorem convertPrice_returns_input_unchanged
    (r : ExchangeRates) (price : float) (from to : Currency) :
  convertPrice r price from from = price
  /\ (isFinite price = false -> convertPrice r price from to = price)
  /\ (PrimFloat.eqb price 0 = true -> convertPrice r price from to = price).
Proof.
  unfold convertPrice. split; [|split].
  - rewrite Currency_eqb_refl. reflexivity.
  - intros ->. cbn [negb]. rewrite orb_true_r. reflexivity.
  - intros ->. rewrite orb_true_r. reflexivity.
Qed.

Lemma convertPrice_returns_input_unchanged_witness :
  convertPrice sampleRates 3 FIAT FIAT = 3%float
  /\ convertPrice sampleRates infinity USDT NATIVE = infinity
  /\ convertPrice sampleRates nan NATIVE FIAT = nan
  /\ convertPrice sampleRates (-0)%float FIAT USDT = (-0)%float.
Proof.
  split; [|split; [|split]].
  - exact (proj1 (convertPrice_returns_input_unchanged sampleRates 3 FIAT FIAT)).
  - exact (proj1 (proj2 (convertPrice_returns_input_unchanged sampleRates infinity USDT NATIVE))
             eq_refl).
  - exact (proj1 (proj2 (convertPrice_returns_input_unchanged sampleRates nan NATIVE FIAT))
             eq_refl).
  - exact (proj2 (proj2 (convertPrice_returns_input_unchanged sampleRates (-0)%float FIAT USDT))
             eq_refl).
Defined.

(** ** The persisted rate cache *)

Lemma CACHE_KEYS_RATES_inj (a b : Z) : CACHE_KEYS_RATES a = CACHE_KEYS_RATES b -> a = b.
Proof.
  unfold CACHE_KEYS_RATES. intros H.
  apply (inj (String.app "currency_rates_v2_")) in H.
  apply (inj pretty) in H. exact H.
Qed.

Lemma fetchGeoData_rates_items (cl : Closure) (att : Attempt) (h : Hook) :
  rates_items (storage (fetchGeoData cl att h).1.2) = rates_items (storage h).
Proof.
  unfold fetchGeoData.
  destruct (geo_item (storage h)) as [[|g]|]; cbn; try reflexivity;
    [destruct (_ <? _); cbn; try reflexivity|];
    destruct (geo att) as [e|[|] cur ctry]; reflexivity.
Qed.

Lemma newRatesOf_chainId (cl : Closure) (cur : string) (att : Attempt) (r : ExchangeRates) :
  newRatesOf cl cur att = inr r -> chainId r = effectiveChainId cl.
Proof.
  unfold newRatesOf. destruct (price att) as [e|st txt|data]; try discriminate.
  destruct (data !! "tether"); [|discriminate].
  destruct (data !! coingeckoId (nativeTokenInfo cl)); [|discriminate].
  destruct (badNativePrice _); [discriminate|].
  intros [= <-]. reflexivity.
Qed.

(** What the price stage leaves in storage: nothing new, or the new snapshot
    of the callback's own chain under that chain's key. *)
Lemma priceStage_rates_items (cl : Closure) (cur : string) (att : Attempt) (h : Hook) :
  rates_items (storage (priceStage cl cur att h).1.2) = rates_items (storage h)
  \/ exists r, chainId r = effectiveChainId cl
       /\ rates_items (storage (priceStage cl cur att h).1.2)
          = <[CACHE_KEYS_RATES (effectiveChainId cl) := Parsed r]> (rates_items (storage h)).
Proof.
  unfold priceStage. destruct (newRatesOf cl cur att) as [e|r] eqn:E; cbn.
  - left. reflexivity.
  - right. exists r. split; [eapply newRatesOf_chainId; eassumption | reflexivity].
Qed.

Lemma afterFailure_storage (cl : Closure) (e : JsError) (now : Z) (h : Hook) :
  storage (afterFailure cl e now h) = storage h.
Proof.
  unfold afterFailure. cbn.
  destruct (rates_items (storage h) !! _) as [[|parsed]|]; try reflexivity.
  destruct (negb _); reflexivity.
Qed.

(** A step of a flight changes the stored snapshots at most under the key of
    the chain its callback was created for. *)
Lemma advance_rates_items (fl : Flight) (h h1 : Hook) (next : option Flight) :
  advance fl h h1 next ->
  rates_items (storage h1) = rates_items (storage h)
  \/ exists r, chainId r = effectiveChainId (fl_closure fl)
       /\ rates_items (storage h1)
          = <[CACHE_KEYS_RATES (effectiveChainId (fl_closure fl)) := Parsed r]>
              (rates_items (storage h)).
Proof.
  intros Hadv. destruct Hadv as
    [att t h1 cur Hph Hgeo | att cur t h1 Hph Hprice | att cur t h1 e Hph Hprice Hretry
    | att cur t h1 e now Hph Hprice Hretry].
  - left. pose proof (fetchGeoData_rates_items (fl_closure fl) att h) as H.
    rewrite Hgeo in H. exact H.
  - pose proof (priceStage_rates_items (fl_closure fl) cur att h) as H.
    rewrite Hprice in H. exact H.
  - pose proof (priceStage_rates_items (fl_closure fl) cur att h) as H.
    rewrite Hprice in H. exact H.
  - cbn. rewrite afterFailure_storage.
    pose proof (priceStage_rates_items (fl_closure fl) cur att h) as H.
    rewrite Hprice in H. exact H.
Qed.

Lemma insert_keeps_consistent (chain : Z) (r : ExchangeRates)
    (items : gmap string (Item ExchangeRates)) :
  chainId r = chain ->
  (forall c r', items !! CACHE_KEYS_RATES c = Some (Parsed r') -> chainId r' = c) ->
  forall c r', <[CACHE_KEYS_RATES chain := Parsed r]> items !! CACHE_KEYS_RATES c
               = Some (Parsed r') -> chainId r' = c.
Proof.
  intros Hr Hitems c r'. rewrite lookup_insert. case_decide as Hk.
  - intros [= <-]. apply CACHE_KEYS_RATES_inj in Hk. congruence.
  - apply Hitems.
Qed.

Lemma advance_consistent (fl : Flight) (h h1 : Hook) (next : option Flight) :
  advance fl h h1 next -> storage_consistent h -> storage_consistent h1.
Proof.
  intros Hadv Hc. unfold storage_consistent in *.
  destruct (advance_rates_items _ _ _ _ Hadv) as [-> | (r & Hr & ->)]; [exact Hc|].
  apply insert_keeps_consistent; assumption.
Qed.

Lemma step_consistent (meta : Z -> option ChainMetadata) (s s' : System) :
  step meta s s' -> storage_consistent (hook s) -> storage_consistent (hook s').
Proof.
  intros Hstep Hc. destruct Hstep as [s p | s force now cl | s before fl after h1 next Hfl Hadv].
  - exact Hc.
  - destruct (hasRecentData _ _ _); [exact Hc|].
    destruct (isUnsupportedNetwork cl); exact Hc.
  - cbn. eapply advance_consistent; eassumption.
Qed.

(** C6. The persisted rate cache is scoped by chain.  However the calls of
    [fetchRates], their network answers and the wallet's changes of chain
    interleave, every rate snapshot in storage carries the chain id of the
    key it is stored under; and a step of a fetch that was started for chain A
    leaves the entry of every other chain B as it was. *)
Theorem persisted_rates_match_their_key (meta : Z -> option ChainMetadata) :
  (forall s s' : System,
      rtc (step meta) s s' ->
      storage_consistent (hook s) -> storage_consistent (hook s'))
  /\ (forall (fl : Flight) (h h1 : Hook) (next : option Flight) (B : Z),
        advance fl h h1 next ->
        B <> effectiveChainId (fl_closure fl) ->
        rates_items (storage h1) !! CACHE_KEYS_RATES B
        = rates_items (storage h) !! CACHE_KEYS_RATES B).
Proof.
  split.
  - intros s s' Hsteps. induction Hsteps as [s | s s1 s2 Hstep _ IH]; [auto|].
    intros Hc. apply IH. eapply step_consistent; eassumption.
  - intros fl h h1 next B Hadv HB.
    destruct (advance_rates_items _ _ _ _ Hadv) as [-> | (r & Hr & ->)]; [reflexivity|].
    apply lookup_insert_ne. intros Hk. apply CACHE_KEYS_RATES_inj in Hk. congruence.
Qed.

Lemma onlyBaseStored_consistent : storage_consistent onlyBaseStored.
Proof.
  unfold storage_consistent, onlyBaseStored. cbn [storage rates_items].
  apply insert_keeps_consistent; [reflexivity|].
  intros c r. rewrite lookup_empty. discriminate.
Qed.

Lemma persisted_rates_match_their_key_witness :
  exists s' : System,
    rtc (step noMetadata) beforeSwitch s'
    /\ p_chainId (props s') = Some 84532
    /\ flights s' = []
    /\ chainId (rates (hook s')) = 43113
    /\ storage_consistent (hook s')
    /\ rates_items (storage (hook s')) !! CACHE_KEYS_RATES 84532 = Some (Parsed baseRates).
Proof.
  pose (cl := render noMetadata (props beforeSwitch) (hook beforeSwitch)).
  pose (fl0 := {| fl_closure := cl; fl_retryCount := 0; fl_phase := AwaitingGeo |}).
  pose (fl1 := {| fl_closure := cl; fl_retryCount := 0; fl_phase := AwaitingPrice "USD" |}).
  pose (h1 := setError None (setLoading true onlyBaseStored)).
  pose (h2 := setLoading false (priceStage cl "USD" fujiQuote h1).1.2).
  pose (onBase := {| p_chainId := Some 84532; p_isConnected := true |}).
  pose (s1 := {| hook := h1; props := props beforeSwitch; flights := [fl0] |}).
  pose (s2 := {| hook := h1; props := onBase; flights := [fl0] |}).
  pose (s3 := {| hook := h1; props := onBase; flights := [fl1] |}).
  assert (Hgeo : advance fl0 h1 h1 (Some fl1)).
  { apply (advance_geo fl0 h1 fujiQuote [GeoRequest]); reflexivity. }
  assert (Hprice : advance fl1 h1 h2 None).
  { apply (advance_commit fl1 h1 fujiQuote "USD"
             [PriceRequest "tether,avalanche-2" "usd,usd"]
             (priceStage cl "USD" fujiQuote h1).1.2);
      [reflexivity | vm_compute; reflexivity]. }
  assert (Hrun : rtc (step noMetadata) beforeSwitch
                   {| hook := h2; props := onBase; flights := [] |}).
  { apply (rtc_l _ _ s1); [exact (step_start noMetadata beforeSwitch true 1700000000000)|].
    apply (rtc_l _ _ s2); [exact (step_props noMetadata s1 onBase)|].
    apply (rtc_l _ _ s3);
      [exact (step_flight noMetadata s2 [] fl0 [] h1 (Some fl1) eq_refl Hgeo)|].
    apply rtc_once.
    exact (step_flight noMetadata s3 [] fl1 [] h2 None eq_refl Hprice). }
  exists {| hook := h2; props := onBase; flights := [] |}.
  split; [exact Hrun|]. split; [reflexivity|]. split; [reflexivity|].
  split; [vm_compute; reflexivity|].
  split.
  - exact (proj1 (persisted_rates_match_their_key noMetadata) _ _ Hrun onlyBaseStored_consistent).
  - transitivity (rates_items (storage h1) !! CACHE_KEYS_RATES 84532); [|vm_compute; reflexivity].
    apply (proj2 (persisted_rates_match_their_key noMetadata) fl1 h1 h2 None 84532 Hprice).
    vm_compute. discriminate.
Defined.

(** ** [fetchRates]: retries and fallbacks *)

(** [fetchGeoData] never throws; it issues no price request and no pause, and
    leaves the rates, in the state and in storage, as they were. *)
Lemma fetchGeoData_quiet (cl : Closure) (att : Attempt) (h : Hook) :
  List.filter is_sleep (fetchGeoData cl att h).1.1 = []
  /\ List.filter is_price_request (fetchGeoData cl att h).1.1 = []
  /\ rates (fetchGeoData cl att h).1.2 = rates h
  /\ loading (fetchGeoData cl att h).1.2 = loading h
  /\ error (fetchGeoData cl att h).1.2 = error h.
Proof.
  unfold fetchGeoData.
  destruct (geo_item (storage h)) as [[|g]|]; cbn; try (repeat split; reflexivity);
    [destruct (_ <? _); cbn; try (repeat split; reflexivity)|];
    destruct (geo att) as [e|[|] cur ctry]; repeat split; reflexivity.
Qed.

Lemma attemptOnce_sleepless (cl : Closure) (att : Attempt) (h : Hook) :
  List.filter is_sleep (attemptOnce cl att h).1.1 = [].
Proof.
  unfold attemptOnce.
  pose proof (fetchGeoData_quiet cl att h) as (Hs & _).
  destruct (fetchGeoData cl att h) as [[t1 h1] cur]. cbn in Hs.
  unfold priceStage. destruct (newRatesOf cl cur att); cbn;
    rewrite List.filter_app, Hs; reflexivity.
Qed.

(** A failed attempt: one price request, no pause, and the rates are as before. *)
Lemma attemptOnce_failed (cl : Closure) (att : Attempt) (h : Hook) :
  attemptFails cl att ->
  exists t h1 e,
    attemptOnce cl att h = (t, h1, inl e)
    /\ List.filter is_sleep t = []
    /\ length (List.filter is_price_request t) = 1%nat
    /\ rates h1 = rates h
    /\ loading h1 = loading h
    /\ rates_items (storage h1) = rates_items (storage h).
Proof.
  intros Hfail. unfold attemptOnce.
  pose proof (fetchGeoData_quiet cl att h) as (Hs & Hp & Hr & Hl & _).
  pose proof (fetchGeoData_rates_items cl att h) as Hi.
  destruct (fetchGeoData cl att h) as [[t1 h1] cur]. cbn in Hs, Hp, Hr, Hl, Hi.
  unfold priceStage. destruct (Hfail cur) as [e He]. rewrite He.
  eexists _, h1, e. split; [reflexivity|].
  rewrite !List.filter_app, Hs, Hp. cbn. auto.
Qed.

(** [attemptFetch] on a script of at least three answers: at most three
    attempts, a pause of [RETRY_DELAY * retryCount] before each retry. *)
Lemma attemptFetch_unfolded (cl : Closure) (a1 a2 a3 : Attempt) (rest : list Attempt)
    (h : Hook) :
  attemptFetch cl (a1 :: a2 :: a3 :: rest) 0 h =
  Some match attemptOnce cl a1 h with
       | (t1, h1, inr u) => (t1, h1, inr tt)
       | (t1, h1, inl _) =>
           match attemptOnce cl a2 h1 with
           | (t2, h2, inr u) => (t1 ++ Sleep 1000 :: t2, h2, inr tt)
           | (t2, h2, inl _) =>
               match attemptOnce cl a3 h2 with
               | (t3, h3, r) => (t1 ++ Sleep 1000 :: t2 ++ Sleep 2000 :: t3, h3, r)
               end
           end
       end.
Proof.
  cbn [attemptFetch].
  destruct (attemptOnce cl a1 h) as [[t1 h1] [e1|[]]]; [|reflexivity].
  change (0 <? MAX_RETRIES) with true. cbn match.
  destruct (attemptOnce cl a2 h1) as [[t2 h2] [e2|[]]]; [|reflexivity].
  change (0 + 1 <? MAX_RETRIES) with true. cbn match.
  destruct (attemptOnce cl a3 h2) as [[t3 h3] [e3|[]]]; reflexivity.
Qed.

(** C8. [fetchRates] never throws: whatever the network answers, it returns
    normally.  It pauses at most twice, 1000 ms and then 2000 ms.  When every
    attempt fails there are exactly three price requests, the error message is
    recorded, [loading] is cleared, and the rates become the snapshot stored
    for this chain when it has a [lastUpdated] (however old), else the default
    record: the hard-coded ratios (0.025 native per USDT, 1 fiat per USDT, 40
    fiat per native), labelled with the token and the id of this chain and
    stamped with the time of the failure; so with nothing stored for the chain
    the rates are that default record. *)
Theorem fetchRates_degrades_without_throwing
    (cl : Closure) (forceRefresh : bool) (script : list Attempt) (start finish : Z)
    (h : Hook) :
  (3 <= length script)%nat ->
  exists t h',
    fetchRates cl forceRefresh script start finish h = Some (t, h', inr tt)
    /\ (exists k, List.filter is_sleep t = take k [Sleep 1000; Sleep 2000])
    /\ (hasRecentData cl forceRefresh start = false ->
        isUnsupportedNetwork cl = false ->
        Forall (attemptFails cl) (take 3 script) ->
        let fallbackRates :=
          {| USDT_NATIVE := 0x1.999999999999ap-6; (* the binary64 value of 0.025 *)
             USDT_FIAT := 1;
             NATIVE_FIAT := 40;
             nativeTokenSymbol := tk_symbol (nativeTokenInfo cl);
             nativeTokenName := tk_name (nativeTokenInfo cl);
             chainId := effectiveChainId cl;
             lastUpdated := finish |} in
        List.filter is_sleep t = [Sleep 1000; Sleep 2000]
        /\ length (List.filter is_price_request t) = 3%nat
        /\ is_Some (error h')
        /\ loading h' = false
        /\ rates h' =
           match rates_items (storage h) !! CACHE_KEYS_RATES (effectiveChainId cl) with
           | Some (Parsed parsed) =>
               if negb (lastUpdated parsed =? 0) then parsed else fallbackRates
           | _ => fallbackRates
           end
        /\ (rates_items (storage h) !! CACHE_KEYS_RATES (effectiveChainId cl) = None ->
            rates h' = fallbackRates)).
Proof.
  intros Hlen.
  destruct script as [|a1 [|a2 [|a3 rest]]]; cbn in Hlen; try lia. clear Hlen.
  unfold fetchRates.
  destruct (hasRecentData cl forceRefresh start) eqn:Hrecent.
  { eexists _, _. split; [reflexivity|]. split; [exists 0%nat; reflexivity|]. discriminate. }
  destruct (isUnsupportedNetwork cl) eqn:Hunsup.
  { eexists _, _. split; [reflexivity|]. split; [exists 0%nat; reflexivity|]. discriminate. }
  rewrite attemptFetch_unfolded.
  set (h0 := setError None (setLoading true h)).
  pose proof (attemptOnce_sleepless cl a1 h0) as S1.
  destruct (attemptOnce cl a1 h0) as [[t1 h1] [e1|[]]] eqn:E1; cbn in S1.
  2:{ eexists _, _. split; [reflexivity|]. split; [exists 0%nat; exact S1|].
      intros _ _ Hall. exfalso. apply Forall_cons in Hall as [Hf _].
      destruct (attemptOnce_failed cl a1 h0 Hf) as (? & ? & ? & E & _). congruence. }
  pose proof (attemptOnce_sleepless cl a2 h1) as S2.
  destruct (attemptOnce cl a2 h1) as [[t2 h2] [e2|[]]] eqn:E2; cbn in S2.
  2:{ eexists _, _. split; [reflexivity|].
      split; [exists 1%nat; rewrite List.filter_app, S1; cbn; rewrite S2; reflexivity|].
      intros _ _ Hall. exfalso. apply Forall_cons in Hall as [_ Hall].
      apply Forall_cons in Hall as [Hf _].
      destruct (attemptOnce_failed cl a2 h1 Hf) as (? & ? & ? & E & _). congruence. }
  pose proof (attemptOnce_sleepless cl a3 h2) as S3.
  destruct (attemptOnce cl a3 h2) as [[t3 h3] r3] eqn:E3; cbn in S3.
  assert (Hsleeps : List.filter is_sleep (t1 ++ Sleep 1000 :: t2 ++ Sleep 2000 :: t3)
                    = [Sleep 1000; Sleep 2000]).
  { rewrite List.filter_app, S1. cbn. rewrite List.filter_app, S2. cbn. rewrite S3.
    reflexivity. }
  destruct r3 as [e3|[]].
  2:{ eexists _, _. split; [reflexivity|]. split; [exists 2%nat; exact Hsleeps|].
      intros _ _ Hall. exfalso. apply Forall_cons in Hall as [_ Hall].
      apply Forall_cons in Hall as [_ Hall]. apply Forall_cons in Hall as [Hf _].
      destruct (attemptOnce_failed cl a3 h2 Hf) as (? & ? & ? & E & _). congruence. }
  eexists _, _. split; [reflexivity|]. split; [exists 2%nat; exact Hsleeps|].
  intros _ _ Hall. cbv zeta.
  set (fallbackRates := defaultRatesFor (nativeTokenInfo cl) (effectiveChainId cl) finish).
  apply Forall_cons in Hall as [F1 Hall]. apply Forall_cons in Hall as [F2 Hall].
  apply Forall_cons in Hall as [F3 _].
  destruct (attemptOnce_failed cl a1 h0 F1) as (? & ? & ? & E1' & _ & P1 & _ & _ & I1).
  destruct (attemptOnce_failed cl a2 h1 F2) as (? & ? & ? & E2' & _ & P2 & _ & _ & I2).
  destruct (attemptOnce_failed cl a3 h2 F3) as (? & ? & ? & E3' & _ & P3 & _ & _ & I3).
  rewrite E1 in E1'. rewrite E2 in E2'. rewrite E3 in E3'.
  injection E1' as <- <- <-. injection E2' as <- <- <-. injection E3' as <- <- <-.
  assert (Hitems : rates_items (storage h3) = rates_items (storage h)).
  { rewrite I3, I2, I1. reflexivity. }
  assert (Hrates : rates (setLoading false (afterFailure cl e3 finish h3)) =
            match rates_items (storage h) !! CACHE_KEYS_RATES (effectiveChainId cl) with
            | Some (Parsed parsed) =>
                if negb (lastUpdated parsed =? 0) then parsed else fallbackRates
            | _ => fallbackRates
            end).
  { unfold afterFailure. cbn [storage setError]. rewrite Hitems.
    destruct (rates_items (storage h) !! _) as [[|parsed]|]; try reflexivity.
    destruct (negb _); reflexivity. }
  split; [exact Hsleeps|].
  split.
  { rewrite List.filter_app, List.length_app. cbn [List.filter is_price_request].
    rewrite List.filter_app, List.length_app. cbn [List.filter is_price_request].
    rewrite P1, P2, P3. reflexivity. }
  split.
  { unfold afterFailure. cbn [storage setError].
    destruct (rates_items (storage h3) !! _) as [[|parsed]|]; try (eexists; reflexivity).
    destruct (negb _); eexists; reflexivity. }
  split; [reflexivity|].
  split; [exact Hrates|].
  intros Hnone. rewrite Hrates, Hnone. reflexivity.
Qed.

Lemma offline_fails : Forall (attemptFails fujiCallback) (take 3 offline).
Proof.
  repeat constructor; intros cur; eexists; reflexivity.
Qed.

Lemma fetchRates_degrades_without_throwing_witness :
  exists t h',
    fetchRates fujiCallback false offline 1700000000000 1700000004000 nothingStored
    = Some (t, h', inr tt)
    /\ List.filter is_sleep t = [Sleep 1000; Sleep 2000]
    /\ length (List.filter is_price_request t) = 3%nat
    /\ loading h' = false
    /\ rates h' = {| USDT_NATIVE := 0x1.999999999999ap-6; USDT_FIAT := 1;
                     NATIVE_FIAT := 40; nativeTokenSymbol := "AVAX";
                     nativeTokenName := "Avalanche"; chainId := 43113;
                     lastUpdated := 1700000004000 |}.
Proof.
  destruct (fetchRates_degrades_without_throwing fujiCallback false offline
              1700000000000 1700000004000 nothingStored ltac:(cbn; lia))
    as (t & h' & Hrun & _ & Hfail).
  destruct (Hfail eq_refl eq_refl offline_fails) as (Hs & Hp & _ & Hl & _ & Hdefault).
  exists t, h'. split; [exact Hrun|]. split; [exact Hs|]. split; [exact Hp|].
  split; [exact Hl|]. apply Hdefault. reflexivity.
Defined.

Example fetchRates_offline_error :
  (fun r => match r with
            | Some (_, h', _) => error h'
            | None => None
            end)
    (fetchRates fujiCallback false offline 1700000000000 1700000004000 nothingStored)
  = Some "Invalid API response structure".
Proof. vm_compute. reflexivity. Qed.

(** * Further properties of the code *)

(** ** Cross-chain configuration *)

Lemma supported_cases (c : Z) :
  existsb (Z.eqb c) SUPPORTED_CHAINS = true ->
  c = avalancheFuji \/ c = baseSepolia \/ c = sepolia \/ c = arbitrumSepolia.
Proof.
  unfold SUPPORTED_CHAINS. cbn [existsb]. rewrite !orb_true_iff, !Z.eqb_eq.
  unfold avalancheFuji, baseSepolia, sepolia, arbitrumSepolia. intuition discriminate.
Qed.

Lemma supported_In (c : Z) :
  existsb (Z.eqb c) SUPPORTED_CHAINS = true <-> In c SUPPORTED_CHAINS.
Proof.
  rewrite existsb_exists. split.
  - intros (x & Hin & Heq). apply Z.eqb_eq in Heq. subst. exact Hin.
  - intros Hin. exists c. split; [exact Hin | apply Z.eqb_refl].
Qed.

(** X1. [isCrossChainSupported] holds exactly when both chains are supported;
    it is symmetric, and it does not ask the two chains to differ: a supported
    chain is "cross-chain supported" with itself. *)
Theorem isCrossChainSupported_spec (a b : Z) :
  (isCrossChainSupported a b = true <-> In a SUPPORTED_CHAINS /\ In b SUPPORTED_CHAINS)
  /\ isCrossChainSupported a b = isCrossChainSupported b a
  /\ (In a SUPPORTED_CHAINS -> isCrossChainSupported a a = true).
Proof.
  unfold isCrossChainSupported. split; [|split].
  - rewrite andb_true_iff, !supported_In. reflexivity.
  - apply andb_comm.
  - intros H. apply supported_In in H. rewrite H. reflexivity.
Qed.

Lemma isCrossChainSupported_spec_witness :
  isCrossChainSupported avalancheFuji avalancheFuji = true
  /\ isCrossChainSupported 1 baseSepolia = isCrossChainSupported baseSepolia 1.
Proof.
  split.
  - apply (proj2 (proj2 (isCrossChainSupported_spec avalancheFuji avalancheFuji))).
    cbn. tauto.
  - exact (proj1 (proj2 (isCrossChainSupported_spec 1 baseSepolia))).
Defined.

(** Which chain an id is. *)
Lemma chain_classify (c : Z) :
  c = avalancheFuji \/ c = baseSepolia \/ c = sepolia \/ c = arbitrumSepolia
  \/ ((c =? baseSepolia) = false /\ (c =? sepolia) = false
      /\ (c =? arbitrumSepolia) = false /\ (c =? avalancheFuji) = false
      /\ ~ In c SUPPORTED_CHAINS).
Proof.
  destruct (Z.eqb_spec c avalancheFuji); [tauto|].
  destruct (Z.eqb_spec c baseSepolia); [tauto|].
  destruct (Z.eqb_spec c sepolia); [tauto|].
  destruct (Z.eqb_spec c arbitrumSepolia); [tauto|].
  do 4 right. repeat split; try reflexivity.
  unfold SUPPORTED_CHAINS, avalancheFuji, baseSepolia, sepolia, arbitrumSepolia in *.
  cbn. intuition congruence.
Qed.

Ltac chain_cases c :=
  let H := fresh "H" in
  destruct (chain_classify c) as [H|[H|[H|[H|(?E1 & ?E2 & ?E3 & ?E4 & ?Hout)]]]];
  [subst c | subst c | subst c | subst c | ].

Lemma BigInt_fee (a b : Z) : BigInt (getCrossChainFee a b) = inr (feeInWei a b).
Proof.
  unfold feeInWei, getCrossChainFee, CROSS_CHAIN_FEES.
  chain_cases a; chain_cases b;
    cbn -[BigInt];
    repeat match goal with H : (_ =? _) = false |- _ => rewrite !H end;
    reflexivity.
Qed.

(** X2. The cross-chain fee is the same in both directions.  It always reads
    as a positive number of wei, at most the default 10^15; and it is the
    default exactly for the pairs the table does not list: an unsupported
    chain on either side, or twice the same chain. *)
Theorem getCrossChainFee_symmetric_and_bounded (a b : Z) :
  getCrossChainFee a b = getCrossChainFee b a
  /\ BigInt (getCrossChainFee a b) = inr (feeInWei a b)
  /\ 0 < feeInWei a b <= 10 ^ 15
  /\ (feeInWei a b = 10 ^ 15 <->
      ~ (In a SUPPORTED_CHAINS /\ In b SUPPORTED_CHAINS /\ a <> b)).
Proof.
  unfold feeInWei, getCrossChainFee, CROSS_CHAIN_FEES.
  chain_cases a; chain_cases b;
    cbn -[BigInt SUPPORTED_CHAINS Z.pow];
    repeat match goal with H : (_ =? _) = false |- _ => rewrite !H end;
    cbn -[BigInt SUPPORTED_CHAINS Z.pow].
  all: split; [reflexivity|]; split; [reflexivity|].
  all: split; [vm_compute; split; [reflexivity | discriminate]|].
  all: split;
    [ intros Hfee; try (vm_compute in Hfee; discriminate); intuition congruence
    | intros Hnot; try reflexivity; exfalso; apply Hnot;
      vm_compute; intuition discriminate ].
Qed.

Lemma isCrossChainSupported_spec_aux (a b : Z) :
  In a SUPPORTED_CHAINS -> In b SUPPORTED_CHAINS -> isCrossChainSupported a b = true.
Proof.
  intros Ha Hb. unfold isCrossChainSupported.
  apply supported_In in Ha, Hb. rewrite Ha, Hb. reflexivity.
Qed.



(** X4. Routing selectors identify chains: a chain has a selector exactly
    when it is supported, and two chains never share one. *)
Theorem chain_selectors_are_distinct (a b : Z) (s : string) :
  (is_Some (getChainSelector a) <-> In a SUPPORTED_CHAINS)
  /\ (getChainSelector a = Some s -> getChainSelector b = Some s -> a = b).
Proof.
  unfold getChainSelector, CCIP_CHAIN_SELECTORS. split.
  - chain_cases a; cbn -[SUPPORTED_CHAINS];
      repeat match goal with H : (_ =? _) = false |- _ => rewrite !H end;
      (split; [intros Hs | intros Hi]);
      try (eexists; reflexivity); try (cbn; tauto);
      try contradiction.
    destruct Hs as [? Hs]. discriminate.
  - chain_cases a; chain_cases b; cbn;
      repeat match goal with H : (_ =? _) = false |- _ => rewrite !H end;
      intros Ha Hb; try reflexivity; try discriminate; congruence.
Qed.

Lemma chain_selectors_are_distinct_witness :
  is_Some (getChainSelector baseSepolia) /\ getChainSelector 1 = None.
Proof.
  split.
  - apply (proj1 (chain_selectors_are_distinct baseSepolia baseSepolia "")). cbn. tauto.
  - destruct (getChainSelector 1) eqn:E; [|reflexivity].
    exfalso.
    assert (H : In 1 SUPPORTED_CHAINS)
      by (apply (proj1 (chain_selectors_are_distinct 1 1 "")); rewrite E; eexists; reflexivity).
    cbn in H. intuition discriminate.
Defined.

(** ** useCurrencyConverter: which chains are fetched *)

Lemma render_supported (meta : Z -> option ChainMetadata) (props : Props) (h : Hook) :
  isUnsupportedNetwork (render meta props h) = false ->
  In (effectiveChainId (render meta props h)) SUPPORTED_CHAINS
  /\ (nativeTokenInfo (render meta props h) = AVAX
      \/ nativeTokenInfo (render meta props h) = ETH).
Proof.
  unfold render. cbn [isUnsupportedNetwork effectiveChainId nativeTokenInfo].
  unfold getEffectiveChainId.
  destruct (p_isConnected props); cbn [negb andb];
    [|split; [cbn; tauto | left; reflexivity]].
  destruct (truthy_num (p_chainId props)) eqn:Ht; cbn [negb andb];
    [|split; [cbn; tauto | left; reflexivity]].
  destruct (isSupportedChain (p_chainId props)) eqn:Hs; [|discriminate].
  intros _. destruct (p_chainId props) as [c|]; [|discriminate]. cbn [default].
  unfold isSupportedChain in Hs. apply andb_true_iff in Hs as [_ Hs].
  split; [apply supported_In; exact Hs|].
  apply supported_cases in Hs. unfold nativeTokenInfoFor.
  destruct Hs as [-> | [-> | [-> | ->]]]; cbn; tauto.
Qed.

(** X5. [fetchRates] goes to the network only for a supported chain, and then
    for the price of AVAX or ETH.  On an unsupported chain (and without recent
    data) it asks nothing and installs the default record labelled with that
    chain, leaving storage, [loading] and [error] alone. *)
Theorem fetchRates_asks_only_for_supported_chains
    (meta : Z -> option ChainMetadata) (props : Props) (seen h : Hook)
    (forceRefresh : bool) (script : list Attempt) (start finish : Z) :
  let cl := render meta props seen in
  (forall t h' r,
      fetchRates cl forceRefresh script start finish h = Some (t, h', r) ->
      t <> [] ->
      In (effectiveChainId cl) SUPPORTED_CHAINS
      /\ In (coingeckoId (nativeTokenInfo cl)) ["avalanche-2"; "ethereum"])
  /\ (isUnsupportedNetwork cl = true ->
      hasRecentData cl forceRefresh start = false ->
      fetchRates cl forceRefresh script start finish h
      = Some ([], setRates (defaultRatesFor (nativeTokenInfo cl) (effectiveChainId cl) start) h,
              inr tt)).
Proof.
  intros cl. split.
  - intros t h' r. unfold fetchRates.
    destruct (hasRecentData cl forceRefresh start); [intros [= <- _ _]; contradiction|].
    destruct (isUnsupportedNetwork cl) eqn:Hu; [intros [= <- _ _]; contradiction|].
    intros _ _. destruct (render_supported meta props seen Hu) as [Hin Htok].
    split; [exact Hin|]. fold cl in Htok. destruct Htok as [-> | ->]; cbn; tauto.
  - intros Hu Hrecent. unfold fetchRates. rewrite Hrecent, Hu. reflexivity.
Qed.

Lemma fetchRates_asks_only_for_supported_chains_witness :
  fetchRates (render noMetadata onMainnet nothingStored) true offline 5 9 nothingStored
  = Some ([], setRates (defaultRatesFor ETH 1 5) nothingStored, inr tt).
Proof.
  exact (proj2 (fetchRates_asks_only_for_supported_chains noMetadata onMainnet
                  nothingStored nothingStored true offline 5 9) eq_refl eq_refl).
Defined.

(** X6. The effect and the guard of [fetchRates] agree: when the effect
    decides to call [fetchRates], the call is not skipped as "recent".  On an
    unsupported chain the effect never fetches: it installs the default record
    labelled with the chain, once, and does nothing when the label already
    matches. *)
Theorem onChainChange_agrees_with_fetchRates (cl : Closure) (now : Z) :
  (onChainChange cl now = CallFetchRates ->
     hasRecentData cl false now = false /\ isUnsupportedNetwork cl = false)
  /\ (isUnsupportedNetwork cl = true ->
      onChainChange cl now
      = if seen_chainId cl =? effectiveChainId cl then NoAction
        else SetFallbackRates
               (defaultRatesFor (nativeTokenInfo cl) (effectiveChainId cl) now)).
Proof.
  unfold onChainChange, needsFresh, hasRecentData. split.
  - destruct (isUnsupportedNetwork cl); cbn [negb andb].
    + rewrite andb_false_r. destruct (negb _); discriminate.
    + rewrite andb_true_r. intros H. split; [|reflexivity].
      destruct (seen_lastUpdated cl =? 0); cbn [negb orb andb];
        [rewrite andb_false_r; reflexivity|].
      destruct (seen_chainId cl =? effectiveChainId cl); cbn [negb orb andb];
        [|reflexivity].
      cbn [negb orb] in H.
      destruct (Z.ltb_spec RATE_CACHE_DURATION (now - seen_lastUpdated cl));
        [|discriminate].
      apply Z.ltb_ge. lia.
  - intros ->. cbn [negb andb]. rewrite andb_false_r.
    destruct (seen_chainId cl =? effectiveChainId cl); reflexivity.
Qed.

Lemma onChainChange_agrees_with_fetchRates_witness :
  onChainChange (render noMetadata onMainnet nothingStored) 5
  = SetFallbackRates (defaultRatesFor ETH 1 5)
  /\ hasRecentData fujiCallback false 5 = false.
Proof.
  split.
  - exact (proj2 (onChainChange_agrees_with_fetchRates
                    (render noMetadata onMainnet nothingStored) 5) eq_refl).
  - exact (proj1 (proj1 (onChainChange_agrees_with_fetchRates fujiCallback 5) eq_refl)).
Defined.

(** ** useCurrencyConverter: the first render *)

(** X7. The rates a session starts with are for the chain in effect, as long
    as the stored snapshots match their keys; they are either a stored
    snapshot younger than thirty minutes or the default record with
    [lastUpdated = 0], which is what an absent or unreadable snapshot gives. *)
Theorem initialRates_belong_to_the_chain
    (meta : Z -> option ChainMetadata) (props : Props) (h : Hook) (now : Z) :
  let effective := getEffectiveChainId (p_chainId props) (p_isConnected props) in
  let first := initialRates meta props (storage h) now in
  (storage_consistent h -> chainId first = effective)
  /\ (first = defaultRatesFor (nativeTokenInfoFor meta effective) effective 0
      \/ (rates_items (storage h) !! CACHE_KEYS_RATES effective = Some (Parsed first)
          /\ now - lastUpdated first < STALE_CACHE_DURATION))
  /\ (match rates_items (storage h) !! CACHE_KEYS_RATES effective with
      | Some (Parsed _) => True
      | _ => first = defaultRatesFor (nativeTokenInfoFor meta effective) effective 0
      end).
Proof.
  intros effective first. subst first. unfold initialRates. fold effective.
  destruct (rates_items (storage h) !! CACHE_KEYS_RATES effective) as [[|parsed]|] eqn:E.
  - split; [reflexivity|]. split; [left; reflexivity | reflexivity].
  - destruct (Z.ltb_spec (now - lastUpdated parsed) STALE_CACHE_DURATION).
    + split; [intros Hc; apply (Hc effective parsed E)|].
      split; [right; split; [reflexivity | assumption] | exact I].
    + split; [reflexivity|]. split; [left; reflexivity | exact I].
  - split; [reflexivity|]. split; [left; reflexivity | reflexivity].
Qed.

Lemma initialRates_belong_to_the_chain_witness :
  chainId (initialRates noMetadata {| p_chainId := Some 84532; p_isConnected := true |}
             (storage onlyBaseStored) 1699999500000) = 84532
  /\ initialRates noMetadata {| p_chainId := Some 84532; p_isConnected := true |}
       (storage onlyBaseStored) 1699999500000 = baseRates.
Proof.
  split.
  - exact (proj1 (initialRates_belong_to_the_chain noMetadata
                    {| p_chainId := Some 84532; p_isConnected := true |}
                    onlyBaseStored 1699999500000) onlyBaseStored_consistent).
  - vm_compute. reflexivity.
Defined.

(** ** useCurrencyConverter: the geo lookup *)

(** X8. A geo answer is remembered for a day.  Once [fetchGeoData] has asked
    the network and got an OK answer, any later call less than 24 hours after
    it returns the same currency without a request and without touching the
    state, whatever the network would answer and whichever callback asks. *)
Theorem fetchGeoData_remembers_for_a_day
    (cl cl' : Closure) (first later : Attempt) (h h1 : Hook) (cur : string)
    (answered country : option string) :
  geo first = GeoAnswer true answered country ->
  fetchGeoData cl first h = ([GeoRequest], h1, cur) ->
  clock later - clock first < GEO_CACHE_DURATION ->
  cur = str_or answered "USD"
  /\ userCountry h1 = cur
  /\ fetchGeoData cl' later h1 = ([], h1, cur).
Proof.
  intros Hgeo Hrun Hage. unfold fetchGeoData in Hrun. rewrite Hgeo in Hrun.
  assert (Hh1 : h1 = setUserCountry (str_or answered "USD")
                       (storeGeo {| currency := str_or answered "USD";
                                    country := str_or country "US";
                                    geo_lastUpdated := clock first |} h)
                /\ cur = str_or answered "USD").
  { destruct (geo_item (storage h)) as [[|g]|]; [discriminate| |];
      [destruct (_ <? _); [discriminate|]|]; injection Hrun as <- <-; auto. }
  destruct Hh1 as [-> ->]. split; [reflexivity|]. split; [reflexivity|].
  unfold fetchGeoData. cbn [storage setUserCountry storeGeo geo_item geo_lastUpdated currency].
  destruct (Z.ltb_spec (clock later - clock first) GEO_CACHE_DURATION); [reflexivity | lia].
Qed.

Lemma fetchGeoData_remembers_for_a_day_witness :
  let h1 := (fetchGeoData fujiCallback euroAnswer nothingStored).1.2 in
  fetchGeoData fujiCallback anHourLater h1 = ([], h1, "EUR").
Proof.
  intros h1.
  apply (fetchGeoData_remembers_for_a_day fujiCallback fujiCallback euroAnswer anHourLater
           nothingStored h1 "EUR" (Some "EUR") (Some "DE") eq_refl eq_refl).
  reflexivity.
Defined.

(** X9. [fetchGeoData] never asks more than once, and it changes the state
    only when it stores an OK answer.  In every other case (the stored
    snapshot cannot be read, the request fails, the status is not OK) it
    returns the currency its callback saw; an unreadable snapshot is
    moreover never replaced, as no request is made at all. *)
Theorem fetchGeoData_falls_back (cl : Closure) (att : Attempt) (h : Hook) :
  let run := fetchGeoData cl att h in
  (run.1.1 = [] \/ run.1.1 = [GeoRequest])
  /\ (run.1.2 = h \/ exists cur ctry, geo att = GeoAnswer true cur ctry
                       /\ run.1.1 = [GeoRequest])
  /\ (geo_item (storage h) = Some Unparsable -> run = ([], h, seen_userCountry cl))
  /\ (run.1.1 = [GeoRequest] ->
      (forall cur ctry, geo att <> GeoAnswer true cur ctry) ->
      run = ([GeoRequest], h, seen_userCountry cl)).
Proof.
  cbv zeta. unfold fetchGeoData.
  destruct (geo_item (storage h)) as [[|g]|]; cbn.
  - repeat split; auto. discriminate.
  - destruct (_ <? _); cbn.
    + repeat split; auto; discriminate.
    + destruct (geo att) as [e|[|] cur ctry]; cbn;
        (split; [auto|]); (split; [eauto|]); (split; [discriminate|]);
        intros _ Hno; try reflexivity. exfalso. eapply Hno. reflexivity.
  - destruct (geo att) as [e|[|] cur ctry]; cbn;
      (split; [auto|]); (split; [eauto|]); (split; [discriminate|]);
      intros _ Hno; try reflexivity. exfalso. eapply Hno. reflexivity.
Qed.

Lemma fetchGeoData_falls_back_witness :
  fetchGeoData fujiCallback euroAnswer geoUnreadable = ([], geoUnreadable, "USD")
  /\ fetchGeoData fujiCallback anHourLater nothingStored = ([GeoRequest], nothingStored, "USD").
Proof.
  split.
  - exact (proj1 (proj2 (proj2 (fetchGeoData_falls_back fujiCallback euroAnswer geoUnreadable)))
             eq_refl).
  - apply (proj2 (proj2 (proj2 (fetchGeoData_falls_back fujiCallback anHourLater nothingStored)))).
    + reflexivity.
    + intros cur ctry. discriminate.
Defined.

(** ** useCurrencyConverter: a successful fetch *)





(** ** [getTrade] *)


(** ** [buyTrade]: every way it can end *)

Lemma buyTradeError_known (msg : string) : In (buyTradeError msg) buyTradeMessages.
Proof.
  unfold buyTradeError, buyTradeMessages.
  repeat match goal with
         | |- context [if ?b then _ else _] => destruct b
         end; cbn; tauto.
Qed.

(** The guards of [buyTrade], one by one. *)
Lemma buyTrade_guards_in_order_aux
    (USDT ESCROW : Z -> option string) (ext : Outside) (rd : Render)
    (params : BuyTradeParams) :
  (walletConnected rd = false ->
     buyTrade USDT ESCROW ext rd params = ([], inl (Error "Wallet not connected")))
  /\ (walletConnected rd = true -> isCorrectNetwork rd = false ->
     buyTrade USDT ESCROW ext rd params
     = ([], inl (Error "Please switch to the correct network first")))
  /\ (walletConnected rd = true -> isCorrectNetwork rd = true ->
      as_truthy (escrowContractAddress ESCROW rd) = None ->
     buyTrade USDT ESCROW ext rd params
     = ([], inl (Error "Escrow contract not available on this network")))
  /\ (walletConnected rd = true -> isCorrectNetwork rd = true ->
      is_Some (as_truthy (escrowContractAddress ESCROW rd)) ->
      as_truthy (usdtContractAddress USDT rd) = None ->
     buyTrade USDT ESCROW ext rd params
     = ([], inl (Error "USDT contract not available on this network"))).
Proof.
  unfold buyTrade, walletConnected.
  destruct (truthy_str (address rd)), (truthy_num (chain_id rd)); cbn [andb negb orb];
    repeat split; intros; try discriminate; try reflexivity.
  all: repeat match goal with
       | H : isCorrectNetwork _ = _ |- _ => rewrite H; cbn [negb]
       | H : as_truthy _ = _ |- _ => rewrite H
       | H : is_Some _ |- _ => destruct H as [? H]
       end; reflexivity.
Qed.

(** Either [buyTrade] stops before simulating, having asked the chain for
    the trade at most, or the request is [Validated]. *)
Lemma buyTrade_cases
    (USDT ESCROW : Z -> option string) (ext : Outside) (rd : Render)
    (params : BuyTradeParams) :
  (exists t msg,
      buyTrade USDT ESCROW ext rd params = (t, inl (Error msg))
      /\ In msg buyTradeMessages
      /\ (t = [] \/ exists c, t = [ReadContract c]))
  \/ (exists escrow usdt lp tid qty details,
        Validated USDT ESCROW ext rd params escrow usdt lp tid qty details).
Proof.
  destruct (walletConnected rd) eqn:Hc.
  2:{ left. eexists _, _. split;
        [apply (proj1 (buyTrade_guards_in_order_aux USDT ESCROW ext rd params)); exact Hc|].
      split; [cbn; tauto | auto]. }
  destruct (isCorrectNetwork rd) eqn:Hn.
  2:{ left. eexists _, _. split;
        [apply (proj1 (proj2 (buyTrade_guards_in_order_aux USDT ESCROW ext rd params)));
         assumption|].
      split; [cbn; tauto | auto]. }
  destruct (as_truthy (escrowContractAddress ESCROW rd)) as [escrow|] eqn:He.
  2:{ left. eexists _, _. split;
        [apply (proj1 (proj2 (proj2 (buyTrade_guards_in_order_aux USDT ESCROW ext rd params))));
         assumption|].
      split; [cbn; tauto | auto]. }
  destruct (as_truthy (usdtContractAddress USDT rd)) as [usdt|] eqn:Hu.
  2:{ left. eexists _, _. split;
        [apply (proj2 (proj2 (proj2 (buyTrade_guards_in_order_aux USDT ESCROW ext rd params))));
         try assumption; eexists; eassumption|].
      split; [cbn; tauto | auto]. }
  destruct (BigInt (tradeId params)) as [e1|tid] eqn:Ht.
  { left. unfold buyTrade. unfold walletConnected in Hc. apply andb_true_iff in Hc as [Ha Hi].
    rewrite Ha, Hi, Hn, He, Hu, Ht. cbn [negb orb]. run_M.
    eexists _, _. split; [reflexivity|]. split; [apply buyTradeError_known | auto]. }
  destruct (BigInt (quantity params)) as [e2|qty] eqn:Hq.
  { left. unfold buyTrade. unfold walletConnected in Hc. apply andb_true_iff in Hc as [Ha Hi].
    rewrite Ha, Hi, Hn, He, Hu, Ht, Hq. cbn [negb orb]. run_M.
    eexists _, _. split; [reflexivity|]. split; [apply buyTradeError_known | auto]. }
  destruct (logisticsProvider params) as [lp|] eqn:Hp.
  2:{ left. eexists _, _. split.
      - apply (buyTrade_malformed_provider USDT ESCROW ext rd params tid qty); eauto.
        rewrite Hp. exact I.
      - split; [cbn; tauto | auto]. }
  destruct (startsWith "0x" lp) eqn:Hpre.
  2:{ left. eexists _, _. split.
      - apply (buyTrade_malformed_provider USDT ESCROW ext rd params tid qty); eauto.
        rewrite Hp. left. exact Hpre.
      - split; [cbn; tauto | auto]. }
  destruct (Nat.eqb_spec (String.length lp) 42) as [Hlen|Hlen].
  2:{ left. eexists _, _. split.
      - apply (buyTrade_malformed_provider USDT ESCROW ext rd params tid qty); eauto.
        rewrite Hp. right. exact Hlen.
      - split; [cbn; tauto | auto]. }
  destruct (readContract ext (tradesCall escrow tid)) as [e3|details] eqn:Hr.
  { left. unfold buyTrade, getTrade.
    unfold walletConnected in Hc. apply andb_true_iff in Hc as [Ha Hi].
    rewrite Ha, Hi, Hn, He, Hu, Ht, Hq, Hp, Hpre, Hlen. cbn [negb orb Nat.eqb]. run_M. cbn.
    rewrite Hr. cbn.
    destruct (includes "TradeNotFound" (message e3)); cbn;
      (eexists _, _; split; [reflexivity|]; split; [cbn; tauto | eauto]). }
  right. exists escrow, usdt, lp, tid, qty, details. split; assumption.
Qed.

(** X13. Whatever fails inside [buyTrade], the caller sees one of sixteen
    fixed messages: the provider's own error text never leaves the call. *)
Theorem buyTrade_errors_are_from_a_fixed_list
    (USDT ESCROW : Z -> option string) (ext : Outside) (rd : Render)
    (params : BuyTradeParams) (e : JsError) :
  outcome (buyTrade USDT ESCROW ext rd params) = inl e ->
  exists msg, e = Error msg /\ In msg buyTradeMessages.
Proof.
  destruct (buyTrade_cases USDT ESCROW ext rd params)
    as [(t & msg & Hrun & Hin & _) | (escrow & usdt & lp & tid & qty & details & valid)].
  - rewrite Hrun. cbn. intros [= <-]. eauto.
  - rewrite (buyTrade_run valid). unfold outcome.
    destruct (writeContractAsync ext _) as [e'|h]; cbn [snd];
      [intros [= <-]; eexists; split; [reflexivity | apply buyTradeError_known]|].
    destruct (String.eqb h ""); cbn [snd];
      [intros [= <-]; eexists; split; [reflexivity | apply buyTradeError_known]|].
    destruct (waitForTransactionReceipt ext h 60000); cbn [snd]; [|discriminate].
    intros [= <-]; eexists; split; [reflexivity | apply buyTradeError_known].
Qed.

Lemma buyTrade_errors_are_from_a_fixed_list_witness :
  outcome (buyTrade sampleUsdtTable sampleEscrowTable refusingChain onTargetChain
             threeOfTradeSeven) = inl (Error "Transaction was rejected by user")
  /\ exists msg, Error "Transaction was rejected by user" = Error msg
                 /\ In msg buyTradeMessages.
Proof.
  split; [vm_compute; reflexivity|].
  apply (buyTrade_errors_are_from_a_fixed_list sampleUsdtTable sampleEscrowTable refusingChain
           onTargetChain threeOfTradeSeven).
  vm_compute. reflexivity.
Defined.

(** X14. A [buyTrade] that returns has done exactly this: read the trade,
    simulated, written once, waited (60 s) for the receipt of the hash it
    returns, and armed the balance refresh for two seconds later.  The
    transaction it returns is pending, for token "USDT", from the wallet to
    the escrow, with a non-empty hash. *)
Theorem buyTrade_success_shape
    (USDT ESCROW : Z -> option string) (ext : Outside) (rd : Render)
    (params : BuyTradeParams) (tx : PaymentTransaction) :
  outcome (buyTrade USDT ESCROW ext rd params) = inr tx ->
  exists read simulation submission receipt,
    trace (buyTrade USDT ESCROW ext rd params)
    = [ReadContract read; SimulateContract simulation; WriteContract submission;
       WaitForTransactionReceipt (hash tx) 60000; SetTimeout CbRefreshBalances 2000]
    /\ writeContractAsync ext submission = inr (hash tx)
    /\ waitForTransactionReceipt ext (hash tx) 60000 = inr receipt
    /\ c_args simulation = c_args submission
    /\ hash tx <> ""
    /\ status tx = pending /\ token tx = "USDT"
    /\ Some (from tx) = address rd
    /\ Some (to tx) = escrowContractAddress ESCROW rd
    /\ tx_purchaseId tx = findPurchaseId ext receipt.
Proof.
  destruct (buyTrade_cases USDT ESCROW ext rd params)
    as [(t & msg & Hrun & _) | (escrow & usdt & lp & tid & qty & details & valid)].
  - rewrite Hrun. discriminate.
  - rewrite (buyTrade_run valid).
    destruct (writeContractAsync ext _) as [e'|h] eqn:Hw; [discriminate|].
    destruct (String.eqb_spec h ""); [discriminate|].
    destruct (waitForTransactionReceipt ext h 60000) as [e''|receipt] eqn:Hr; [discriminate|].
    cbn. intros [= <-]. cbn.
    eexists _, _, _, receipt. split; [reflexivity|].
    split; [exact Hw|]. split; [exact Hr|]. split; [reflexivity|].
    split; [assumption|]. split; [reflexivity|]. split; [reflexivity|].
    destruct valid as [Hc _ He _ _ _ _ _ _ _].
    unfold walletConnected in Hc. apply andb_true_iff in Hc as [Ha _].
    split.
    + destruct (address rd); [reflexivity | discriminate].
    + apply as_truthy_Some in He as [-> _]. split; reflexivity.
Qed.

Lemma buyTrade_success_shape_witness :
  exists tx,
    outcome (buyTrade sampleUsdtTable sampleEscrowTable calmChain onTargetChain
               threeOfTradeSeven) = inr tx
    /\ status tx = pending /\ hash tx = "0xfeed" /\ from tx = sampleBuyer.
Proof.
  eexists. split; [vm_compute; reflexivity|].
  destruct (buyTrade_success_shape sampleUsdtTable sampleEscrowTable calmChain onTargetChain
              threeOfTradeSeven _ ltac:(vm_compute; reflexivity))
    as (? & ? & ? & ? & _ & _ & _ & _ & _ & Hs & _).
  split; [exact Hs|]. split; reflexivity.
Defined.

(** X15. [buyTrade] never writes twice, and never waits for a receipt
    without having written.  It arms the balance refresh exactly when it
    returns a transaction: a failed purchase schedules nothing. *)
Theorem buyTrade_writes_at_most_once
    (USDT ESCROW : Z -> option string) (ext : Outside) (rd : Render)
    (params : BuyTradeParams) :
  let run := buyTrade USDT ESCROW ext rd params in
  (length (List.filter is_write (trace run)) <= 1)%nat
  /\ (length (List.filter is_receipt_wait (trace run))
      <= length (List.filter is_write (trace run)))%nat
  /\ existsb is_timer (trace run) = is_inr (outcome run).
Proof.
  cbv zeta.
  destruct (buyTrade_cases USDT ESCROW ext rd params)
    as [(t & msg & Hrun & _ & Ht) | (escrow & usdt & lp & tid & qty & details & valid)].
  - rewrite Hrun. destruct Ht as [-> | [c ->]]; cbn; auto.
  - rewrite (buyTrade_run valid).
    destruct (writeContractAsync ext _) as [e'|h]; [cbn; auto|].
    destruct (String.eqb h ""); [cbn; auto|].
    destruct (waitForTransactionReceipt ext h 60000); cbn; auto.
Qed.

(** X16. When the trade cannot be read, whatever the reason (also when the
    contract says the trade does not exist), [buyTrade] stops after that one
    read and reports the generic failure. *)
Theorem buyTrade_unreadable_trade_is_generic_failure
    (USDT ESCROW : Z -> option string) (ext : Outside) (rd : Render)
    (params : BuyTradeParams) (escrow usdt lp : string) (tid qty : Z) (e : JsError) :
  walletConnected rd = true ->
  isCorrectNetwork rd = true ->
  as_truthy (escrowContractAddress ESCROW rd) = Some escrow ->
  as_truthy (usdtContractAddress USDT rd) = Some usdt ->
  BigInt (tradeId params) = inr tid ->
  BigInt (quantity params) = inr qty ->
  logisticsProvider params = Some lp ->
  startsWith "0x" lp = true ->
  String.length lp = 42%nat ->
  readContract ext (tradesCall escrow tid) = inl e ->
  buyTrade USDT ESCROW ext rd params
  = ([ReadContract (tradesCall escrow tid)],
     inl (Error "Transaction failed. Please try again.")).
Proof.
  intros Hc Hn He Hu Ht Hq Hp Hpre Hlen Hr.
  unfold buyTrade, getTrade.
  unfold walletConnected in Hc. apply andb_true_iff in Hc as [Ha Hi].
  rewrite Ha, Hi, Hn, He, Hu, Ht, Hq, Hp, Hpre, Hlen. cbn [negb orb Nat.eqb]. run_M. cbn.
  rewrite Hr. cbn.
  destruct (includes "TradeNotFound" (message e)); reflexivity.
Qed.

Lemma buyTrade_unreadable_trade_is_generic_failure_witness :
  buyTrade sampleUsdtTable sampleEscrowTable emptyChain onTargetChain threeOfTradeSeven
  = ([ReadContract (tradesCall sampleEscrow 7)],
     inl (Error "Transaction failed. Please try again."))
  /\ outcome (getTrade sampleEscrowTable emptyChain onTargetChain "7")
     = inl (Error "Trade not found").
Proof.
  split; [|reflexivity].
  apply (buyTrade_unreadable_trade_is_generic_failure sampleUsdtTable sampleEscrowTable
           emptyChain onTargetChain threeOfTradeSeven sampleEscrow sampleUsdt sampleLogistics
           7 3 (Error "execution reverted: TradeNotFound(7)")); reflexivity.
Defined.

(** ** [buyTrade]: reading the receipt *)

Lemma decodeLogs_app (ext : Outside) (a b : list Log) :
  decodeLogs ext (a ++ b) = decodeLogs ext a ++ decodeLogs ext b.
Proof. unfold decodeLogs. apply omap_app. Qed.

Lemma find_skips (ext : Outside) (before : list Log) (rest : list DecodedEvent) :
  Forall (notPurchaseCreated ext) before ->
  List.find (fun ev => String.eqb (eventName ev) "PurchaseCreated")
            (decodeLogs ext before ++ rest)
  = List.find (fun ev => String.eqb (eventName ev) "PurchaseCreated") rest.
Proof.
  induction 1 as [|log before Hlog _ IH]; [reflexivity|].
  unfold decodeLogs in *. cbn. unfold notPurchaseCreated in Hlog.
  destruct (decodeEventLog ext log) as [e|ev]; cbn; [exact IH|].
  rewrite Hlog. exact IH.
Qed.

(** X17. The purchase id is taken from the first log that decodes to a
    "PurchaseCreated" event; logs that fail to decode, and other events, are
    passed over wherever they stand.  Only that first event counts, and
    without one (or without logs) there is no purchase id. *)
Theorem findPurchaseId_reads_first_PurchaseCreated
    (ext : Outside) (before after : list Log) (log : Log) (ev : DecodedEvent) :
  Forall (notPurchaseCreated ext) before ->
  (decodeEventLog ext log = inr ev ->
   eventName ev = "PurchaseCreated" ->
   findPurchaseId ext {| logs := Some (before ++ log :: after) |}
   = match args ev with
     | Some a => pretty <$> purchaseId a
     | None => None
     end)
  /\ findPurchaseId ext {| logs := Some before |} = None
  /\ findPurchaseId ext {| logs := None |} = None.
Proof.
  intros Hbefore. split; [|split; [|reflexivity]].
  - intros Hlog Hname. unfold findPurchaseId. cbn [logs].
    rewrite decodeLogs_app, (find_skips ext before _ Hbefore).
    unfold decodeLogs. cbn. rewrite Hlog. cbn. rewrite Hname. reflexivity.
  - unfold findPurchaseId. cbn [logs].
    rewrite <- (app_nil_r (decodeLogs ext before)), (find_skips ext before [] Hbefore).
    reflexivity.
Qed.

Lemma findPurchaseId_reads_first_PurchaseCreated_witness :
  findPurchaseId decodingChain
    {| logs := Some ([ {| data := "0xff"; topics := [] |}; {| data := "0x01"; topics := [] |} ]
                     ++ {| data := "0x02"; topics := [] |}
                     :: [ {| data := "0x03"; topics := [] |} ]) |}
  = Some "41".
Proof.
  apply (proj1 (findPurchaseId_reads_first_PurchaseCreated decodingChain
                  [ {| data := "0xff"; topics := [] |}; {| data := "0x01"; topics := [] |} ]
                  [ {| data := "0x03"; topics := [] |} ]
                  {| data := "0x02"; topics := [] |}
                  {| eventName := "PurchaseCreated";
                     args := Some {| purchaseId := Some 41 |} |}
                  ltac:(repeat constructor))); reflexivity.
Defined.

(** ** [validateTradeBeforePurchase] *)

Lemma getTrade_trace
    (ESCROW : Z -> option string) (ext : Outside) (rd : Render) (tradeId : string) :
  trace (getTrade ESCROW ext rd tradeId) = []
  \/ exists c, trace (getTrade ESCROW ext rd tradeId) = [ReadContract c].
Proof.
  unfold getTrade. destruct (as_truthy _) as [escrow|]; [|left; reflexivity]. run_M.
  destruct (BigInt tradeId) as [e|n]; cbn.
  - destruct (includes _ _); left; reflexivity.
  - destruct (readContract ext _) as [e|d]; cbn; [|right; eexists; reflexivity].
    destruct (includes _ _); right; eexists; reflexivity.
Qed.

(** X18. [validateTradeBeforePurchase] never throws and never writes; it
    reads the chain at most once.  It answers [true] exactly when the wallet
    is connected, the escrow is known, the trade can be read and is active,
    and the quantity is an integer not above the remaining quantity.  The
    logistics provider it is given plays no part. *)
Theorem validateTradeBeforePurchase_spec
    (ESCROW : Z -> option string) (ext : Outside) (rd : Render)
    (tradeId quantity logisticsProvider : string) :
  let run := validateTradeBeforePurchase ESCROW ext rd tradeId quantity logisticsProvider in
  (exists ok, outcome run = inr ok
     /\ (ok = true <->
         walletConnected rd = true
         /\ exists escrow n q details,
              as_truthy (escrowContractAddress ESCROW rd) = Some escrow
              /\ BigInt tradeId = inr n
              /\ readContract ext (tradesCall escrow n) = inr details
              /\ active details = true
              /\ BigInt quantity = inr q
              /\ q <= remainingQuantity details))
  /\ (trace run = [] \/ exists c, trace run = [ReadContract c])
  /\ (forall other,
        validateTradeBeforePurchase ESCROW ext rd tradeId quantity other = run).
Proof.
  cbv zeta. split; [|split; [|reflexivity]].
  - unfold validateTradeBeforePurchase, walletConnected.
    destruct (truthy_str (address rd)); cbn [negb orb andb];
      [|eexists; split; [reflexivity|]; split; [discriminate | intros [[=] _]]].
    destruct (truthy_num (chain_id rd)); cbn [negb orb andb];
      [|eexists; split; [reflexivity|]; split; [discriminate | intros [[=] _]]].
    destruct (escrowContractAddress ESCROW rd) as [a|] eqn:He; cbn [truthy_str negb];
      [|eexists; split; [reflexivity|]; split; [discriminate|];
        intros (_ & ? & ? & ? & ? & [=] & _)].
    unfold getTrade. rewrite He. cbn [as_truthy truthy_str].
    destruct (String.eqb a ""); cbn [negb];
      [eexists; split; [reflexivity|]; split; [discriminate|];
       intros (_ & ? & ? & ? & ? & [=] & _)|].
    run_M.
    destruct (BigInt tradeId) as [e|n]; cbn;
      [destruct (includes "TradeNotFound" (message e)); cbn;
       (eexists; split; [reflexivity|]; split; [discriminate|];
        intros (_ & ? & ? & ? & ? & _ & [=] & _))|].
    destruct (readContract ext (tradesCall a n)) as [e|d] eqn:Hr; cbn;
      [destruct (includes "TradeNotFound" (message e)); cbn;
       (eexists; split; [reflexivity|]; split; [discriminate|];
        intros (_ & ? & ? & ? & ? & [= <-] & [= <-] & Hr' & _); congruence)|].
    destruct (active d) eqn:Ha; cbn;
      [|eexists; split; [reflexivity|]; split; [discriminate|];
        intros (_ & ? & ? & ? & ? & [= <-] & [= <-] & Hr' & Ha' & _); congruence].
    destruct (BigInt quantity) as [e|q]; cbn;
      [eexists; split; [reflexivity|]; split; [discriminate|];
       intros (_ & ? & ? & ? & ? & _ & _ & _ & _ & [=] & _)|].
    destruct (Z.ltb_spec (remainingQuantity d) q); cbn;
      (eexists; split; [reflexivity|]; split).
    + discriminate.
    + intros (_ & ? & ? & ? & ? & [= <-] & [= <-] & Hr' & _ & [= <-] & Hle).
      rewrite Hr in Hr'. injection Hr' as <-. lia.
    + intros _. split; [reflexivity|]. exists a, n, q, d. repeat split; auto.
    + reflexivity.
  - unfold validateTradeBeforePurchase.
    destruct (negb (truthy_str (address rd)) || negb (truthy_num (chain_id rd)));
      [left; reflexivity|].
    destruct (negb (truthy_str (escrowContractAddress ESCROW rd))); [left; reflexivity|].
    pose proof (getTrade_trace ESCROW ext rd tradeId) as Ht.
    run_M. destruct (getTrade ESCROW ext rd tradeId) as [t [e|d]]; cbn in *.
    + rewrite app_nil_r. exact Ht.
    + destruct (active d); cbn; [|rewrite app_nil_r; exact Ht].
      destruct (BigInt quantity) as [e|q]; cbn; [rewrite !app_nil_r; exact Ht|].
      destruct (_ <? _); cbn; rewrite !app_nil_r; exact Ht.
Qed.

Lemma validateTradeBeforePurchase_spec_witness :
  outcome (validateTradeBeforePurchase sampleEscrowTable calmChain onTargetChain "7" "50" "")
  = inr true
  /\ outcome (validateTradeBeforePurchase sampleEscrowTable calmChain onTargetChain "7" "51" "")
     = inr false
  /\ outcome (validateTradeBeforePurchase sampleEscrowTable calmChain onBaseSepolia "7" "3" "")
     = inr false.
Proof.
  destruct (validateTradeBeforePurchase_spec sampleEscrowTable calmChain onTargetChain
              "7" "50" "") as ((ok & Hrun & Hok) & _).
  split; [|split; reflexivity].
  rewrite Hrun. f_equal. apply Hok. split; [reflexivity|].
  exists sampleEscrow, 7, 50, {| productCost := 10000000; active := true;
                                 remainingQuantity := 50 |}.
  repeat split; try reflexivity; try (cbn; lia).
Defined.

(** ** [approveUSDT]: the write and what follows *)

(** What [approveUSDT] does once it has decided to write. *)
Lemma approveUSDT_run
    (USDT ESCROW : Z -> option string) (ext : Outside) (rd : Render)
    (requested usdt escrow : string) :
  walletConnected rd = true ->
  as_truthy (usdtContractAddress USDT rd) = Some usdt ->
  as_truthy (escrowContractAddress ESCROW rd) = Some escrow ->
  PrimFloat.leb (parseFloat ext requested) (fetchedAllowance USDT ext rd) = false ->
  approveUSDT USDT ESCROW ext rd requested =
  match writeContractAsync ext (approvalCall usdt escrow) with
  | inr txHash =>
      (trace (getCurrentAllowance USDT ext rd)
       ++ [WriteContract (approvalCall usdt escrow); SetTimeout CbRefetchAllowance 2000],
       inr txHash)
  | inl e =>
      (trace (getCurrentAllowance USDT ext rd) ++ [WriteContract (approvalCall usdt escrow)],
       inl (Error
              (if includes "User rejected" (message e)
               then "Approval was rejected by user"
               else if includes "insufficient funds" (message e)
                    then "Insufficient AVAX for gas fees"
                    else "Approval failed: " +:+ parseWeb3Error ext e)))
  end.
Proof.
  intros H Hu He Hleb. unfold approveUSDT.
  unfold walletConnected in H. apply andb_true_iff in H as [-> ->].
  cbn [negb orb]. rewrite Hu, He.
  destruct (getCurrentAllowance_total USDT ext rd) as [Hget _].
  rewrite Hget. run_M. rewrite Hleb.
  destruct (writeContractAsync ext (approvalCall usdt escrow)) as [e|h]; cbn.
  - destruct (includes "User rejected" (message e)); cbn;
      [|destruct (includes "insufficient funds" (message e)); cbn];
      rewrite app_nil_r; reflexivity.
  - reflexivity.
Qed.

(** X19. When [approveUSDT] writes, a hash coming back is returned as it is
    and a refetch of the allowance is armed for two seconds later; a rejected
    write arms nothing and is reported as "Approval was rejected by user" when
    the provider says "User rejected", as "Insufficient AVAX for gas fees"
    when it says "insufficient funds", otherwise as "Approval failed: ..."
    with the parsed error.  Without a connected wallet, or without both
    contract addresses, it fails before any call. *)
Theorem approveUSDT_write_outcomes
    (USDT ESCROW : Z -> option string) (ext : Outside) (rd : Render)
    (requested : string) :
  let reads := trace (getCurrentAllowance USDT ext rd) in
  let run := approveUSDT USDT ESCROW ext rd requested in
  (walletConnected rd = false -> run = ([], inl (Error "Wallet not connected")))
  /\ (walletConnected rd = true ->
      as_truthy (usdtContractAddress USDT rd) = None
      \/ as_truthy (escrowContractAddress ESCROW rd) = None ->
      run = ([], inl (Error "Contracts not available on this network")))
  /\ (forall usdt escrow,
        walletConnected rd = true ->
        as_truthy (usdtContractAddress USDT rd) = Some usdt ->
        as_truthy (escrowContractAddress ESCROW rd) = Some escrow ->
        PrimFloat.leb (parseFloat ext requested) (fetchedAllowance USDT ext rd) = false ->
        match writeContractAsync ext (approvalCall usdt escrow) with
        | inr txHash =>
            run = (reads ++ [WriteContract (approvalCall usdt escrow);
                             SetTimeout CbRefetchAllowance 2000],
                   inr txHash)
        | inl e =>
            run = (reads ++ [WriteContract (approvalCall usdt escrow)],
                   inl (Error
                          (if includes "User rejected" (message e)
                           then "Approval was rejected by user"
                           else if includes "insufficient funds" (message e)
                                then "Insufficient AVAX for gas fees"
                                else "Approval failed: " +:+ parseWeb3Error ext e)))
        end).
Proof.
  cbv zeta. unfold approveUSDT, walletConnected. split; [|split].
  - intros H. apply andb_false_iff in H as [-> | ->]; cbn [negb orb];
      [reflexivity | rewrite orb_true_r; reflexivity].
  - intros H Hnone. apply andb_true_iff in H as [-> ->]. cbn [negb orb].
    destruct Hnone as [-> | ->]; [reflexivity|].
    destruct (as_truthy (usdtContractAddress USDT rd)); reflexivity.
  - intros usdt escrow H Hu He Hleb.
    pose proof (approveUSDT_run USDT ESCROW ext rd requested usdt escrow H Hu He Hleb) as Hrun.
    unfold approveUSDT, walletConnected in Hrun.
    destruct (writeContractAsync ext (approvalCall usdt escrow)); exact Hrun.
Qed.

Lemma approveUSDT_write_outcomes_witness :
  approveUSDT sampleUsdtTable sampleEscrowTable calmChain onTargetChain "30"
  = ([RefetchAllowance; WriteContract (approvalCall sampleUsdt sampleEscrow);
      SetTimeout CbRefetchAllowance 2000], inr "0xfeed")
  /\ approveUSDT sampleUsdtTable sampleEscrowTable refusingChain onTargetChain "30"
     = ([RefetchAllowance; WriteContract (approvalCall sampleUsdt sampleEscrow)],
        inl (Error "Approval was rejected by user")).
Proof.
  split.
  - exact (proj2 (proj2 (approveUSDT_write_outcomes sampleUsdtTable sampleEscrowTable
                           calmChain onTargetChain "30"))
             sampleUsdt sampleEscrow eq_refl eq_refl eq_refl eq_refl).
  - exact (proj2 (proj2 (approveUSDT_write_outcomes sampleUsdtTable sampleEscrowTable
                           refusingChain onTargetChain "30"))
             sampleUsdt sampleEscrow eq_refl eq_refl eq_refl eq_refl).
Defined.

(** X20. An allowance that cannot be told counts as zero: while the token's
    decimals are not loaded, or when the refetch fails or brings nothing,
    [getCurrentAllowance] answers 0, so [approveUSDT] submits the maximal
    approval for every requested amount above zero, whatever the chain
    holds. *)
Theorem approveUSDT_unknown_allowance_counts_as_zero
    (USDT ESCROW : Z -> option string) (ext : Outside) (rd : Render)
    (requested usdt escrow : string) :
  allowanceUnknown ext rd ->
  walletConnected rd = true ->
  as_truthy (usdtContractAddress USDT rd) = Some usdt ->
  as_truthy (escrowContractAddress ESCROW rd) = Some escrow ->
  fetchedAllowance USDT ext rd = 0%float
  /\ (PrimFloat.leb (parseFloat ext requested) 0 = false ->
      In (WriteContract (approvalCall usdt escrow))
         (trace (approveUSDT USDT ESCROW ext rd requested))).
Proof.
  intros Hunknown Hc Hu He.
  assert (Hzero : fetchedAllowance USDT ext rd = 0%float).
  { unfold fetchedAllowance, getCurrentAllowance.
    destruct (negb (truthy_str (address rd)) || negb (truthy_num (chain_id rd))
              || negb (truthy_str (usdtContractAddress USDT rd))); [reflexivity|].
    run_M. destruct Hunknown as [Hd | Hf].
    - rewrite Hd. destruct (refetchAllowance ext); reflexivity.
    - destruct (refetchAllowance ext) as [e|d]; [reflexivity|].
      destruct (usdtDecimals rd); [|reflexivity]. rewrite Hf. reflexivity. }
  split; [exact Hzero|]. intros Hpos.
  pose proof (approveUSDT_run USDT ESCROW ext rd requested usdt escrow Hc Hu He) as Hrun.
  rewrite Hzero in Hrun. specialize (Hrun Hpos).
  destruct (writeContractAsync ext (approvalCall usdt escrow)); rewrite Hrun; cbn;
    apply in_or_app; right; cbn; auto.
Qed.

Lemma approveUSDT_unknown_allowance_counts_as_zero_witness :
  In (WriteContract (approvalCall sampleUsdt sampleEscrow))
     (trace (approveUSDT sampleUsdtTable sampleEscrowTable calmChain decimalsNotLoaded "20")).
Proof.
  apply (approveUSDT_unknown_allowance_counts_as_zero sampleUsdtTable sampleEscrowTable
           calmChain decimalsNotLoaded "20" sampleUsdt sampleEscrow);
    [left; reflexivity | reflexivity | reflexivity | reflexivity | reflexivity].
Defined.

(** ** [refreshBalances]: guards and release *)

Lemma refreshRound_idle (account : Render) (c : Cell) :
  isConnected account = true -> truthy_str (address account) = true ->
  isCorrectNetwork account = true -> committed c = false ->
  refreshRound account c = {| committed := false; issued := issued c ++ oneRefresh |}.
Proof.
  intros Hc Ha Hn Hidle.
  unfold refreshRound, refreshBalances, refreshBalances_skips, rendered.
  unfold isCorrectNetwork, chain_id in *. cbn. rewrite Hc, Ha, Hn, Hidle. reflexivity.
Qed.

Lemma concat_repeat_end {A : Type} (x : list A) (n : nat) :
  concat (repeat x n) ++ x = concat (repeat x (S n)).
Proof.
  induction n as [|n IH]; cbn; [rewrite app_nil_r; reflexivity|].
  rewrite <- app_assoc, IH. reflexivity.
Qed.

(** X21. [refreshBalances] reads nothing while the wallet is disconnected,
    has no address or is on another chain than the target.  Otherwise the flag
    it sets is always released when its reads settle: any number of rounds
    (render, refresh, settle) issue exactly one set of three reads each. *)
Theorem refreshBalances_guards_and_release (account : Render) (c : Cell) (n : nat) :
  (isConnected account = false \/ truthy_str (address account) = false
   \/ isCorrectNetwork account = false ->
   refreshBalances (rendered account c) c = c)
  /\ (isConnected account = true -> truthy_str (address account) = true ->
      isCorrectNetwork account = true -> committed c = false ->
      issued (Nat.iter n (refreshRound account) c)
      = issued c ++ concat (repeat oneRefresh n)
      /\ committed (Nat.iter n (refreshRound account) c) = false).
Proof.
  split.
  - intros H. unfold refreshBalances, refreshBalances_skips, rendered, isCorrectNetwork,
      chain_id. cbn.
    destruct H as [-> | [-> | H]]; cbn; [reflexivity | rewrite orb_true_r; reflexivity|].
    unfold isCorrectNetwork, chain_id in H. rewrite H. cbn.
    rewrite !orb_true_r. reflexivity.
  - intros Hc Ha Hn Hidle. induction n as [|n [IHi IHc]].
    + cbn. rewrite app_nil_r. split; [reflexivity | exact Hidle].
    + rewrite Nat.iter_succ.
      rewrite (refreshRound_idle account _ Hc Ha Hn IHc). cbn [issued committed].
      split; [|reflexivity].
      rewrite IHi, <- app_assoc. f_equal. apply concat_repeat_end.
Qed.

Lemma refreshBalances_guards_and_release_witness :
  refreshBalances (rendered onBaseSepolia idle) idle = idle
  /\ issued (Nat.iter 2 (refreshRound onTargetChain) idle) = oneRefresh ++ oneRefresh.
Proof.
  split.
  - apply (proj1 (refreshBalances_guards_and_release onBaseSepolia idle 0)).
    right. right. reflexivity.
  - destruct (proj2 (refreshBalances_guards_and_release onTargetChain idle 2)
                eq_refl eq_refl eq_refl eq_refl) as [H _].
    exact H.
Defined.

(** ** [sendPayment] *)

Ltac run_U :=
  unfold mbind, U_bind, M_bind, mret, U_ret, M_ret, u_try, u_lift, u_perform, u_emit,
         u_throw, from_M, try_catch, lift, perform, emit, throw, trace, outcome,
         u_trace, u_outcome in *;
  cbn [fst snd] in *.

Lemma sendPayment_run
    (USDT : Z -> option string) (ext : Outside) (ui : UiOutside) (rd : Render)
    (params : PaymentParams) :
  walletConnected rd = true ->
  networkReady ui rd ->
  sendPayment USDT ext ui rd params =
  match as_truthy (usdtContractAddress USDT rd) with
  | None => (switchedFirst rd, inl (Error "USDT not supported on this network"))
  | Some usdt =>
      match parseUnits ui (pay_amount params) (decimalsOr6 rd) with
      | inl e => (switchedFirst rd ++ [Snackbar "Payment failed. Please try again." "error"],
                  inl e)
      | inr amount =>
          let transfer := transferCall usdt (pay_to params) amount in
          match writeContractAsync ext transfer with
          | inl e =>
              (switchedFirst rd
               ++ [Chain (WriteContract transfer);
                   Snackbar "Payment failed. Please try again." "error"],
               inl e)
          | inr txHash =>
              (switchedFirst rd
               ++ [Chain (WriteContract transfer);
                   Snackbar "Payment sent! Waiting for confirmation..." "success";
                   Chain (SetTimeout CbRefreshBalances 2000)],
               inr {| hash := txHash; amount := pay_amount params; token := "USDT";
                      to := pay_to params; from := default "" (address rd);
                      status := pending; timestamp := Date_now ext;
                      tx_purchaseId := None |})
          end
      end
  end.
Proof.
  intros Hc Hready. unfold sendPayment, switchedFirst.
  unfold walletConnected in Hc. apply andb_true_iff in Hc as [-> ->]. cbn [negb orb].
  assert (Hpre :
    (if negb (isCorrectNetwork rd)
     then u_try (switchToCorrectNetwork ui;; u_emit (Pause 1000))
            (fun _ => u_throw (Error "Please switch to the correct network first"))
     else mret tt)
    = (if isCorrectNetwork rd then []
       else [SwitchChain TARGET_CHAIN_id;
             Snackbar ("Switched to " +:+ TARGET_CHAIN_name) "success"; Pause 1000],
       inr tt)).
  { destruct (isCorrectNetwork rd) eqn:Hn; [reflexivity|]. cbn [negb].
    destruct Hready as [Hr | [u Hs]]; [congruence|].
    unfold switchToCorrectNetwork. run_U. rewrite Hs. destruct u. reflexivity. }
  rewrite Hpre. clear Hpre. run_U.
  destruct (as_truthy (usdtContractAddress USDT rd)) as [usdt|]; [|rewrite app_nil_r; reflexivity].
  destruct (parseUnits ui (pay_amount params) (decimalsOr6 rd)) as [e|amount]; cbn;
    [reflexivity|].
  destruct (writeContractAsync ext _) as [e|h]; cbn; reflexivity.
Qed.

(** X22. [sendPayment] writes at most once, and only with a connected wallet
    that is on the target chain or has agreed to switch to it.  A refused
    switch ends the call with "Please switch to the correct network first".
    Unlike [buyTrade], a failed write reaches the caller as the provider threw
    it, after a "Payment failed" snackbar and with no refresh armed; a hash
    coming back gives a pending transaction whose amount is the text the
    caller passed, and arms the refresh for two seconds later. *)
Theorem sendPayment_outcomes
    (USDT : Z -> option string) (ext : Outside) (ui : UiOutside) (rd : Render)
    (params : PaymentParams) :
  let run := sendPayment USDT ext ui rd params in
  (walletConnected rd = false -> run = ([], inl (Error "Wallet not connected")))
  /\ (forall e, walletConnected rd = true -> isCorrectNetwork rd = false ->
        switchChain ui TARGET_CHAIN_id = inl e ->
        run = ([SwitchChain TARGET_CHAIN_id;
                Snackbar ("Failed to switch to " +:+ TARGET_CHAIN_name) "error"],
               inl (Error "Please switch to the correct network first")))
  /\ (length (List.filter is_submission (u_trace run)) <= 1)%nat
  /\ (forall usdt units,
        walletConnected rd = true -> networkReady ui rd ->
        as_truthy (usdtContractAddress USDT rd) = Some usdt ->
        parseUnits ui (pay_amount params) (decimalsOr6 rd) = inr units ->
        match writeContractAsync ext (transferCall usdt (pay_to params) units) with
        | inl e =>
            u_outcome run = inl e
            /\ u_trace run = switchedFirst rd
                           ++ [Chain (WriteContract (transferCall usdt (pay_to params) units));
                               Snackbar "Payment failed. Please try again." "error"]
        | inr txHash =>
            (exists tx, u_outcome run = inr tx /\ hash tx = txHash
                        /\ amount tx = pay_amount params /\ status tx = pending)
            /\ u_trace run = switchedFirst rd
                           ++ [Chain (WriteContract (transferCall usdt (pay_to params) units));
                               Snackbar "Payment sent! Waiting for confirmation..." "success";
                               Chain (SetTimeout CbRefreshBalances 2000)]
        end).
Proof.
  cbv zeta.
  assert (Hguard : walletConnected rd = false ->
                   sendPayment USDT ext ui rd params = ([], inl (Error "Wallet not connected"))).
  { unfold sendPayment, walletConnected. intros H.
    apply andb_false_iff in H as [-> | ->]; cbn [negb orb];
      [reflexivity | rewrite orb_true_r; reflexivity]. }
  assert (Hrefused : forall e, walletConnected rd = true -> isCorrectNetwork rd = false ->
            switchChain ui TARGET_CHAIN_id = inl e ->
            sendPayment USDT ext ui rd params
            = ([SwitchChain TARGET_CHAIN_id;
                Snackbar ("Failed to switch to " +:+ TARGET_CHAIN_name) "error"],
               inl (Error "Please switch to the correct network first"))).
  { intros e Hc Hn Hs. unfold sendPayment, switchToCorrectNetwork.
    unfold walletConnected in Hc. apply andb_true_iff in Hc as [-> ->].
    rewrite Hn. cbn [negb orb]. run_U. rewrite Hs. reflexivity. }
  split; [exact Hguard|]. split; [exact Hrefused|]. split.
  - destruct (walletConnected rd) eqn:Hc; [|rewrite Hguard by reflexivity; cbn; lia].
    destruct (isCorrectNetwork rd) eqn:Hn.
    + rewrite (sendPayment_run USDT ext ui rd params Hc (or_introl Hn)).
      unfold switchedFirst. rewrite Hn.
      destruct (as_truthy _); [|cbn; lia].
      destruct (parseUnits ui _ _); [cbn; lia|].
      destruct (writeContractAsync ext _); cbn; lia.
    + destruct (switchChain ui TARGET_CHAIN_id) as [e|u] eqn:Hs;
        [rewrite (Hrefused e eq_refl eq_refl eq_refl); cbn; lia|].
      rewrite (sendPayment_run USDT ext ui rd params Hc (or_intror (ex_intro _ u Hs))).
      unfold switchedFirst. rewrite Hn.
      destruct (as_truthy _); [|cbn; lia].
      destruct (parseUnits ui _ _); [cbn; lia|].
      destruct (writeContractAsync ext _); cbn; lia.
  - intros usdt units Hc Hready Hu Hp.
    rewrite (sendPayment_run USDT ext ui rd params Hc Hready), Hu, Hp. cbv zeta.
    destruct (writeContractAsync ext _) as [e|h]; cbn [u_trace u_outcome fst snd].
    + split; reflexivity.
    + split; [eexists; repeat split | reflexivity].
Qed.

Lemma sendPayment_outcomes_witness :
  sendPayment sampleUsdtTable calmChain stubbornWallet onBaseSepolia twelveAndAHalf
  = ([SwitchChain TARGET_CHAIN_id;
      Snackbar ("Failed to switch to " +:+ TARGET_CHAIN_name) "error"],
     inl (Error "Please switch to the correct network first"))
  /\ u_outcome (sendPayment sampleUsdtTable refusingChain obligingWallet onTargetChain
                  twelveAndAHalf)
     = inl {| name := "ContractFunctionExecutionError";
              message := "User rejected the request. Details: MetaMask Tx Signature" |}.
Proof.
  split.
  - exact (proj1 (proj2 (sendPayment_outcomes sampleUsdtTable calmChain stubbornWallet
                           onBaseSepolia twelveAndAHalf))
             (Error "User rejected the request.") eq_refl eq_refl eq_refl).
  - exact (proj1 (proj2 (proj2 (proj2 (sendPayment_outcomes sampleUsdtTable refusingChain
                                          obligingWallet onTargetChain twelveAndAHalf)))
                    sampleUsdt 12500000 eq_refl (or_introl eq_refl) eq_refl eq_refl)).
Defined.

(** X23. When [sendPayment] has first moved the wallet to the target chain,
    it still uses the token address its callback closed over: the one
    configured for the chain the wallet was on before.  The transfer goes to
    that address; and if that chain has no token configured the call fails
    with "USDT not supported on this network", the switch having happened. *)
Theorem sendPayment_after_switch_keeps_old_token
    (USDT : Z -> option string) (ext : Outside) (ui : UiOutside) (rd : Render)
    (params : PaymentParams) (u : unit) :
  walletConnected rd = true ->
  isCorrectNetwork rd = false ->
  switchChain ui TARGET_CHAIN_id = inr u ->
  let run := sendPayment USDT ext ui rd params in
  chain_id rd <> Some TARGET_CHAIN_id
  /\ (forall usdt units,
        as_truthy (usdtContractAddress USDT rd) = Some usdt ->
        parseUnits ui (pay_amount params) (decimalsOr6 rd) = inr units ->
        chain_id rd ≫= USDT = Some usdt
        /\ exists rest,
             u_trace run
             = [SwitchChain TARGET_CHAIN_id;
                Snackbar ("Switched to " +:+ TARGET_CHAIN_name) "success"; Pause 1000;
                Chain (WriteContract (transferCall usdt (pay_to params) units))] ++ rest)
  /\ (as_truthy (usdtContractAddress USDT rd) = None ->
      run = ([SwitchChain TARGET_CHAIN_id;
              Snackbar ("Switched to " +:+ TARGET_CHAIN_name) "success"; Pause 1000],
             inl (Error "USDT not supported on this network"))).
Proof.
  intros Hc Hn Hs run. subst run.
  rewrite (sendPayment_run USDT ext ui rd params Hc (or_intror (ex_intro _ u Hs))).
  unfold switchedFirst. rewrite Hn.
  split; [|split].
  - intros Heq. unfold isCorrectNetwork in Hn. rewrite Heq, Z.eqb_refl in Hn. discriminate.
  - intros usdt units Hu Hp. rewrite Hu, Hp. cbv zeta. split.
    + apply as_truthy_Some in Hu as [Hu _]. unfold usdtContractAddress in Hu.
      unfold walletConnected in Hc. apply andb_true_iff in Hc as [Ha Hi].
      rewrite Ha, Hi in Hu. exact Hu.
    + destruct (writeContractAsync ext _); eexists; reflexivity.
  - intros ->. reflexivity.
Qed.

Lemma sendPayment_after_switch_keeps_old_token_witness :
  exists rest,
    u_trace (sendPayment twoChainUsdtTable calmChain obligingWallet onBaseSepolia
               twelveAndAHalf)
    = [SwitchChain 43113; Snackbar "Switched to Avalanche Fuji" "success"; Pause 1000;
       Chain (WriteContract (transferCall baseUsdt sampleLogistics 12500000))] ++ rest.
Proof.
  destruct (sendPayment_after_switch_keeps_old_token twoChainUsdtTable calmChain
              obligingWallet onBaseSepolia twelveAndAHalf tt eq_refl eq_refl eq_refl)
    as (_ & H & _).
  destruct (H baseUsdt 12500000 eq_refl eq_refl) as (_ & rest & Hrest).
  exists rest. exact Hrest.
Defined.

(** ** useSmartContract *)

(** X24. The list of destination chains is always produced (no entry lacks
    its metadata or has an unreadable fee): it is empty without a chain id,
    and otherwise holds one entry per supported chain other than the wallet's,
    in order, each with its routing selector and with the fee of the pair,
    formatted with 18 decimals.  No entry is dropped by the selector filter. *)
Theorem getAvailableDestinationChains_spec
    (formatUnits : Z -> Z -> string) (wallet : WalletState) :
  (truthy_num (w_chainId wallet) = false ->
   getAvailableDestinationChains formatUnits wallet = inr [])
  /\ (forall current,
        w_chainId wallet = Some current -> current <> 0 ->
        exists entries,
          getAvailableDestinationChains formatUnits wallet = inr entries
          /\ List.map dc_id entries = getDestinationChains current
          /\ Forall (fun entry =>
                       dc_id entry <> current
                       /\ dc_selector entry = getChainSelector (dc_id entry)
                       /\ truthy_str (dc_selector entry) = true
                       /\ dc_estimatedFee entry
                          = formatUnits (feeInWei current (dc_id entry)) 18) entries).
Proof.
  split.
  - intros H. unfold getAvailableDestinationChains. rewrite H. reflexivity.
  - intros current Hw Hnz. unfold getAvailableDestinationChains. rewrite Hw.
    cbn [truthy_num].
    destruct (Z.eqb_spec current 0); [contradiction|]. cbn [negb].
    change (default 0 (Some current)) with current. cbv zeta.
    assert (Hmap : forall chains,
              Forall (fun d => In d SUPPORTED_CHAINS /\ d <> current) chains ->
              exists entries,
                mapEntries formatUnits current chains = inr entries
                /\ List.map dc_id entries = chains
                /\ Forall (fun entry =>
                             dc_id entry <> current
                             /\ dc_selector entry = getChainSelector (dc_id entry)
                             /\ truthy_str (dc_selector entry) = true
                             /\ dc_estimatedFee entry
                                = formatUnits (feeInWei current (dc_id entry)) 18) entries).
    { induction 1 as [|d chains [Hd Hne] _ (entries & He & Hids & Hall)].
      - exists []. repeat split. constructor.
      - cbn [mapEntries]. unfold destinationEntry. rewrite BigInt_fee, He.
        apply supported_In, supported_cases in Hd.
        destruct Hd as [-> | [-> | [-> | ->]]]; cbn [CHAIN_METADATA];
          (eexists; split; [reflexivity|]; split; [cbn; rewrite Hids; reflexivity|];
           constructor; [cbn; repeat split; auto | exact Hall]). }
    destruct (Hmap (getDestinationChains current)) as (entries & He & Hids & Hall).
    { apply List.Forall_forall. intros d Hd. unfold getDestinationChains in Hd.
      apply List.filter_In in Hd as [Hin Hne].
      apply negb_true_iff, Z.eqb_neq in Hne. split; assumption. }
    rewrite He. exists entries.
    assert (Hkeep : List.filter (fun chain => truthy_str (dc_selector chain)) entries = entries).
    { clear -Hall. induction Hall as [|entry entries (_ & _ & Ht & _) _ IH]; [reflexivity|].
      cbn. rewrite Ht, IH. reflexivity. }
    rewrite Hkeep. repeat split; assumption.
Qed.

Lemma getAvailableDestinationChains_spec_witness :
  exists entries,
    getAvailableDestinationChains sample_formatUnits walletOnFuji = inr entries
    /\ List.map dc_id entries = [84532; 11155111; 421614]
    /\ List.map dc_estimatedFee entries = ["0.0008"; "0.0009"; "0.0007"].
Proof.
  destruct (proj2 (getAvailableDestinationChains_spec sample_formatUnits walletOnFuji)
              43113 eq_refl ltac:(discriminate)) as (entries & He & Hids & _).
  exists entries. split; [exact He|]. split; [exact Hids|].
  vm_compute in He. injection He as <-. vm_compute. reflexivity.
Defined.

(** ** [buyCrossChainTrade] *)

Lemma crossChainBuyError_known (msg : string) :
  In (crossChainBuyError msg) crossChainBuyMessages.
Proof.
  unfold crossChainBuyError, crossChainBuyMessages.
  repeat match goal with
         | |- context [if ?b then _ else _] => destruct b
         end; cbn; tauto.
Qed.

Lemma switchToCorrectNetwork_run (ui : UiOutside) :
  switchToCorrectNetwork ui
  = match switchChain ui TARGET_CHAIN_id with
    | inr _ => ([SwitchChain TARGET_CHAIN_id;
                 Snackbar ("Switched to " +:+ TARGET_CHAIN_name) "success"], inr tt)
    | inl e => ([SwitchChain TARGET_CHAIN_id;
                 Snackbar ("Failed to switch to " +:+ TARGET_CHAIN_name) "error"], inl e)
    end.
Proof.
  unfold switchToCorrectNetwork. run_U.
  destruct (switchChain ui TARGET_CHAIN_id) as [e|[]]; reflexivity.
Qed.

(** The call, once the wallet is connected and on (or moved to) the target
    chain, for a supported pair with an escrow contract on the wallet's chain. *)
Lemma buyCrossChainTrade_run
    (ESCROW : Z -> option string) (ui : UiOutside) (wallet : WalletState)
    (isCorrectNetwork : bool) (params : CrossChainBuyParams)
    (current : Z) (escrow : string) :
  w_isConnected wallet = true ->
  truthy_str (w_address wallet) = true ->
  isCorrectNetwork = true \/ (exists u, switchChain ui TARGET_CHAIN_id = inr u) ->
  w_chainId wallet = Some current ->
  In current SUPPORTED_CHAINS ->
  In (cc_destinationChainId params) SUPPORTED_CHAINS ->
  as_truthy (ESCROW current) = Some escrow ->
  exists selector,
    CCIP_CHAIN_SELECTORS (cc_destinationChainId params) = Some selector
    /\ selector <> ""
    /\ buyCrossChainTrade ESCROW ui wallet isCorrectNetwork (switchToCorrectNetwork ui) params
       = let pre := crossChainPrelude ui isCorrectNetwork
                    ++ [Snackbar "Processing cross-chain purchase..." "info"] in
         match BigInt (cc_tradeId params) with
         | inl e => (pre, inr (failed (crossChainBuyError (message e))))
         | inr tid =>
             match BigInt (cc_quantity params) with
             | inl e => (pre, inr (failed (crossChainBuyError (message e))))
             | inr qty =>
                 let tx := crossChainBuyTx escrow selector tid qty
                             (cc_logisticsProvider params)
                             (feeInWei current (cc_destinationChainId params)) in
                 match submitTx ui tx with
                 | inl e => (pre ++ [SubmitTx tx],
                             inr (failed (crossChainBuyError (message e))))
                 | inr txHash =>
                     (pre ++ [SubmitTx tx],
                      inr {| cr_success := true;
                             cr_message := Some "Cross-chain purchase initiated successfully";
                             cr_hash := Some txHash |})
                 end
             end
         end.
Proof.
  intros Hc Ha Hnet Hw Hcur Hdest Hesc.
  assert (Hsel : exists selector,
            CCIP_CHAIN_SELECTORS (cc_destinationChainId params) = Some selector
            /\ selector <> "").
  { apply supported_In, supported_cases in Hdest.
    destruct Hdest as [-> | [-> | [-> | ->]]]; cbn; eexists; (split; [reflexivity|]);
      discriminate. }
  destruct Hsel as (selector & Hsel & Hne). exists selector.
  split; [exact Hsel|]. split; [exact Hne|].
  unfold buyCrossChainTrade, getEscrowAddress, crossChainPrelude.
  rewrite Hc, Ha, Hw, (isCrossChainSupported_spec_aux _ _ Hcur Hdest), Hsel.
  cbn [negb orb mbind option_bind]. rewrite Hesc.
  assert (Ht : truthy_num (Some current) = true).
  { apply supported_In, supported_cases in Hcur.
    destruct Hcur as [-> | [-> | [-> | ->]]]; reflexivity. }
  rewrite Ht. cbn [negb as_truthy].
  destruct (String.eqb_spec selector ""); [contradiction|].
  change (default 0 (Some current)) with current. rewrite BigInt_fee.
  rewrite switchToCorrectNetwork_run.
  destruct Hnet as [-> | [u Hu]].
  - run_U. cbn [negb app].
    destruct (BigInt (cc_tradeId params)); [reflexivity|].
    destruct (BigInt (cc_quantity params)); [reflexivity|].
    cbn. destruct (submitTx ui _); reflexivity.
  - rewrite Hu. destruct isCorrectNetwork; run_U; cbn [negb app].
    + destruct (BigInt (cc_tradeId params)); [reflexivity|].
      destruct (BigInt (cc_quantity params)); [reflexivity|].
      cbn. destruct (submitTx ui _); reflexivity.
    + destruct (BigInt (cc_tradeId params)); [reflexivity|].
      destruct (BigInt (cc_quantity params)); [reflexivity|].
      cbn. destruct (submitTx ui _); reflexivity.
Qed.

Lemma feeInWei_same_chain (c : Z) : feeInWei c c = 1000000000000000.
Proof.
  unfold feeInWei, getCrossChainFee, CROSS_CHAIN_FEES.
  chain_cases c; cbn -[BigInt];
    repeat match goal with H : (_ =? _) = false |- _ => rewrite !H end;
    reflexivity.
Qed.

Ltac count_submit Hquiet :=
  rewrite ?List.filter_app, ?List.length_app, ?Hquiet; cbn; lia.

(** The two ways [buyCrossChainTrade] ends. *)
Lemma buyCrossChainTrade_cases
    (ESCROW : Z -> option string) (ui : UiOutside) (wallet : WalletState)
    (isCorrectNetwork : bool) (params : CrossChainBuyParams) :
  let run := buyCrossChainTrade ESCROW ui wallet isCorrectNetwork
               (switchToCorrectNetwork ui) params in
  (exists t msg,
     run = (t, inr (failed msg))
     /\ In msg crossChainBuyMessages
     /\ (length (List.filter is_submit t) <= 1)%nat)
  \/ (exists t current escrow selector tid qty txHash,
        let tx := crossChainBuyTx escrow selector tid qty (cc_logisticsProvider params)
                    (feeInWei current (cc_destinationChainId params)) in
        run = (t ++ [SubmitTx tx],
               inr {| cr_success := true;
                      cr_message := Some "Cross-chain purchase initiated successfully";
                      cr_hash := Some txHash |})
        /\ List.filter is_submit t = []
        /\ w_chainId wallet = Some current
        /\ isCrossChainSupported current (cc_destinationChainId params) = true
        /\ as_truthy (ESCROW current) = Some escrow
        /\ getChainSelector (cc_destinationChainId params) = Some selector
        /\ BigInt (cc_tradeId params) = inr tid
        /\ BigInt (cc_quantity params) = inr qty
        /\ submitTx ui tx = inr txHash).
Proof.
  intros run. subst run.
  unfold buyCrossChainTrade. rewrite switchToCorrectNetwork_run.
  destruct (w_isConnected wallet);
    [|left; eexists _, _; split; [reflexivity|]; split; [cbn; tauto | cbn; lia]].
  destruct (truthy_str (w_address wallet));
    [|left; eexists _, _; split; [reflexivity|]; split; [cbn; tauto | cbn; lia]].
  cbn [negb orb].
  set (pre := (if negb isCorrectNetwork
               then u_try (_ ;; u_emit (Pause 1500);; mret true) (fun _ => mret false)
               else mret true) : U bool).
  assert (Hpre : exists t b, pre = (t, inr b) /\ List.filter is_submit t = []).
  { subst pre. destruct isCorrectNetwork; cbn [negb].
    - exists [], true. split; reflexivity.
    - destruct (switchChain ui TARGET_CHAIN_id) as [e|[]]; run_U;
        eexists _, _; split; reflexivity. }
  destruct Hpre as (t & switched & -> & Hquiet).
  destruct switched;
    [|left; run_U; eexists _, _; split; [reflexivity|]; split; [cbn; tauto | count_submit Hquiet]].
  destruct (w_chainId wallet) as [current|] eqn:Hw;
    [|left; run_U; eexists _, _; split; [reflexivity|]; split; [cbn; tauto | count_submit Hquiet]].
  destruct (isCrossChainSupported current (cc_destinationChainId params)) eqn:Hsup;
    [|left; run_U; eexists _, _; split; [reflexivity|]; split; [cbn; tauto | count_submit Hquiet]].
  unfold getEscrowAddress. rewrite Hw. cbn [mbind option_bind].
  destruct (truthy_num (Some current));
    [|left; run_U; eexists _, _; split; [reflexivity|]; split;
      [apply crossChainBuyError_known | count_submit Hquiet]].
  cbn [negb].
  destruct (as_truthy (ESCROW current)) as [escrow|] eqn:Hesc;
    [|left; run_U; eexists _, _; split; [reflexivity|]; split;
      [apply crossChainBuyError_known | count_submit Hquiet]].
  destruct (as_truthy (CCIP_CHAIN_SELECTORS (cc_destinationChainId params)))
    as [selector|] eqn:Hsel;
    [|left; run_U; eexists _, _; split; [reflexivity|]; split; [cbn; tauto | count_submit Hquiet]].
  apply as_truthy_Some in Hsel as [Hsel _].
  change (default 0 (Some current)) with current. rewrite BigInt_fee.
  destruct (BigInt (cc_tradeId params)) as [e|tid] eqn:Htid;
    [left; run_U; eexists _, _; split; [reflexivity|]; split;
      [apply crossChainBuyError_known | count_submit Hquiet]|].
  destruct (BigInt (cc_quantity params)) as [e|qty] eqn:Hqty;
    [left; run_U; eexists _, _; split; [reflexivity|]; split;
      [apply crossChainBuyError_known | count_submit Hquiet]|].
  cbv zeta.
  destruct (submitTx ui (crossChainBuyTx escrow selector tid qty
                           (cc_logisticsProvider params)
                           (feeInWei current (cc_destinationChainId params))))
    as [e|txHash] eqn:Hsub.
  - left. run_U. rewrite Hsub. cbn [app].
    eexists _, _. split; [reflexivity|]. split; [apply crossChainBuyError_known|].
    count_submit Hquiet.
  - right. run_U. rewrite Hsub. cbn [app].
    exists (t ++ [Snackbar "Processing cross-chain purchase..." "info"]),
           current, escrow, selector, tid, qty, txHash.
    cbv zeta. split; [rewrite <- app_assoc; reflexivity|].
    split; [rewrite List.filter_app, Hquiet; reflexivity|].
    repeat split; assumption.
Qed.

(** X25. [buyCrossChainTrade] never throws: it always returns a result.  It
    hands at most one transaction to the wallet.  A failed result has no hash
    and one of eleven fixed messages.  A successful result means that the pair
    of chains is supported, that the transaction went to the escrow contract
    of the chain in the wallet snapshot, calling [buyCrossChainTrade] with the
    destination's selector, the fee of the pair as value and the cross-chain
    gas limit, and that the hash returned is the wallet's. *)
Theorem buyCrossChainTrade_outcomes
    (ESCROW : Z -> option string) (ui : UiOutside) (wallet : WalletState)
    (isCorrectNetwork : bool) (params : CrossChainBuyParams) :
  let run := buyCrossChainTrade ESCROW ui wallet isCorrectNetwork
               (switchToCorrectNetwork ui) params in
  exists result,
    u_outcome run = inr result
    /\ (length (List.filter is_submit (u_trace run)) <= 1)%nat
    /\ (cr_success result = false ->
        cr_hash result = None
        /\ exists msg, cr_message result = Some msg /\ In msg crossChainBuyMessages)
    /\ (cr_success result = true ->
        exists current escrow selector tid qty txHash,
          w_chainId wallet = Some current
          /\ isCrossChainSupported current (cc_destinationChainId params) = true
          /\ as_truthy (ESCROW current) = Some escrow
          /\ getChainSelector (cc_destinationChainId params) = Some selector
          /\ BigInt (cc_tradeId params) = inr tid
          /\ BigInt (cc_quantity params) = inr qty
          /\ let tx := crossChainBuyTx escrow selector tid qty (cc_logisticsProvider params)
                         (feeInWei current (cc_destinationChainId params)) in
             tx_gas tx = Some 1200000
             /\ tx_functionName tx = "buyCrossChainTrade"
             /\ submitTx ui tx = inr txHash
             /\ cr_hash result = Some txHash
             /\ In (SubmitTx tx) (u_trace run)).
Proof.
  intros run. subst run.
  destruct (buyCrossChainTrade_cases ESCROW ui wallet isCorrectNetwork params)
    as [(t & msg & -> & Hin & Hlen)
       |(t & current & escrow & selector & tid & qty & txHash & Hrun)].
  - exists (failed msg). split; [reflexivity|]. split; [exact Hlen|]. split.
    + intros _. split; [reflexivity|]. exists msg. split; [reflexivity | exact Hin].
    + cbn. discriminate.
  - cbv zeta in Hrun.
    destruct Hrun as (-> & Hquiet & Hw & Hsup & Hesc & Hsel & Htid & Hqty & Hsub).
    eexists. split; [reflexivity|]. unfold u_trace. cbn [fst].
    split; [rewrite List.filter_app, List.length_app, Hquiet; cbn; lia|].
    split; [cbn; discriminate|].
    intros _. exists current, escrow, selector, tid, qty, txHash.
    repeat split; try assumption.
    apply in_or_app. right. cbn. tauto.
Qed.

(** X26. [buyCrossChainTrade] accepts the wallet's own chain as destination:
    for a supported chain the pair passes [isCrossChainSupported], the chain
    has a selector, and the purchase is submitted as a cross-chain one, with
    the default fee of 0.001 (10^15 wei) as value, the pair not being in the
    fee table. *)
Theorem buyCrossChainTrade_accepts_own_chain
    (ESCROW : Z -> option string) (ui : UiOutside) (wallet : WalletState)
    (params : CrossChainBuyParams) (current tid qty : Z) (escrow : string) :
  w_isConnected wallet = true ->
  truthy_str (w_address wallet) = true ->
  w_chainId wallet = Some current ->
  In current SUPPORTED_CHAINS ->
  cc_destinationChainId params = current ->
  as_truthy (ESCROW current) = Some escrow ->
  BigInt (cc_tradeId params) = inr tid ->
  BigInt (cc_quantity params) = inr qty ->
  exists selector,
    getChainSelector current = Some selector
    /\ u_trace (buyCrossChainTrade ESCROW ui wallet true (switchToCorrectNetwork ui) params)
       = [Snackbar "Processing cross-chain purchase..." "info";
          SubmitTx (crossChainBuyTx escrow selector tid qty (cc_logisticsProvider params)
                      1000000000000000)].
Proof.
  intros Hc Ha Hw Hcur Hdest Hesc Htid Hqty.
  assert (Hd : In (cc_destinationChainId params) SUPPORTED_CHAINS)
    by (rewrite Hdest; exact Hcur).
  destruct (buyCrossChainTrade_run ESCROW ui wallet true params current escrow
              Hc Ha (or_introl eq_refl) Hw Hcur Hd Hesc) as (selector & Hsel & _ & ->).
  rewrite Hdest in Hsel. exists selector. split; [exact Hsel|].
  rewrite Htid, Hqty, Hdest, feeInWei_same_chain. cbv zeta.
  unfold crossChainPrelude. cbn [app].
  destruct (submitTx ui _); reflexivity.
Qed.

Lemma buyCrossChainTrade_accepts_own_chain_witness :
  exists selector,
    getChainSelector 43113 = Some selector
    /\ u_trace (buyCrossChainTrade sampleEscrowTable obligingWallet walletOnFuji true
                  (switchToCorrectNetwork obligingWallet) fujiToFuji)
       = [Snackbar "Processing cross-chain purchase..." "info";
          SubmitTx (crossChainBuyTx sampleEscrow selector 7 3 sampleLogistics
                      1000000000000000)].
Proof.
  apply (buyCrossChainTrade_accepts_own_chain sampleEscrowTable obligingWallet walletOnFuji
           fujiToFuji 43113 7 3 sampleEscrow);
    try reflexivity.
  cbn. tauto.
Defined.

(** X27. When [buyCrossChainTrade] has first moved the wallet to the target
    chain, the purchase it then submits is still built from the wallet
    snapshot of its render: it is addressed to the escrow contract of the
    chain the wallet was on, and carries the fee from that chain to the
    destination. *)
Theorem buyCrossChainTrade_after_switch_keeps_old_chain
    (ESCROW : Z -> option string) (ui : UiOutside) (wallet : WalletState)
    (params : CrossChainBuyParams) (current tid qty : Z) (escrow : string) (u : unit) :
  w_isConnected wallet = true ->
  truthy_str (w_address wallet) = true ->
  switchChain ui TARGET_CHAIN_id = inr u ->
  w_chainId wallet = Some current ->
  In current SUPPORTED_CHAINS ->
  In (cc_destinationChainId params) SUPPORTED_CHAINS ->
  as_truthy (ESCROW current) = Some escrow ->
  BigInt (cc_tradeId params) = inr tid ->
  BigInt (cc_quantity params) = inr qty ->
  exists selector,
    getChainSelector (cc_destinationChainId params) = Some selector
    /\ u_trace (buyCrossChainTrade ESCROW ui wallet false (switchToCorrectNetwork ui) params)
       = [SwitchChain TARGET_CHAIN_id;
          Snackbar ("Switched to " +:+ TARGET_CHAIN_name) "success"; Pause 1500;
          Snackbar "Processing cross-chain purchase..." "info";
          SubmitTx (crossChainBuyTx escrow selector tid qty (cc_logisticsProvider params)
                      (feeInWei current (cc_destinationChainId params)))].
Proof.
  intros Hc Ha Hs Hw Hcur Hd Hesc Htid Hqty.
  destruct (buyCrossChainTrade_run ESCROW ui wallet false params current escrow
              Hc Ha (or_intror (ex_intro _ u Hs)) Hw Hcur Hd Hesc)
    as (selector & Hsel & _ & ->).
  exists selector. split; [exact Hsel|].
  rewrite Htid, Hqty. cbv zeta. unfold crossChainPrelude. rewrite Hs. cbn [app].
  destruct (submitTx ui _); reflexivity.
Qed.

Lemma buyCrossChainTrade_after_switch_keeps_old_chain_witness :
  u_trace (buyCrossChainTrade twoChainEscrowTable obligingWallet walletOnBase false
             (switchToCorrectNetwork obligingWallet) fujiToFuji)
  = [SwitchChain 43113; Snackbar "Switched to Avalanche Fuji" "success"; Pause 1500;
     Snackbar "Processing cross-chain purchase..." "info";
     SubmitTx (crossChainBuyTx baseEscrow "14767482510784806043" 7 3 sampleLogistics
                 800000000000000)].
Proof.
  destruct (buyCrossChainTrade_after_switch_keeps_old_chain twoChainEscrowTable
              obligingWallet walletOnBase fujiToFuji 84532 7 3 baseEscrow tt
              eq_refl eq_refl eq_refl eq_refl
              ltac:(cbn; tauto) ltac:(cbn; tauto) eq_refl eq_refl eq_refl)
    as (selector & Hsel & Hrun).
  injection Hsel as <-. exact Hrun.
Defined.

(** ** The unified [buyTrade]: cross-chain purchases *)

Lemma unified_buyTrade_cross_chain_run
    (USDT ESCROW : Z -> option string) (ext : Outside) (ui : UiOutside)
    (decodeEvent : Log -> JsError + Unified.Event) (rd : Render)
    (params : Unified.UnifiedBuyTradeParams) (cc : Unified.CrossChainParams)
    (escrow usdt lp destContract : string) (tid qty selector : Z)
    (details : TradeDetails) (fee0 : Z) :
  CrossChainRequest USDT ESCROW ext rd params cc escrow usdt lp destContract tid qty
    selector details ->
  parseUnits ui "0.01" 18 = inr fee0 ->
  let '(feeCall, simulation, submission) :=
    crossChainPurchase ui rd cc escrow usdt lp destContract tid qty selector details fee0 in
  let pre := [Chain (ReadContract (tradesCall escrow tid)); ReadTx feeCall;
              SimulateTx simulation; SubmitTx submission] in
  Unified.buyTrade USDT ESCROW ext ui decodeEvent rd params
  = match submitTx ui submission with
    | inl e => (pre, inl (Error (Unified.buyTradeError false (errorMessageOf e))))
    | inr txHash =>
        if String.eqb txHash "" then
          (pre, inl (Error (Unified.buyTradeError false "Transaction failed to execute")))
        else
          match waitForTransactionReceipt ext txHash 120000 with
          | inl e =>
              (pre ++ [Chain (WaitForTransactionReceipt txHash 120000)],
               inl (Error (Unified.buyTradeError false (errorMessageOf e))))
          | inr receipt =>
              (pre ++ [Chain (WaitForTransactionReceipt txHash 120000);
                       Snackbar "Cross-chain purchase initiated! Your transaction is being processed." "success";
                       Chain (SetTimeout CbRefreshBalances 5000)],
               inr {| Unified.t_payment :=
                        {| hash := txHash;
                           amount := formatUnits ext (productCost details * qty)
                                       (if truthy_num (usdtDecimals rd)
                                        then default 6 (usdtDecimals rd) else 6);
                           token := "USDT";
                           to := escrow;
                           from := default "" (address rd);
                           status := pending;
                           timestamp := Date_now ext;
                           tx_purchaseId :=
                             fst (Unified.readReceipt decodeEvent false receipt) |};
                      Unified.t_messageId :=
                        snd (Unified.readReceipt decodeEvent false receipt);
                      Unified.t_crossChain := true |})
          end
    end.
Proof.
  intros [Hc Hn He Hu Htid Hqty Hlp Hpre Hlen Htrade Hcc Hsel Hdc Hdpre Hdlen] Hfee.
  unfold crossChainPurchase. cbv zeta.
  unfold Unified.buyTrade, Unified.isLocal, Unified.estimateCrossChainFees,
    Unified.defaultFee, Unified.checkedAddress, getTrade, settledFee,
    settledCrossChainGas.
  unfold walletConnected in Hc. apply andb_true_iff in Hc as [Ha Hi].
  rewrite Ha, Hi, Hn, He, Hu, Htid, Hqty, Hlp, Hpre, Hlen, Hcc, Hsel, Hdc, Hdpre, Hdlen,
    Hfee.
  cbn [negb orb Nat.eqb]. run_U. cbn [fst snd List.map app]. rewrite Htrade.
  cbn [fst snd List.map app].
  destruct (readFee ui _) as [e|fees]; cbn [fst snd app];
    destruct (simulateTx ui _) as [e'|g]; cbn [fst snd app];
    destruct (submitTx ui _) as [e''|txHash]; cbn [fst snd app]; try reflexivity;
    destruct (String.eqb txHash ""); cbn [fst snd app]; try reflexivity;
    destruct (waitForTransactionReceipt ext txHash 120000) as [e3|receipt];
    cbn [fst snd app]; try reflexivity;
    destruct (Unified.readReceipt decodeEvent false receipt); reflexivity.
Qed.

(** X28. A cross-chain [buyTrade] that passed its checks hands exactly one
    transaction to the wallet, the escrow's [buyCrossChainTrade], and no local
    [buyTrade] write.  Simulation and submission carry the same arguments and
    the same value.  The value is 0 when fees are paid in the fee token
    ([payFeesIn] 0); otherwise ([payFeesIn] 1, the default) it is the fee the
    contract's [getFee] answered, or the default fee when that read failed.
    The gas limit is the simulation's estimate plus 30 percent, or twice
    [GAS_LIMITS.BUY_TRADE] when the simulation failed or gave no estimate. *)
Theorem unified_buyTrade_cross_chain_submission
    (USDT ESCROW : Z -> option string) (ext : Outside) (ui : UiOutside)
    (decodeEvent : Log -> JsError + Unified.Event) (rd : Render)
    (params : Unified.UnifiedBuyTradeParams) (cc : Unified.CrossChainParams)
    (escrow usdt lp destContract : string) (tid qty selector : Z)
    (details : TradeDetails) (fee0 : Z) :
  CrossChainRequest USDT ESCROW ext rd params cc escrow usdt lp destContract tid qty
    selector details ->
  parseUnits ui "0.01" 18 = inr fee0 ->
  let '(feeCall, simulation, submission) :=
    crossChainPurchase ui rd cc escrow usdt lp destContract tid qty selector details fee0 in
  let run := Unified.buyTrade USDT ESCROW ext ui decodeEvent rd params in
  List.filter is_submission (u_trace run) = [SubmitTx submission]
  /\ tx_address submission = escrow
  /\ tx_functionName submission = "buyCrossChainTrade"
  /\ tx_args submission = tx_args simulation
  /\ tx_value submission = tx_value simulation
  /\ (Unified.payFeesIn cc = Some 0 -> tx_value submission = Some 0)
  /\ (Unified.payFeesIn cc = None \/ Unified.payFeesIn cc = Some 1 ->
      (forall fees, readFee ui feeCall = inr fees -> tx_value submission = Some fees)
      /\ (forall e, readFee ui feeCall = inl e -> tx_value submission = Some fee0))
  /\ (forall g, simulateTx ui simulation = inr (Some g) -> g <> 0 ->
      tx_gas submission = Some (Z.quot (g * 130) 100))
  /\ (forall e, simulateTx ui simulation = inl e -> tx_gas submission = Some 1600000)
  /\ (simulateTx ui simulation = inr None -> tx_gas submission = Some 1600000).
Proof.
  intros Hreq Hfee.
  pose proof (unified_buyTrade_cross_chain_run USDT ESCROW ext ui decodeEvent rd params cc
                escrow usdt lp destContract tid qty selector details fee0 Hreq Hfee) as Hrun.
  unfold crossChainPurchase in *. cbv zeta in *.
  split; [|repeat split].
  - rewrite Hrun. unfold u_trace.
    destruct (submitTx ui _) as [e|txHash]; [reflexivity|].
    destruct (String.eqb txHash ""); [reflexivity|].
    destruct (waitForTransactionReceipt ext txHash 120000); reflexivity.
  - intros Hpf. cbn [tx_value Unified.crossChainSubmission]. rewrite Hpf. reflexivity.
  - intros fees Hread. cbn [tx_value Unified.crossChainSubmission].
    unfold settledFee. rewrite Hread. destruct H as [-> | ->]; reflexivity.
  - intros e Hread. cbn [tx_value Unified.crossChainSubmission].
    unfold settledFee. rewrite Hread. destruct H as [-> | ->]; reflexivity.
  - intros g Hsim Hg. cbn [tx_gas Unified.crossChainSubmission]. rewrite Hsim.
    unfold settledCrossChainGas, Unified.crossChainGas. cbn [truthy_num].
    destruct (Z.eqb_spec g 0); [contradiction | reflexivity].
  - intros e Hsim. cbn [tx_gas Unified.crossChainSubmission]. rewrite Hsim. reflexivity.
  - intros Hsim. cbn [tx_gas Unified.crossChainSubmission]. rewrite Hsim. reflexivity.
Qed.

(** X29. Once the wallet has returned a hash for a cross-chain purchase,
    [buyTrade] waits for the receipt with a timeout of 120000 ms.  When the
    receipt arrives the call returns a pending transaction marked
    [crossChain], with that hash, the escrow contract as recipient and the
    [messageId] of the first [MessageSent] log; its last effects are the
    success snackbar and a balance refresh armed after 5000 ms.  When the wait
    fails the call fails with the error its [catch] derives, and it neither
    shows a snackbar nor arms the refresh. *)
Theorem unified_buyTrade_cross_chain_completion
    (USDT ESCROW : Z -> option string) (ext : Outside) (ui : UiOutside)
    (decodeEvent : Log -> JsError + Unified.Event) (rd : Render)
    (params : Unified.UnifiedBuyTradeParams) (cc : Unified.CrossChainParams)
    (escrow usdt lp destContract : string) (tid qty selector : Z)
    (details : TradeDetails) (fee0 : Z) (txHash : string) :
  CrossChainRequest USDT ESCROW ext rd params cc escrow usdt lp destContract tid qty
    selector details ->
  parseUnits ui "0.01" 18 = inr fee0 ->
  submitTx ui (snd (crossChainPurchase ui rd cc escrow usdt lp destContract tid qty
                      selector details fee0)) = inr txHash ->
  txHash <> "" ->
  let run := Unified.buyTrade USDT ESCROW ext ui decodeEvent rd params in
  In (Chain (WaitForTransactionReceipt txHash 120000)) (u_trace run)
  /\ (forall receipt,
        waitForTransactionReceipt ext txHash 120000 = inr receipt ->
        exists tx before,
          u_outcome run = inr tx
          /\ Unified.t_crossChain tx = true
          /\ Unified.t_messageId tx = firstMessageId decodeEvent receipt
          /\ hash (Unified.t_payment tx) = txHash
          /\ to (Unified.t_payment tx) = escrow
          /\ status (Unified.t_payment tx) = pending
          /\ amount (Unified.t_payment tx)
             = formatUnits ext (productCost details * qty)
                 (if truthy_num (usdtDecimals rd) then default 6 (usdtDecimals rd) else 6)
          /\ u_trace run
             = before
               ++ [Chain (WaitForTransactionReceipt txHash 120000);
                   Snackbar "Cross-chain purchase initiated! Your transaction is being processed." "success";
                   Chain (SetTimeout CbRefreshBalances 5000)])
  /\ (forall e,
        waitForTransactionReceipt ext txHash 120000 = inl e ->
        u_outcome run = inl (Error (Unified.buyTradeError false (errorMessageOf e)))
        /\ List.filter announces (u_trace run) = []).
Proof.
  intros Hreq Hfee Hsub Hhash run. subst run.
  pose proof (unified_buyTrade_cross_chain_run USDT ESCROW ext ui decodeEvent rd params cc
                escrow usdt lp destContract tid qty selector details fee0 Hreq Hfee) as Hrun.
  unfold crossChainPurchase in *. cbv zeta in *. cbn [snd] in Hsub.
  rewrite Hsub in Hrun.
  destruct (String.eqb_spec txHash ""); [contradiction|].
  rewrite Hrun. clear Hrun.
  split; [|split].
  - destruct (waitForTransactionReceipt ext txHash 120000);
      unfold u_trace; cbn [fst]; apply in_or_app; right; cbn; tauto.
  - intros receipt ->. eexists _, _. split; [reflexivity|].
    split; [reflexivity|].
    split.
    { cbn [Unified.t_messageId]. unfold Unified.readReceipt, firstMessageId.
      destruct (logs receipt) as [ls|]; [|reflexivity]. cbn [negb snd].
      destruct (Unified.argsOf "MessageSent" _); reflexivity. }
    repeat split.
  - intros e ->. split; reflexivity.
Qed.

(** X30. The unified [buyTrade] looks at the cross-chain parameters only
    after it has read the trade from the chain: with a destination selector
    that is not a number, or a destination contract that is not a 0x-prefixed
    address of 42 characters, the call fails having issued that one read and
    nothing else; for the malformed contract the error is the generic
    "Cross-chain purchase failed. Please try again.". *)
Theorem unified_buyTrade_checks_destination_after_trade_read
    (USDT ESCROW : Z -> option string) (ext : Outside) (ui : UiOutside)
    (decodeEvent : Log -> JsError + Unified.Event) (rd : Render)
    (params : Unified.UnifiedBuyTradeParams) (cc : Unified.CrossChainParams)
    (escrow usdt lp : string) (tid qty : Z) (details : TradeDetails) :
  walletConnected rd = true ->
  isCorrectNetwork rd = true ->
  as_truthy (escrowContractAddress ESCROW rd) = Some escrow ->
  as_truthy (usdtContractAddress USDT rd) = Some usdt ->
  BigInt (Unified.u_tradeId params) = inr tid ->
  BigInt (Unified.u_quantity params) = inr qty ->
  Unified.u_logisticsProvider params = Some lp ->
  startsWith "0x" lp = true ->
  String.length lp = 42%nat ->
  readContract ext (tradesCall escrow tid) = inr details ->
  Unified.crossChain params = Some cc ->
  let run := Unified.buyTrade USDT ESCROW ext ui decodeEvent rd params in
  (forall e, BigInt (Unified.destinationChainSelector cc) = inl e ->
     u_trace run = [Chain (ReadContract (tradesCall escrow tid))]
     /\ exists error, u_outcome run = inl error)
  /\ (forall selector, BigInt (Unified.destinationChainSelector cc) = inr selector ->
      malformedProvider (Unified.destinationContract cc) ->
      run = ([Chain (ReadContract (tradesCall escrow tid))],
             inl (Error "Cross-chain purchase failed. Please try again."))).
Proof.
  intros Hc Hn He Hu Htid Hqty Hlp Hpre Hlen Htrade Hcc run. subst run.
  unfold Unified.buyTrade, Unified.isLocal, Unified.checkedAddress, getTrade.
  unfold walletConnected in Hc. apply andb_true_iff in Hc as [Ha Hi].
  rewrite Ha, Hi, Hn, He, Hu, Htid, Hqty, Hlp, Hpre, Hlen, Hcc.
  cbn [negb orb Nat.eqb]. run_U. cbn [fst snd List.map app]. rewrite Htrade.
  cbn [fst snd List.map app].
  split.
  - intros e ->. cbn [fst snd app]. split; [reflexivity|]. eexists. reflexivity.
  - intros selector -> Hbad. cbn [fst snd app].
    assert (Hmsg : Unified.buyTradeError false
                     (errorMessageOf (Error "Invalid destination contract address"))
                   = "Cross-chain purchase failed. Please try again.")
      by (vm_compute; reflexivity).
    destruct (Unified.destinationContract cc) as [dest|]; cbn in Hbad.
    + destruct Hbad as [Hbad | Hbad].
      * rewrite Hbad. cbn [negb orb fst snd app]. rewrite Hmsg. reflexivity.
      * apply Nat.eqb_neq in Hbad. rewrite Hbad, orb_true_r.
        cbn [fst snd app]. rewrite Hmsg. reflexivity.
    + cbn [fst snd app]. rewrite Hmsg. reflexivity.
Qed.

Lemma sample_cross_chain_request (ext : Outside) :
  readContract ext = readContract calmChain ->
  CrossChainRequest sampleUsdtTable sampleEscrowTable ext onTargetChain sevenAcrossChains
    toBaseSepolia sampleEscrow sampleUsdt sampleLogistics baseEscrow 7 3
    10344971235874465080
    {| productCost := 10000000; active := true; remainingQuantity := 50 |}.
Proof.
  intros Hread. constructor; try reflexivity. rewrite Hread. reflexivity.
Qed.

Lemma unified_buyTrade_cross_chain_submission_witness :
  List.filter is_submission
    (u_trace (Unified.buyTrade sampleUsdtTable sampleEscrowTable calmChain obligingWallet
                sampleEventDecoder onTargetChain sevenAcrossChains))
  = [SubmitTx {| tx_address := sampleEscrow;
                 tx_functionName := "buyCrossChainTrade";
                 tx_args := Unified.crossChainArgs 10344971235874465080 baseEscrow 7 3
                              sampleLogistics sampleUsdt 30000000 30000000 1;
                 tx_value := Some 2000000000000000;
                 tx_gas := Some 650000;
                 tx_account := None |}].
Proof.
  exact (proj1 (unified_buyTrade_cross_chain_submission sampleUsdtTable sampleEscrowTable
                  calmChain obligingWallet sampleEventDecoder onTargetChain
                  sevenAcrossChains toBaseSepolia sampleEscrow sampleUsdt sampleLogistics
                  baseEscrow 7 3 10344971235874465080
                  {| productCost := 10000000; active := true; remainingQuantity := 50 |}
                  10000000000000000
                  (sample_cross_chain_request calmChain eq_refl) eq_refl)).
Defined.

Lemma unified_buyTrade_cross_chain_completion_witness :
  exists tx before,
    u_outcome (Unified.buyTrade sampleUsdtTable sampleEscrowTable routedChain obligingWallet
                 sampleEventDecoder onTargetChain sevenAcrossChains) = inr tx
    /\ Unified.t_crossChain tx = true
    /\ Unified.t_messageId tx = Some sampleMessageId
    /\ hash (Unified.t_payment tx) = "0xc0de"
    /\ u_trace (Unified.buyTrade sampleUsdtTable sampleEscrowTable routedChain
                  obligingWallet sampleEventDecoder onTargetChain sevenAcrossChains)
       = before
         ++ [Chain (WaitForTransactionReceipt "0xc0de" 120000);
             Snackbar "Cross-chain purchase initiated! Your transaction is being processed." "success";
             Chain (SetTimeout CbRefreshBalances 5000)].
Proof.
  destruct (unified_buyTrade_cross_chain_completion sampleUsdtTable sampleEscrowTable
              routedChain obligingWallet sampleEventDecoder onTargetChain
              sevenAcrossChains toBaseSepolia sampleEscrow sampleUsdt sampleLogistics
              baseEscrow 7 3 10344971235874465080
              {| productCost := 10000000; active := true; remainingQuantity := 50 |}
              10000000000000000 "0xc0de"
              (sample_cross_chain_request routedChain eq_refl) eq_refl eq_refl
              ltac:(discriminate)) as (_ & Hdone & _).
  destruct (Hdone _ eq_refl) as (tx & before & Hout & Hcross & Hmsg & Hhash & _ & _ & _ & Htrace).
  exists tx, before. repeat split; assumption.
Defined.

Lemma unified_buyTrade_checks_destination_after_trade_read_witness :
  Unified.buyTrade sampleUsdtTable sampleEscrowTable calmChain obligingWallet
    sampleEventDecoder onTargetChain sevenToNowhere
  = ([Chain (ReadContract (tradesCall sampleEscrow 7))],
     inl (Error "Cross-chain purchase failed. Please try again.")).
Proof.
  apply (proj2 (unified_buyTrade_checks_destination_after_trade_read sampleUsdtTable
                  sampleEscrowTable calmChain obligingWallet sampleEventDecoder
                  onTargetChain sevenToNowhere
                  {| Unified.destinationChainSelector := "10344971235874465080";
                     Unified.destinationContract := Some "abc";
                     Unified.payFeesIn := None |}
                  sampleEscrow sampleUsdt sampleLogistics 7 3
                  {| productCost := 10000000; active := true; remainingQuantity := 50 |}
                  eq_refl eq_refl eq_refl eq_refl eq_refl eq_refl eq_refl eq_refl eq_refl
                  eq_refl eq_refl)
          10344971235874465080 eq_refl).
  cbn. left. reflexivity.
Defined.

(** ** Numbers with white space around them

    [BigInt] drops the white space around its digits, the no-break space
    included, so such a trade id, quantity or selector is a number: the trade
    is read, the quantity is compared, the cross-chain purchase goes on to the
    wallet. *)
Example numbers_with_no_break_space :
  trace (getTrade sampleEscrowTable calmChain onTargetChain (String "160" "7"))
  = [ReadContract (tradesCall sampleEscrow 7)]
  /\ outcome (validateTradeBeforePurchase sampleEscrowTable calmChain onTargetChain
                "7" (String "160" "3") "") = inr true
  /\ existsb is_submission
       (u_trace (Unified.buyTrade sampleUsdtTable sampleEscrowTable calmChain
                   obligingWallet sampleEventDecoder onTargetChain
                   {| Unified.u_tradeId := "7"; Unified.u_quantity := "3";
                      Unified.u_logisticsProvider := Some sampleLogistics;
                      Unified.crossChain :=
                        Some {| Unified.destinationChainSelector :=
                                  String "160" "10344971235874465080";
                                Unified.destinationContract := Some baseEscrow;
                                Unified.payFeesIn := None |} |}))
     = true.
Proof. repeat split; vm_compute; reflexivity. Qed.
